(** * A WebRTC signaling server: room records, room service, signaling engine

    Shallow embedding of the Go packages [model], [repository], [service],
    [handler], [middleware] and [config], and the properties of the design
    document, settled on it.

    Conventions of the embedding.
    - [time.Time] and Unix seconds are integers; every function that reads
      [time.Now()] takes the instant as its argument [now].
    - A Go [error] is [option string] ([None] is [nil]); a [(T, error)] result
      is a pair.
    - The shared key-value store is reachable: its transport errors are not
      part of the model, the errors the code itself raises are.
    - Writing a frame to a stream succeeds and is logged: the log holds the
      frame handed to the stream's encoder, and [onStream] gives the frame
      as the encoder writes it. *)

From Stdlib Require Import ZArith.
From stdpp Require Import base option list strings gmap.

Definition error := option string.

(** ** Package model *)

Definition MaxRoomUsers : nat := 10.

Module Room.

Record t := mk {
  ID : string;
  Users : list string;
  CreatedAt : Z;
  UpdatedAt : Z
}.

Definition CanJoin (r : t) : bool :=
  bool_decide (length (Users r) < MaxRoomUsers).

(** The range loop of [AddUser]: is [userID] one of [ids]? *)
Fixpoint listed (ids : list string) (userID : string) : bool :=
  match ids with
  | [] => false
  | id :: rest => if bool_decide (id = userID) then true else listed rest userID
  end.

(** The method has a pointer receiver: the room after the call is returned
    next to the boolean. *)
Definition AddUser (now : Z) (r : t) (userID : string) : t * bool :=
  if negb (CanJoin r) then (r, false)
  else if listed (Users r) userID then (r, true)
  else (mk (ID r) (Users r ++ [userID]) (CreatedAt r) now, true).

(** The range loop of [RemoveUser]: the list without the first entry equal
    to [userID], when there is one. *)
Fixpoint without (ids : list string) (userID : string) : option (list string) :=
  match ids with
  | [] => None
  | id :: rest =>
      if bool_decide (id = userID) then Some rest
      else match without rest userID with
           | Some rest' => Some (id :: rest')
           | None => None
           end
  end.

Definition RemoveUser (now : Z) (r : t) (userID : string) : t * bool :=
  match without (Users r) userID with
  | Some us => (mk (ID r) us (CreatedAt r) now, true)
  | None => (r, false)
  end.

Definition IsEmpty (r : t) : bool := bool_decide (length (Users r) = 0).

Definition GetOtherUsers (r : t) (userID : string) : list string :=
  filter (λ id, id ≠ userID) (Users r).

End Room.

Module UserSession.

Record t := mk {
  ID : string;
  SessionID : string;
  RoomID : string;
  CreatedAt : Z;
  LastSeen : Z
}.

End UserSession.

(** A connected user. The engine passes [*model.User] pointers that it took
    from the connection registry; the pointer is represented by the key of
    the registry entry, which is the user's [ID] ([AddConnection] stores every
    record under its own [ID] and nothing changes an [ID]). The [Connection]
    is the stream of that user: a frame written to it is logged under the
    same key. *)
Module User.

Record t := mk {
  SessionID : string;
  RoomID : string;
  CreatedAt : Z;
  LastSeen : Z
}.

Definition withRoomID (roomID : string) (u : t) : t :=
  mk (SessionID u) roomID (CreatedAt u) (LastSeen u).

End User.

Definition MessageTypeJoinRoom : string := "join_room".
Definition MessageTypeLeaveRoom : string := "leave_room".
Definition MessageTypeOffer : string := "offer".
Definition MessageTypeAnswer : string := "answer".
Definition MessageTypeIceCandidate : string := "ice_candidate".
Definition MessageTypeUserJoined : string := "user_joined".
Definition MessageTypeUserLeft : string := "user_left".
Definition MessageTypeRoomFull : string := "room_full".
Definition MessageTypeError : string := "error".

Record JoinRoomData := { jrd_RoomID : string }.
Record ErrorData := { ed_Code : Z; ed_Message : string }.
Record UserJoinedData := { ujd_UserID : string; ujd_Users : list string }.
Record UserLeftData := { uld_UserID : string; uld_Users : list string }.

(** [json.RawMessage]. What a client sent is a byte string, kept as it came
    until a stream's encoder writes it (see [reencoded]); what the server
    marshals is kept as the value that was marshalled. *)
Inductive RawMessage :=
  | NoData
  | Bytes (b : string)
  | ErrorJSON (d : ErrorData)
  | UserJoinedJSON (d : UserJoinedData)
  | UserLeftJSON (d : UserLeftData).

Module Message.

Record t := mk {
  Type_ : string;
  RoomID : string;
  UserID : string;
  TargetID : string;
  Data : RawMessage;
  Timestamp : Z
}.

Definition stamp (userID : string) (now : Z) (m : t) : t :=
  mk (Type_ m) (RoomID m) userID (TargetID m) (Data m) now.

Definition withUserID (userID : string) (m : t) : t :=
  mk (Type_ m) (RoomID m) userID (TargetID m) (Data m) (Timestamp m).

End Message.

#[global] Instance ErrorData_eq_dec : EqDecision ErrorData.
Proof. solve_decision. Defined.
#[global] Instance UserJoinedData_eq_dec : EqDecision UserJoinedData.
Proof. solve_decision. Defined.
#[global] Instance UserLeftData_eq_dec : EqDecision UserLeftData.
Proof. solve_decision. Defined.
#[global] Instance RawMessage_eq_dec : EqDecision RawMessage.
Proof. solve_decision. Defined.
#[global] Instance Message_eq_dec : EqDecision Message.t.
Proof. solve_decision. Defined.

(** ** Package repository

    The shared store keeps [user:<id>] and [room:<id>] keys; the two prefixes
    never collide, so each has its own map. Values round-trip through JSON
    unchanged. *)

Record Redis := {
  rooms : gmap string Room.t;
  users : gmap string UserSession.t
}.

(** A computation on the store. *)
Definition KV (A : Type) : Type := Redis → A * Redis.

Definition kv_ret {A} (a : A) : KV A := λ db, (a, db).

Definition kv_bind {A B} (c : KV A) (k : A → KV B) : KV B :=
  λ db, k (c db).1 (c db).2.

Declare Scope kv_scope.
Delimit Scope kv_scope with kv.
Notation "'let*' x ':=' c 'in' k" := (kv_bind c (λ x, k))
  (at level 10, x name, c at level 100, k at level 200) : kv_scope.
Notation "'let*' ' p ':=' c 'in' k" := (kv_bind c (λ x, match x with p => k end))
  (at level 10, p pattern, c at level 100, k at level 200) : kv_scope.

Module RedisRepository.
Local Open Scope kv_scope.

Definition SaveUser (user : UserSession.t) : KV error :=
  λ db, (None, {| rooms := rooms db;
                  users := <[UserSession.ID user := user]> (users db) |}).

Definition GetUser (userID : string) : KV (option UserSession.t * error) :=
  λ db, ((users db !! userID, None), db).

Definition DeleteUser (userID : string) : KV error :=
  λ db, (None, {| rooms := rooms db; users := delete userID (users db) |}).

Definition UpdateUserRoom (now : Z) (userID roomID : string) : KV error :=
  let* '(user, err) := GetUser userID in
  match err with
  | Some e => kv_ret (Some e)
  | None =>
      match user with
      | None => kv_ret (Some ("user not found: " +:+ userID))
      | Some user =>
          SaveUser (UserSession.mk (UserSession.ID user) (UserSession.SessionID user)
                      roomID (UserSession.CreatedAt user) now)
      end
  end.

Definition SaveRoom (room : Room.t) : KV error :=
  λ db, (None, {| rooms := <[Room.ID room := room]> (rooms db);
                  users := users db |}).

Definition GetRoom (roomID : string) : KV (option Room.t * error) :=
  λ db, ((rooms db !! roomID, None), db).

Definition DeleteRoom (roomID : string) : KV error :=
  λ db, (None, {| rooms := delete roomID (rooms db); users := users db |}).

Definition AddUserToRoom (now : Z) (roomID userID : string) : KV error :=
  let* '(room, err) := GetRoom roomID in
  match err with
  | Some e => kv_ret (Some e)
  | None =>
      let room := match room with
                  | Some room => room
                  | None => Room.mk roomID [] now now
                  end in
      let '(room, ok) := Room.AddUser now room userID in
      if negb ok then kv_ret (Some "room is full or user already exists")
      else SaveRoom room
  end.

Definition RemoveUserFromRoom (now : Z) (roomID userID : string) : KV error :=
  let* '(room, err) := GetRoom roomID in
  match err with
  | Some e => kv_ret (Some e)
  | None =>
      match room with
      | None => kv_ret None
      | Some room =>
          let room := (Room.RemoveUser now room userID).1 in
          if Room.IsEmpty room then DeleteRoom roomID else SaveRoom room
      end
  end.

Definition GetRoomUsers (roomID : string) : KV (list string * error) :=
  let* '(room, err) := GetRoom roomID in
  match err with
  | Some e => kv_ret ([], Some e)
  | None =>
      match room with
      | None => kv_ret ([], None)
      | Some room => kv_ret (Room.Users room, None)
      end
  end.

End RedisRepository.

(** ** Package service: the room service and the user service *)

Module RoomService.
Local Open Scope kv_scope.

Definition JoinRoom (now : Z) (userID roomID : string) : KV (option Room.t * error) :=
  let* '(room, err) := RedisRepository.GetRoom roomID in
  match err with
  | Some e => kv_ret (None, Some e)
  | None =>
      if match room with Some room => negb (Room.CanJoin room) | None => false end
      then kv_ret (None, Some "room is full")
      else
        let* err := RedisRepository.AddUserToRoom now roomID userID in
        match err with
        | Some e => kv_ret (None, Some e)
        | None =>
            let* err := RedisRepository.UpdateUserRoom now userID roomID in
            match err with
            | Some e => kv_ret (None, Some e)
            | None => RedisRepository.GetRoom roomID
            end
        end
  end.

Definition LeaveRoom (now : Z) (userID roomID : string) : KV error :=
  let* err := RedisRepository.RemoveUserFromRoom now roomID userID in
  match err with
  | Some e => kv_ret (Some e)
  | None =>
      let* err := RedisRepository.UpdateUserRoom now userID "" in
      match err with
      | Some e => kv_ret (Some e)
      | None => kv_ret None
      end
  end.

Definition GetRoomUsers (roomID : string) : KV (list string * error) :=
  RedisRepository.GetRoomUsers roomID.

Definition GetOtherUsersInRoom (roomID excludeUserID : string)
  : KV (list string * error) :=
  let* '(users, err) := RedisRepository.GetRoomUsers roomID in
  match err with
  | Some e => kv_ret ([], Some e)
  | None => kv_ret (filter (λ userID, userID ≠ excludeUserID) users, None)
  end.

Definition IsRoomFull (roomID : string) : KV (bool * error) :=
  let* '(room, err) := RedisRepository.GetRoom roomID in
  match err with
  | Some e => kv_ret (false, Some e)
  | None =>
      match room with
      | None => kv_ret (false, None)
      | Some room => kv_ret (negb (Room.CanJoin room), None)
      end
  end.

End RoomService.

Module UserService.
Local Open Scope kv_scope.

Definition UpdateUserActivity (now : Z) (userID : string) : KV error :=
  let* '(user, err) := RedisRepository.GetUser userID in
  match err with
  | Some e => kv_ret (Some e)
  | None =>
      match user with
      | None => kv_ret None
      | Some user =>
          RedisRepository.SaveUser
            (UserSession.mk (UserSession.ID user) (UserSession.SessionID user)
               (UserSession.RoomID user) (UserSession.CreatedAt user) now)
      end
  end.

(** [uuid.New().String()] is the argument [newID]. *)
Definition CreateUser (newID : string) (now : Z) (sessionID : string)
  : KV (option UserSession.t * error) :=
  let user := UserSession.mk newID sessionID "" now now in
  let* err := RedisRepository.SaveUser user in
  match err with
  | Some e => kv_ret (None, Some e)
  | None => kv_ret (Some user, None)
  end.

Definition GetUser (userID : string) : KV (option UserSession.t * error) :=
  RedisRepository.GetUser userID.

Definition GetOrCreateUser (newID : string) (now : Z) (sessionID : string)
  : KV (option UserSession.t * error) :=
  let* '(user, err) := CreateUser newID now sessionID in
  match err with
  | Some e => kv_ret (None, Some e)
  | None => kv_ret (user, None)
  end.

Definition DeleteUser (userID : string) : KV error :=
  RedisRepository.DeleteUser userID.

Definition JoinRoom (now : Z) (userID roomID : string) : KV error :=
  RedisRepository.UpdateUserRoom now userID roomID.

Definition LeaveRoom (now : Z) (userID : string) : KV error :=
  RedisRepository.UpdateUserRoom now userID "".

End UserService.

(** ** Package service: the signaling engine

    One goroutine's view of the [SignalingService]. [connMutex] records what
    this goroutine holds of the registry lock. Go's [sync.RWMutex] is not
    reentrant: locking it again from the goroutine that holds it parks the
    goroutine for good. [heldAcross] is a monitor, not program state: it
    collects the blocking points (a call to the shared store, a write to a
    stream) that were passed while the goroutine held the lock. *)

Inductive BlockingPoint := AtKV | AtStreamWrite.

#[global] Instance BlockingPoint_eq_dec : EqDecision BlockingPoint.
Proof. solve_decision. Defined.

Record RWMutex := { writer : bool; readers : nat }.

Definition unlocked : RWMutex := {| writer := false; readers := 0 |}.

Definition held (m : RWMutex) : bool := writer m || bool_decide (0 < readers m).

Record Engine := {
  redis : Redis;
  connections : gmap string User.t;
  connMutex : RWMutex;
  wire : list (string * Message.t);
  heldAcross : list BlockingPoint
}.

Definition set_redis (db : Redis) (s : Engine) : Engine :=
  {| redis := db; connections := connections s; connMutex := connMutex s;
     wire := wire s; heldAcross := heldAcross s |}.
Definition set_connections (c : gmap string User.t) (s : Engine) : Engine :=
  {| redis := redis s; connections := c; connMutex := connMutex s;
     wire := wire s; heldAcross := heldAcross s |}.
Definition set_connMutex (m : RWMutex) (s : Engine) : Engine :=
  {| redis := redis s; connections := connections s; connMutex := m;
     wire := wire s; heldAcross := heldAcross s |}.
Definition set_wire (w : list (string * Message.t)) (s : Engine) : Engine :=
  {| redis := redis s; connections := connections s; connMutex := connMutex s;
     wire := w; heldAcross := heldAcross s |}.
Definition set_heldAcross (h : list BlockingPoint) (s : Engine) : Engine :=
  {| redis := redis s; connections := connections s; connMutex := connMutex s;
     wire := wire s; heldAcross := h |}.

(** A step of the goroutine either returns or parks it on [connMutex]. *)
Inductive Outcome (A : Type) :=
  | Done (a : A) (s : Engine)
  | Parked (s : Engine).
Arguments Done {A} a s.
Arguments Parked {A} s.

Definition M (A : Type) : Type := Engine → Outcome A.

Definition ret {A} (a : A) : M A := λ s, Done a s.

Definition bind {A B} (c : M A) (k : A → M B) : M B :=
  λ s, match c s with
       | Done a s' => k a s'
       | Parked s' => Parked s'
       end.

Declare Scope engine_scope.
Delimit Scope engine_scope with engine.
Notation "'let*' x ':=' c 'in' k" := (bind c (λ x, k))
  (at level 10, x name, c at level 100, k at level 200) : engine_scope.
Notation "'let*' ' p ':=' c 'in' k" := (bind c (λ x, match x with p => k end))
  (at level 10, p pattern, c at level 100, k at level 200) : engine_scope.
Notation "c ;; k" := (bind c (λ _, k))
  (at level 100, k at level 200, right associativity) : engine_scope.

Definition Lock : M unit :=
  λ s, if held (connMutex s) then Parked s
       else Done tt (set_connMutex {| writer := true; readers := readers (connMutex s) |} s).

Definition Unlock : M unit :=
  λ s, Done tt (set_connMutex {| writer := false; readers := readers (connMutex s) |} s).

Definition RLock : M unit :=
  λ s, if writer (connMutex s) then Parked s
       else Done tt (set_connMutex {| writer := false; readers := S (readers (connMutex s)) |} s).

Definition RUnlock : M unit :=
  λ s, Done tt (set_connMutex {| writer := writer (connMutex s);
                                 readers := pred (readers (connMutex s)) |} s).

Definition blocking (p : BlockingPoint) : M unit :=
  λ s, if held (connMutex s) then Done tt (set_heldAcross (heldAcross s ++ [p]) s)
       else Done tt s.

(** A call into the room or user service: a blocking point, then the effect
    on the store. *)
Definition kv {A} (c : KV A) : M A :=
  λ s, match blocking AtKV s with
       | Done _ s' => Done (c (redis s')).1 (set_redis (c (redis s')).2 s')
       | Parked s' => Parked s'
       end.

(** [user.Connection.WriteJSON(msg)]. [wire] logs the frame handed to the
    encoder of the stream, with the user it goes to. *)
Definition WriteJSON (user : string) (msg : Message.t) : M error :=
  λ s, match blocking AtStreamWrite s with
       | Done _ s' => Done None (set_wire (wire s' ++ [(user, msg)]) s')
       | Parked s' => Parked s'
       end.

(** What the encoder of [WriteJSON] makes of a payload. [json.Encoder] writes
    a [json.RawMessage] through the compaction of [encoding/json], with HTML
    escaping: white space between tokens is dropped, and [<], [>], [&],
    U+2028 and U+2029 are escaped. [compact] is that function. What the
    server marshalled went through it already. *)
Definition reencoded (compact : string → string) (data : RawMessage) : RawMessage :=
  match data with
  | Bytes b => Bytes (compact b)
  | _ => data
  end.

(** The frame as it is on the stream. *)
Definition onStream (compact : string → string) (msg : Message.t) : Message.t :=
  Message.mk (Message.Type_ msg) (Message.RoomID msg) (Message.UserID msg)
    (Message.TargetID msg) (reencoded compact (Message.Data msg))
    (Message.Timestamp msg).

(** What [user] has received: the frames written to its stream, in order, as
    they are on the stream. *)
Definition received (compact : string → string) (user : string) (s : Engine)
  : list Message.t :=
  onStream compact <$> (filter (λ f, f.1 = user) (wire s)).*2.

(** [user.RoomID], read through the pointer. A pointer is only ever taken
    from the registry, and its entry is there for as long as it is used. *)
Definition cachedRoom (user : string) (s : Engine) : string :=
  match connections s !! user with
  | Some u => User.RoomID u
  | None => ""
  end.

Definition getRoomID (user : string) : M string :=
  λ s, Done (cachedRoom user s) s.

(** [user.RoomID = roomID], written through the pointer. *)
Definition setRoomID (user roomID : string) : M unit :=
  λ s, Done tt (set_connections (alter (User.withRoomID roomID) user (connections s)) s).

Module SignalingService.
Local Open Scope engine_scope.

Section Engine.

(** [json.Unmarshal] into a [model.Message] and into a [model.JoinRoomData];
    [None] when it returns an error. *)
Variable unmarshalMessage : string → option Message.t.
Variable unmarshalJoinRoomData : RawMessage → option JoinRoomData.

Definition AddConnection (now : Z) (userID sessionID : string) : M string :=
  Lock;;
  let* conns := (λ s, Done (connections s) s) in
  (λ s, Done tt (set_connections (<[userID := User.mk sessionID "" now now]> conns) s));;
  Unlock;;
  ret userID.

(** [(user, exists)]: the pointer, which is the key, when there is an entry. *)
Definition GetConnection (userID : string) : M (option string) :=
  RLock;;
  let* conns := (λ s, Done (connections s) s) in
  let found := match conns !! userID with
               | Some _ => Some userID
               | None => None
               end in
  RUnlock;;
  ret found.

Definition sendMessage (user : string) (msg : Message.t) : M error :=
  let* err := WriteJSON user msg in
  match err with
  | Some e => ret (Some e)
  | None => ret None
  end.

Definition sendError (now : Z) (user : string) (code : Z) (message : string) : M error :=
  sendMessage user
    (Message.mk MessageTypeError "" "" ""
       (ErrorJSON {| ed_Code := code; ed_Message := message |}) now).

Definition forwardToUser (targetUserID : string) (msg : Message.t) : M error :=
  let* targetUser := GetConnection targetUserID in
  match targetUser with
  | None => ret (Some ("target user not connected: " +:+ targetUserID))
  | Some targetUser => sendMessage targetUser msg
  end.

Fixpoint broadcastToUsers (userIDs : list string) (msg : Message.t) : M unit :=
  match userIDs with
  | [] => ret tt
  | userID :: rest =>
      let* user := GetConnection userID in
      match user with
      | Some user => sendMessage user msg;; broadcastToUsers rest msg
      | None => broadcastToUsers rest msg
      end
  end.

Fixpoint filterConnectedUsers (userIDs : list string) : M (list string) :=
  match userIDs with
  | [] => ret []
  | userID :: rest =>
      let* user := GetConnection userID in
      let* connectedUsers := filterConnectedUsers rest in
      match user with
      | Some _ => ret (userID :: connectedUsers)
      | None => ret connectedUsers
      end
  end.

(** The two loops of [cleanupDisconnectedUsersFromRoom]. *)
Fixpoint disconnectedAmong (roomUsers : list string) : M (list string) :=
  match roomUsers with
  | [] => ret []
  | userID :: rest =>
      let* user := GetConnection userID in
      let* disconnectedUsers := disconnectedAmong rest in
      match user with
      | Some _ => ret disconnectedUsers
      | None => ret (userID :: disconnectedUsers)
      end
  end.

Fixpoint leaveAll (now : Z) (roomID : string) (disconnectedUsers : list string) : M unit :=
  match disconnectedUsers with
  | [] => ret tt
  | userID :: rest =>
      kv (RoomService.LeaveRoom now userID roomID);;
      leaveAll now roomID rest
  end.

Definition cleanupDisconnectedUsersFromRoom (now : Z) (roomID : string) : M error :=
  let* '(roomUsers, err) := kv (RoomService.GetRoomUsers roomID) in
  match err with
  | Some e => ret (Some e)
  | None =>
      let* disconnectedUsers := disconnectedAmong roomUsers in
      leaveAll now roomID disconnectedUsers;;
      ret None
  end.

(** The room that is left is [user.RoomID]; the argument [roomID] is not
    read, here as in the source. *)
Definition handleLeaveRoom (now : Z) (user roomID : string) : M error :=
  let* room := getRoomID user in
  if bool_decide (room = "") then ret None
  else
    let* '(otherUsers, _) := kv (RoomService.GetOtherUsersInRoom room user) in
    let* err := kv (RoomService.LeaveRoom now user room) in
    match err with
    | Some _ => sendError now user 500 "Failed to leave room"
    | None =>
        let oldRoomID := room in
        Lock;;
        setRoomID user "";;
        Unlock;;
        (if bool_decide (0 < length otherUsers)
         then broadcastToUsers otherUsers
                (Message.mk MessageTypeUserLeft oldRoomID user ""
                   (UserLeftJSON {| uld_UserID := user; uld_Users := otherUsers |}) now)
         else ret tt);;
        ret None
    end.

Definition handleJoinRoom (now : Z) (user : string) (msg : Message.t) : M error :=
  match unmarshalJoinRoomData (Message.Data msg) with
  | None => sendError now user 400 "Invalid join room data"
  | Some joinData =>
      let roomID := jrd_RoomID joinData in
      let* room := getRoomID user in
      (if bool_decide (room ≠ "") && bool_decide (room ≠ roomID)
       then handleLeaveRoom now user room
       else ret None);;
      cleanupDisconnectedUsersFromRoom now roomID;;
      let* '(isFull, err) := kv (RoomService.IsRoomFull roomID) in
      match err with
      | Some _ => sendError now user 500 "Failed to check room status"
      | None =>
          kv (RoomService.GetRoomUsers roomID);;
          if isFull
          then sendMessage user (Message.mk MessageTypeRoomFull roomID "" "" NoData now)
          else
            let* '(_, err) := kv (RoomService.JoinRoom now user roomID) in
            match err with
            | Some _ => sendError now user 500 "Failed to join room"
            | None =>
                Lock;;
                setRoomID user roomID;;
                Unlock;;
                let* '(otherUsers, _) := kv (RoomService.GetOtherUsersInRoom roomID user) in
                let* connectedUsers := filterConnectedUsers otherUsers in
                let activeUsers := connectedUsers ++ [user] in
                let userJoined :=
                  Message.mk MessageTypeUserJoined roomID user ""
                    (UserJoinedJSON {| ujd_UserID := user; ujd_Users := activeUsers |}) now in
                (if bool_decide (0 < length connectedUsers)
                 then broadcastToUsers connectedUsers userJoined
                 else ret tt);;
                sendMessage user userJoined
            end
      end
  end.

Definition handleOffer (now : Z) (user : string) (msg : Message.t) : M error :=
  let* room := getRoomID user in
  if bool_decide (room = "") then sendError now user 400 "User not in a room"
  else if bool_decide (Message.TargetID msg ≠ "")
  then forwardToUser (Message.TargetID msg) (Message.withUserID user msg)
  else sendError now user 400 "Target user ID required for offer".

Definition handleAnswer (now : Z) (user : string) (msg : Message.t) : M error :=
  let* room := getRoomID user in
  if bool_decide (room = "") then sendError now user 400 "User not in a room"
  else if bool_decide (Message.TargetID msg ≠ "")
  then forwardToUser (Message.TargetID msg) (Message.withUserID user msg)
  else sendError now user 400 "Target user ID required for answer".

Definition handleIceCandidate (now : Z) (user : string) (msg : Message.t) : M error :=
  let* room := getRoomID user in
  if bool_decide (room = "") then sendError now user 400 "User not in a room"
  else if bool_decide (Message.TargetID msg ≠ "")
  then forwardToUser (Message.TargetID msg) (Message.withUserID user msg)
  else sendError now user 400 "Target user ID required for ICE candidate".

(** The error of [json.Unmarshal] is wrapped; its own text is not kept. *)
Definition HandleMessage (now : Z) (userID messageData : string) : M error :=
  match unmarshalMessage messageData with
  | None => ret (Some "failed to unmarshal message")
  | Some msg =>
      let msg := Message.stamp userID now msg in
      let* user := GetConnection userID in
      match user with
      | None => ret (Some ("user connection not found: " +:+ userID))
      | Some user =>
          if bool_decide (Message.Type_ msg = MessageTypeJoinRoom)
          then handleJoinRoom now user msg
          else if bool_decide (Message.Type_ msg = MessageTypeLeaveRoom)
          then handleLeaveRoom now user (Message.RoomID msg)
          else if bool_decide (Message.Type_ msg = MessageTypeOffer)
          then handleOffer now user msg
          else if bool_decide (Message.Type_ msg = MessageTypeAnswer)
          then handleAnswer now user msg
          else if bool_decide (Message.Type_ msg = MessageTypeIceCandidate)
          then handleIceCandidate now user msg
          else ret (Some ("unknown message type: " +:+ Message.Type_ msg))
      end
  end.

(** The deferred [Unlock] runs when the body returns. *)
Definition RemoveConnection (now : Z) (userID : string) : M unit :=
  Lock;;
  let* conns := (λ s, Done (connections s) s) in
  match conns !! userID with
  | Some user =>
      (if bool_decide (User.RoomID user ≠ "")
       then handleLeaveRoom now userID (User.RoomID user)
       else ret None);;
      (λ s, Done tt (set_connections (delete userID (connections s)) s))
  | None => ret tt
  end;;
  Unlock.

End Engine.
End SignalingService.

(** ** Package handler

    The read loop of [handleConnection], over the frames [ReadMessage]
    returns before it fails, each with the instant it arrived at. An error of
    [HandleMessage] is logged and the loop goes on. *)

Module WebSocketHandler.
Local Open Scope engine_scope.

Section Handler.

Variable unmarshalMessage : string → option Message.t.
Variable unmarshalJoinRoomData : RawMessage → option JoinRoomData.

Fixpoint handleConnection (userID : string) (frames : list (Z * string)) : M unit :=
  match frames with
  | [] => ret tt
  | (now, message) :: rest =>
      SignalingService.HandleMessage unmarshalMessage unmarshalJoinRoomData
        now userID message;;
      kv (UserService.UpdateUserActivity now userID);;
      handleConnection userID rest
  end.

End Handler.
End WebSocketHandler.

(** ** Package middleware

    Of a request, the value of the [signaling_session] cookie, when the
    request has one, and the session id held by its context, when one was
    put there. [SessionMiddleware] returns the request it hands to the next
    handler and the value of the cookie it sets on the response, when it sets
    one; the id it mints, [uuid.New().String()], is the argument [newID]. *)

Module Middleware.

Record Request := {
  cookie : option string;
  contextSessionID : option string
}.

Definition setSessionID (r : Request) (sessionID : string) : Request :=
  {| cookie := cookie r; contextSessionID := Some sessionID |}.

Definition getSessionIDFromContext (r : Request) : string :=
  match contextSessionID r with
  | Some sessionID => sessionID
  | None => ""
  end.

Definition SessionMiddleware (newID : string) (r : Request) : Request * option string :=
  match cookie r with
  | Some value =>
      if bool_decide (value = "")
      then (setSessionID r newID, Some newID)
      else (setSessionID r value, None)
  | None => (setSessionID r newID, Some newID)
  end.

Definition GetSessionID (r : Request) : string :=
  let sessionID := getSessionIDFromContext r in
  if bool_decide (sessionID ≠ "") then sessionID
  else match cookie r with
       | Some value => value
       | None => ""
       end.

End Middleware.

(** ** Package config

    The environment is a map from names to values; [os.Getenv] gives the
    empty string for a name that is not set. [strconv.Atoi] is the argument
    [Atoi], [None] when it returns an error. *)

Module Config.

Record ServerConfig := {
  Port : string;
  Host : string;
  ReadTimeout : Z;
  WriteTimeout : Z
}.

Record RedisConfig := {
  RedisHost : string;
  RedisPort : string;
  Password : string;
  DB : Z
}.

Record t := {
  Server : ServerConfig;
  Redis : RedisConfig;
  STUN : list string
}.

Definition Getenv (env : gmap string string) (key : string) : string :=
  default "" (env !! key).

Definition getEnv (env : gmap string string) (key defaultValue : string) : string :=
  let value := Getenv env key in
  if bool_decide (value ≠ "") then value else defaultValue.

Definition getEnvAsInt (Atoi : string → option Z) (env : gmap string string)
    (key : string) (defaultValue : Z) : Z :=
  let value := Getenv env key in
  if bool_decide (value ≠ "")
  then match Atoi value with
       | Some intValue => intValue
       | None => defaultValue
       end
  else defaultValue.

Definition Load (Atoi : string → option Z) (env : gmap string string) : t :=
  {| Server :=
       {| Port := getEnv env "SERVER_PORT" "8080";
          Host := getEnv env "SERVER_HOST" "0.0.0.0";
          ReadTimeout := getEnvAsInt Atoi env "READ_TIMEOUT" 60;
          WriteTimeout := getEnvAsInt Atoi env "WRITE_TIMEOUT" 60 |};
     Redis :=
       {| RedisHost := getEnv env "REDIS_HOST" "localhost";
          RedisPort := getEnv env "REDIS_PORT" "6379";
          Password := getEnv env "REDIS_PASSWORD" "";
          DB := getEnvAsInt Atoi env "REDIS_DB" 0 |};
     STUN := [getEnv env "STUN_URL" "stun:localhost:3478";
              getEnv env "TURN_URL" "turn:localhost:3478"] |}.

End Config.

(** ** Vocabulary of the properties *)

(** A room record is well formed: no user id twice, at most [MaxRoomUsers]
    user ids. *)
Definition room_ok (r : Room.t) : Prop :=
  NoDup (Room.Users r) ∧ length (Room.Users r) ≤ MaxRoomUsers.

Definition store_ok (db : Redis) : Prop :=
  map_Forall (λ _ r, room_ok r) (rooms db).

(** Records sit under the key made from their own id, as [SaveRoom] and
    [SaveUser] put them, and no room record with an empty member list is
    kept, as [RemoveUserFromRoom] leaves it. *)
Definition keyed (db : Redis) : Prop :=
  (∀ k r, rooms db !! k = Some r → Room.ID r = k ∧ Room.Users r ≠ []) ∧
  (∀ k u, users db !! k = Some u → UserSession.ID u = k).

Definition emptyRedis : Redis := {| rooms := ∅; users := ∅ |}.

(** The operations that write room records. *)
Inductive RoomOp :=
  | OpAddUserToRoom (now : Z) (roomID userID : string)
  | OpRemoveUserFromRoom (now : Z) (roomID userID : string)
  | OpJoinRoom (now : Z) (userID roomID : string)
  | OpLeaveRoom (now : Z) (userID roomID : string)
  | OpSaveUser (u : UserSession.t)
  | OpDeleteUser (userID : string).

Definition applyOp (op : RoomOp) (db : Redis) : Redis :=
  match op with
  | OpAddUserToRoom now roomID userID =>
      (RedisRepository.AddUserToRoom now roomID userID db).2
  | OpRemoveUserFromRoom now roomID userID =>
      (RedisRepository.RemoveUserFromRoom now roomID userID db).2
  | OpJoinRoom now userID roomID => (RoomService.JoinRoom now userID roomID db).2
  | OpLeaveRoom now userID roomID => (RoomService.LeaveRoom now userID roomID db).2
  | OpSaveUser u => (RedisRepository.SaveUser u db).2
  | OpDeleteUser userID => (RedisRepository.DeleteUser userID db).2
  end.

Definition applyOps (ops : list RoomOp) (db : Redis) : Redis :=
  foldl (λ db op, applyOp op db) db ops.

(** The goroutine holds nothing of the registry lock. *)
Definition free (s : Engine) : Prop := connMutex s = unlocked.

Definition connected (s : Engine) (userID : string) : Prop :=
  is_Some (connections s !! userID).

#[global] Instance connected_dec s userID : Decision (connected s userID).
Proof. unfold connected. apply _. Defined.

Definition roomMembers (db : Redis) (roomID : string) : list string :=
  match rooms db !! roomID with
  | Some r => Room.Users r
  | None => []
  end.

Definition isUserJoined (f : string * Message.t) : Prop :=
  Message.Type_ f.2 = MessageTypeUserJoined.

#[global] Instance isUserJoined_dec f : Decision (isUserJoined f).
Proof. unfold isUserJoined. apply _. Defined.

(** Sample data. *)
Definition tenUsers : list string :=
  ["u0"; "u1"; "u2"; "u3"; "u4"; "u5"; "u6"; "u7"; "u8"; "u9"].

Definition fullRoom : Room.t := Room.mk "R" tenUsers 0 0.

Definition pairRoom : Room.t := Room.mk "R" ["u0"; "u1"] 0 0.

Definition session (userID : string) : UserSession.t :=
  UserSession.mk userID "cookie" "" 0 0.

(** Eleven users register a session and join the room [R], one after the
    other. *)
Definition elevenJoins : list RoomOp :=
  (tenUsers ++ ["u10"]) ≫= λ userID, [OpSaveUser (session userID); OpJoinRoom 1 userID "R"].

Definition fullStore : Redis :=
  {| rooms := {[ "R" := fullRoom ]}; users := {[ "u0" := session "u0" ]} |}.

Definition pairStore : Redis :=
  {| rooms := {[ "R" := pairRoom ]};
     users := {[ "u0" := session "u0"; "u1" := session "u1" ]} |}.

(** What the stale-member sweep does to the store: every member of the room
    without a connection leaves it, in the order of the member list. *)
Definition leaveAllStore (now : Z) (roomID : string) (userIDs : list string)
    (db : Redis) : Redis :=
  foldl (λ db userID, (RoomService.LeaveRoom now userID roomID db).2) db userIDs.

Definition sweptStore (now : Z) (roomID : string) (s : Engine) : Redis :=
  leaveAllStore now roomID
    (filter (λ userID, ¬ connected s userID) (roomMembers (redis s) roomID))
    (redis s).

Definition deliver (msg : Message.t) (userIDs : list string) : list (string * Message.t) :=
  map (λ userID, (userID, msg)) userIDs.

Definition errorFrame (now code : Z) (message : string) : Message.t :=
  Message.mk MessageTypeError "" "" ""
    (ErrorJSON {| ed_Code := code; ed_Message := message |}) now.

Definition userJoinedFrame (now : Z) (roomID user : string) (users : list string)
  : Message.t :=
  Message.mk MessageTypeUserJoined roomID user ""
    (UserJoinedJSON {| ujd_UserID := user; ujd_Users := users |}) now.

Definition userLeftFrame (now : Z) (roomID user : string) (users : list string)
  : Message.t :=
  Message.mk MessageTypeUserLeft roomID user ""
    (UserLeftJSON {| uld_UserID := user; uld_Users := users |}) now.

(** The kinds that [HandleMessage] dispatches. *)
Definition handledKinds : list string :=
  [MessageTypeJoinRoom; MessageTypeLeaveRoom; MessageTypeOffer; MessageTypeAnswer;
   MessageTypeIceCandidate].

Definition relayedKinds : list string :=
  [MessageTypeOffer; MessageTypeAnswer; MessageTypeIceCandidate].

(** The statements of [handleJoinRoom] that come before the capacity check:
    leave the previous room, sweep the members without a connection. *)
Definition joinPrelude (now : Z) (user roomID : string) : M unit :=
  (let* room := getRoomID user in
   (if bool_decide (room ≠ "") && bool_decide (room ≠ roomID)
    then SignalingService.handleLeaveRoom now user room
    else ret None);;
   SignalingService.cleanupDisconnectedUsersFromRoom now roomID;;
   ret tt)%engine.

(** From [s] to [s1] the lock stays free, the same users stay connected, and
    the frames written are not [user_joined] frames. *)
Definition noJoinNotice (s s1 : Engine) : Prop :=
  free s1 ∧
  (∀ userID, connected s1 userID ↔ connected s userID) ∧
  heldAcross s1 = heldAcross s ∧
  ∃ pre, wire s1 = wire s ++ pre ∧ Forall (λ f, ¬ isUserJoined f) pre.

(** The frames of a join that went through, after those of the prelude: the
    fan-out to the connected peers, then the echo to the joiner. *)
Definition joinFrames (now : Z) (roomID user : string) (peers : list string)
  : list (string * Message.t) :=
  deliver (userJoinedFrame now roomID user (peers ++ [user])) peers ++
  [(user, userJoinedFrame now roomID user (peers ++ [user]))].

Definition roomFullFrame (now : Z) (roomID : string) : Message.t :=
  Message.mk MessageTypeRoomFull roomID "" "" NoData now.

(** A compaction for the examples: outside string literals blanks are
    dropped; [<], [>] and [&] are escaped. *)
Definition htmlEscape (c : Ascii.ascii) : string :=
  if bool_decide (c = Ascii.ascii_of_nat 60) then "\u003c"
  else if bool_decide (c = Ascii.ascii_of_nat 62) then "\u003e"
  else if bool_decide (c = Ascii.ascii_of_nat 38) then "\u0026"
  else String c EmptyString.

Definition isBlank (c : Ascii.ascii) : bool :=
  bool_decide (c ∈ Ascii.ascii_of_nat <$> [32; 9; 10; 13]%nat).

Fixpoint compactFrom (inString escaped : bool) (b : string) : string :=
  match b with
  | EmptyString => EmptyString
  | String c rest =>
      if inString then
        if escaped then String c (compactFrom true false rest)
        else if bool_decide (c = Ascii.ascii_of_nat 92)
        then String c (compactFrom true true rest)
        else if bool_decide (c = Ascii.ascii_of_nat 34)
        then String c (compactFrom false false rest)
        else htmlEscape c +:+ compactFrom true false rest
      else if isBlank c then compactFrom false false rest
      else if bool_decide (c = Ascii.ascii_of_nat 34)
      then String c (compactFrom true false rest)
      else htmlEscape c +:+ compactFrom false false rest
  end.

Definition sampleCompact (b : string) : string := compactFrom false false b.

(** Decoders for the examples: the payload of a [join_room] frame is taken
    to be the room id itself, and incoming frames are read off a table. *)
Definition sampleJoinRoomData (d : RawMessage) : option JoinRoomData :=
  match d with
  | Bytes b => Some {| jrd_RoomID := b |}
  | _ => None
  end.

Definition sampleMessage (data : string) : option Message.t :=
  if bool_decide (data = "join R")
  then Some (Message.mk MessageTypeJoinRoom "" "" "" (Bytes "R") 0)
  else if bool_decide (data = "offer to u1")
  then Some (Message.mk MessageTypeOffer "" "" "u1" (Bytes "{sdp:x,type:offer}") 0)
  else if bool_decide (data = "offer to u0")
  then Some (Message.mk MessageTypeOffer "" "" "u0" (Bytes "{sdp:x,type:offer}") 0)
  else if bool_decide (data = "offer to ghost")
  then Some (Message.mk MessageTypeOffer "" "" "ghost" (Bytes "{sdp:x,type:offer}") 0)
  else if bool_decide (data = "stun_config")
  then Some (Message.mk "stun_config" "" "" "" NoData 0)
  else None.

(** Two connections, [u0] in room [R] and [u1] in no room. *)
Definition lobby : Engine :=
  {| redis :=
       {| rooms := {[ "R" := Room.mk "R" ["u0"] 0 0 ]};
          users := {[ "u0" := UserSession.mk "u0" "cookie" "R" 0 0;
                      "u1" := session "u1" ]} |};
     connections := {[ "u0" := User.mk "cookie" "R" 0 0;
                       "u1" := User.mk "cookie" "" 0 0 ]};
     connMutex := unlocked;
     wire := [];
     heldAcross := [] |}.

(** The [join_room] frame of [u1] for room [R], stamped. *)
Definition joinR : Message.t :=
  Message.mk MessageTypeJoinRoom "" "u1" "" (Bytes "R") 5.

(** What the three relaying handlers do from a state where the lock is free;
    [what] is the end of the message about a missing target. *)
Definition relay (now : Z) (user : string) (msg : Message.t) (what : string)
    (s : Engine) : Outcome error :=
  if bool_decide (cachedRoom user s = "")
  then Done None (set_wire (wire s ++ [(user, errorFrame now 400 "User not in a room")]) s)
  else if bool_decide (Message.TargetID msg ≠ "")
  then
    if decide (connected s (Message.TargetID msg))
    then Done None
           (set_wire (wire s ++ [(Message.TargetID msg, Message.withUserID user msg)]) s)
    else Done (Some ("target user not connected: " +:+ Message.TargetID msg)) s
  else Done None
         (set_wire
            (wire s ++
             [(user, errorFrame now 400 ("Target user ID required for " +:+ what))]) s).

(** One connection, [u1], in no room; no room record yet. *)
Definition solo : Engine :=
  {| redis := {| rooms := ∅; users := {[ "u1" := session "u1" ]} |};
     connections := {[ "u1" := User.mk "cookie" "" 0 0 ]};
     connMutex := unlocked;
     wire := [];
     heldAcross := [] |}.

(** Both members leave the room [R], then [u0] joins the room [S]. *)
Definition leaveAndJoin : list RoomOp :=
  [OpLeaveRoom 2 "u0" "R"; OpLeaveRoom 3 "u1" "R"; OpJoinRoom 4 "u0" "S"].

(** The state of the engine between two calls of a goroutine that keeps to
    the locking discipline: the registry lock is free and the store is well
    formed. *)
Definition settled (s : Engine) : Prop :=
  free s ∧ keyed (redis s) ∧ store_ok (redis s).

(** The room [R] lists [u0], who is connected, and [gone], who is not. *)
Definition stale : Engine :=
  {| redis :=
       {| rooms := {[ "R" := Room.mk "R" ["gone"; "u0"] 0 0 ]};
          users := {[ "u0" := UserSession.mk "u0" "cookie" "R" 0 0;
                      "u1" := session "u1" ]} |};
     connections := {[ "u0" := User.mk "cookie" "R" 0 0;
                       "u1" := User.mk "cookie" "" 0 0 ]};
     connMutex := unlocked;
     wire := [];
     heldAcross := [] |}.

(** From [s] to [s'] the goroutine kept to the discipline: it ends settled,
    it passed no blocking point with the lock held, and the registry has the
    same entries. *)
Definition disciplined (s s' : Engine) : Prop :=
  settled s' ∧
  heldAcross s' = heldAcross s ∧
  (∀ userID, connected s' userID ↔ connected s userID).

(** Eleven connections, ten of them in the room [R]. *)
Definition crowded : Engine :=
  {| redis :=
       {| rooms := {[ "R" := fullRoom ]};
          users := list_to_map ((λ userID, (userID, session userID)) <$> (tenUsers ++ ["u10"])) |};
     connections :=
       list_to_map ((λ userID, (userID, User.mk "cookie" "R" 0 0)) <$> tenUsers) ∪
       {[ "u10" := User.mk "cookie" "" 0 0 ]};
     connMutex := unlocked;
     wire := [];
     heldAcross := [] |}.

(** The [join_room] frame of [u10] for room [R], stamped. *)
Definition joinR10 : Message.t :=
  Message.mk MessageTypeJoinRoom "" "u10" "" (Bytes "R") 5.

(** A parser of decimal numerals for the examples: it knows two of them. *)
Definition sampleAtoi (value : string) : option Z :=
  if bool_decide (value = "30") then Some 30%Z
  else if bool_decide (value = "2") then Some 2%Z
  else None.

Definition sampleEnv : gmap string string :=
  {[ "READ_TIMEOUT" := "30"; "WRITE_TIMEOUT" := "soon"; "SERVER_PORT" := "";
     "REDIS_HOST" := "redis" ]}.

(** ** Room records *)

Section RoomRecord.

Implicit Types (r : Room.t) (ids : list string) (userID : string).

Lemma listed_elem_of ids userID : Room.listed ids userID = true ↔ userID ∈ ids.
Proof.
  induction ids as [|id rest IH]; simpl.
  - split; [discriminate | intros H; inversion H].
  - case_bool_decide as Heq.
    + subst. split; [intros _; left | done].
    + rewrite IH. split; [by right |].
      intros [?|?]%elem_of_cons; [congruence | done].
Qed.

Lemma listed_false ids userID : Room.listed ids userID = false ↔ userID ∉ ids.
Proof.
  rewrite <- listed_elem_of. destruct (Room.listed ids userID); split; congruence.
Qed.

Lemma without_None ids userID : Room.without ids userID = None ↔ userID ∉ ids.
Proof.
  induction ids as [|id rest IH]; simpl.
  - split; [intros _ H; inversion H | done].
  - case_bool_decide as Heq.
    + subst. split; [discriminate | intros H; exfalso; apply H; left].
    + rewrite not_elem_of_cons, <- IH.
      destruct (Room.without rest userID); split; try done; intros [? ?]; done.
Qed.

Lemma without_Some ids userID us :
  Room.without ids userID = Some us →
  ∃ before after,
    ids = before ++ userID :: after ∧ us = before ++ after ∧ userID ∉ before.
Proof.
  revert us. induction ids as [|id rest IH]; simpl; intros us; [discriminate|].
  case_bool_decide as Heq.
  - intros [= <-]. subst. exists [], rest. repeat split. apply not_elem_of_nil.
  - destruct (Room.without rest userID) as [rest'|] eqn:Hw; [|discriminate].
    intros [= <-]. destruct (IH _ eq_refl) as (b & a & -> & -> & Hnot).
    exists (id :: b), a. repeat split. rewrite not_elem_of_cons. split; congruence.
Qed.

Lemma without_length ids userID us :
  Room.without ids userID = Some us → S (length us) = length ids.
Proof.
  intros (b & a & -> & -> & _)%without_Some. rewrite !length_app. simpl. lia.
Qed.

Lemma without_NoDup ids userID us :
  Room.without ids userID = Some us → NoDup ids → NoDup us ∧ userID ∉ us.
Proof.
  intros (b & a & -> & -> & Hb)%without_Some Hnd.
  apply NoDup_app in Hnd as (Hb' & Hdisj & Ha).
  apply NoDup_cons in Ha as [Hua Ha].
  split.
  - apply NoDup_app. repeat split; try done.
    intros x Hx Hxa. apply (Hdisj x Hx). by right.
  - rewrite not_elem_of_app. done.
Qed.

Lemma AddUser_full now r userID :
  Room.CanJoin r = false → Room.AddUser now r userID = (r, false).
Proof. intros H. unfold Room.AddUser. by rewrite H. Qed.

Lemma AddUser_member now r userID :
  userID ∈ Room.Users r → Room.AddUser now r userID = (r, Room.CanJoin r).
Proof.
  intros Hin. unfold Room.AddUser. destruct (Room.CanJoin r); simpl; [|done].
  apply listed_elem_of in Hin. by rewrite Hin.
Qed.

Lemma AddUser_ID now r userID : Room.ID (Room.AddUser now r userID).1 = Room.ID r.
Proof.
  unfold Room.AddUser. destruct (Room.CanJoin r); simpl; [|done].
  by destruct (Room.listed _ _).
Qed.

Lemma AddUser_ok now r userID : room_ok r → room_ok (Room.AddUser now r userID).1.
Proof.
  intros [Hnd Hlen]. unfold Room.AddUser.
  destruct (Room.CanJoin r) eqn:Hc; simpl; [|done].
  destruct (Room.listed _ _) eqn:Hl; simpl; [done|].
  apply listed_false in Hl. unfold Room.CanJoin in Hc.
  apply bool_decide_eq_true in Hc.
  split; simpl.
  - apply NoDup_app. repeat split; [done| |apply NoDup_singleton].
    intros x Hx ->%list_elem_of_singleton. done.
  - rewrite length_app. simpl. lia.
Qed.

Lemma AddUser_true_member now r userID :
  (Room.AddUser now r userID).2 = true → userID ∈ Room.Users (Room.AddUser now r userID).1.
Proof.
  unfold Room.AddUser. destruct (Room.CanJoin r); simpl; [|discriminate].
  destruct (Room.listed _ _) eqn:Hl; simpl; intros _.
  - by apply listed_elem_of.
  - apply elem_of_app. right. by left.
Qed.

Lemma RemoveUser_ok now r userID : room_ok r → room_ok (Room.RemoveUser now r userID).1.
Proof.
  intros [Hnd Hlen]. unfold Room.RemoveUser.
  destruct (Room.without _ _) as [us|] eqn:Hw; simpl; [|done].
  split; simpl.
  - by apply (without_NoDup _ _ _ Hw).
  - apply without_length in Hw. lia.
Qed.

Lemma RemoveUser_ID now r userID : Room.ID (Room.RemoveUser now r userID).1 = Room.ID r.
Proof. unfold Room.RemoveUser. by destruct (Room.without _ _). Qed.

Lemma RemoveUser_absent now r userID :
  userID ∉ Room.Users r → Room.RemoveUser now r userID = (r, false).
Proof. intros H%without_None. unfold Room.RemoveUser. by rewrite H. Qed.

End RoomRecord.

(** ** [Room.AddUser] applied to a user id that is already listed *)

Lemma AddUser_settled now r userID :
  userID ∈ Room.Users r ∨ Room.CanJoin r = false →
  (Room.AddUser now r userID).1 = r.
Proof.
  intros [Hin | Hfull].
  - by rewrite AddUser_member.
  - by rewrite AddUser_full.
Qed.

(** C10, as stated, fails: in a room that holds [MaxRoomUsers] user ids,
    [AddUser] of a listed user id returns false. *)
Lemma AddUser_listed_in_full_room_false :
  ¬ (∀ now r userID,
       userID ∈ Room.Users r →
       (Room.AddUser now r userID).2 = true ∧
       Room.Users (Room.AddUser now r userID).1 = Room.Users r ∧
       Room.UpdatedAt (Room.AddUser now r userID).1 = Room.UpdatedAt r).
Proof.
  intros H. destruct (H 1%Z fullRoom "u0") as [Hret _].
  - unfold fullRoom, tenUsers. simpl. left.
  - vm_compute in Hret. discriminate Hret.
Qed.

(** C10, amended: for a user id already in the member list, [AddUser] leaves
    the whole record (member list and [UpdatedAt] included) as it was and
    returns [CanJoin]: true when the room has fewer than [MaxRoomUsers]
    members, false when it is full. For every user id, adding it twice gives
    the member list that adding it once gives. *)
Theorem AddUser_idempotent now now' r userID :
  (userID ∈ Room.Users r → Room.AddUser now r userID = (r, Room.CanJoin r)) ∧
  Room.Users (Room.AddUser now' (Room.AddUser now r userID).1 userID).1 =
  Room.Users (Room.AddUser now r userID).1.
Proof.
  split; [apply AddUser_member|].
  f_equal. apply AddUser_settled.
  destruct (Room.AddUser now r userID) as [r' ok] eqn:Hadd. simpl.
  destruct ok.
  - left. replace r' with (Room.AddUser now r userID).1 by (by rewrite Hadd).
    apply AddUser_true_member. by rewrite Hadd.
  - right. unfold Room.AddUser in Hadd.
    destruct (Room.CanJoin r) eqn:Hc; simpl in Hadd.
    + by destruct (Room.listed _ _).
    + by injection Hadd as <-.
Qed.

Lemma AddUser_idempotent_witness :
  Room.AddUser 7 pairRoom "u1" = (pairRoom, true) ∧
  Room.Users (Room.AddUser 8 (Room.AddUser 7 pairRoom "u2").1 "u2").1 = ["u0"; "u1"; "u2"].
Proof.
  destruct (AddUser_idempotent 7 8 pairRoom "u1") as [Hlisted _].
  destruct (AddUser_idempotent 7 8 pairRoom "u2") as [_ Htwice].
  split.
  - rewrite Hlisted; [reflexivity|]. right. left.
  - rewrite Htwice. reflexivity.
Defined.

(** ** The repository and the room service on the store *)

Section Store.

Implicit Types (db : Redis) (now : Z) (roomID userID : string).

Lemma UpdateUserRoom_rooms now userID roomID db :
  rooms (RedisRepository.UpdateUserRoom now userID roomID db).2 = rooms db.
Proof.
  unfold RedisRepository.UpdateUserRoom, kv_bind, RedisRepository.GetUser. simpl.
  by destruct (users db !! userID).
Qed.

Lemma UpdateUserRoom_found now userID roomID db u :
  users db !! userID = Some u →
  RedisRepository.UpdateUserRoom now userID roomID db =
    (None,
     {| rooms := rooms db;
        users := <[UserSession.ID u :=
                     UserSession.mk (UserSession.ID u) (UserSession.SessionID u) roomID
                       (UserSession.CreatedAt u) now]> (users db) |}).
Proof.
  intros H. unfold RedisRepository.UpdateUserRoom, kv_bind, RedisRepository.GetUser.
  simpl. by rewrite H.
Qed.

Lemma UpdateUserRoom_missing now userID roomID db :
  users db !! userID = None →
  RedisRepository.UpdateUserRoom now userID roomID db =
    (Some ("user not found: " +:+ userID), db).
Proof.
  intros H. unfold RedisRepository.UpdateUserRoom, kv_bind, RedisRepository.GetUser.
  simpl. by rewrite H.
Qed.

Lemma AddUserToRoom_eq now roomID userID db :
  RedisRepository.AddUserToRoom now roomID userID db =
    let room := default (Room.mk roomID [] now now) (rooms db !! roomID) in
    let added := Room.AddUser now room userID in
    if added.2
    then (None, {| rooms := <[Room.ID added.1 := added.1]> (rooms db); users := users db |})
    else (Some "room is full or user already exists", db).
Proof.
  unfold RedisRepository.AddUserToRoom, kv_bind, RedisRepository.GetRoom. simpl.
  destruct (rooms db !! roomID) as [room|]; simpl; [|done].
  destruct (Room.AddUser now room userID) as [r' ok]. by destruct ok.
Qed.

Lemma RemoveUserFromRoom_eq now roomID userID db :
  RedisRepository.RemoveUserFromRoom now roomID userID db =
    match rooms db !! roomID with
    | None => (None, db)
    | Some room =>
        let room' := (Room.RemoveUser now room userID).1 in
        if Room.IsEmpty room'
        then (None, {| rooms := delete roomID (rooms db); users := users db |})
        else (None, {| rooms := <[Room.ID room' := room']> (rooms db); users := users db |})
    end.
Proof.
  unfold RedisRepository.RemoveUserFromRoom, kv_bind, RedisRepository.GetRoom. simpl.
  destruct (rooms db !! roomID) as [room|]; simpl; [|done].
  by destruct (Room.IsEmpty _).
Qed.

Lemma RemoveUserFromRoom_users now roomID userID db :
  users (RedisRepository.RemoveUserFromRoom now roomID userID db).2 = users db.
Proof.
  rewrite RemoveUserFromRoom_eq. destruct (rooms db !! roomID); simpl; [|done].
  by destruct (Room.IsEmpty _).
Qed.

Lemma RemoveUserFromRoom_nil now roomID userID db :
  (RedisRepository.RemoveUserFromRoom now roomID userID db).1 = None.
Proof.
  rewrite RemoveUserFromRoom_eq. destruct (rooms db !! roomID); simpl; [|done].
  by destruct (Room.IsEmpty _).
Qed.

Lemma LeaveRoom_eq now userID roomID db :
  RoomService.LeaveRoom now userID roomID db =
    RedisRepository.UpdateUserRoom now userID ""
      (RedisRepository.RemoveUserFromRoom now roomID userID db).2.
Proof.
  unfold RoomService.LeaveRoom, kv_bind.
  rewrite RemoveUserFromRoom_nil.
  destruct (RedisRepository.UpdateUserRoom _ _ _ _) as [[e|] db']; reflexivity.
Qed.

Lemma JoinRoom_eq now userID roomID db :
  RoomService.JoinRoom now userID roomID db =
    if match rooms db !! roomID with
       | Some room => negb (Room.CanJoin room)
       | None => false
       end
    then ((None, Some "room is full"), db)
    else
      let added := RedisRepository.AddUserToRoom now roomID userID db in
      match added.1 with
      | Some e => ((None, Some e), added.2)
      | None =>
          let bound := RedisRepository.UpdateUserRoom now userID roomID added.2 in
          match bound.1 with
          | Some e => ((None, Some e), bound.2)
          | None => ((rooms bound.2 !! roomID, None), bound.2)
          end
      end.
Proof.
  unfold RoomService.JoinRoom, kv_bind, RedisRepository.GetRoom, kv_ret. simpl.
  destruct (match rooms db !! roomID with Some _ => _ | None => _ end); [done|].
  destruct (RedisRepository.AddUserToRoom now roomID userID db).1; [done|].
  by destruct (RedisRepository.UpdateUserRoom _ _ _ _).1.
Qed.

Lemma GetRoomUsers_eq roomID db :
  RoomService.GetRoomUsers roomID db = ((roomMembers db roomID, None), db).
Proof.
  unfold RoomService.GetRoomUsers, RedisRepository.GetRoomUsers, kv_bind,
    RedisRepository.GetRoom, roomMembers. simpl.
  by destruct (rooms db !! roomID).
Qed.

Lemma GetOtherUsersInRoom_eq roomID userID db :
  RoomService.GetOtherUsersInRoom roomID userID db =
    ((filter (λ id, id ≠ userID) (roomMembers db roomID), None), db).
Proof.
  unfold RoomService.GetOtherUsersInRoom, kv_bind.
  fold (RoomService.GetRoomUsers roomID). by rewrite GetRoomUsers_eq.
Qed.

Lemma IsRoomFull_eq roomID db :
  RoomService.IsRoomFull roomID db =
    ((match rooms db !! roomID with
      | Some room => negb (Room.CanJoin room)
      | None => false
      end, None), db).
Proof.
  unfold RoomService.IsRoomFull, kv_bind, RedisRepository.GetRoom. simpl.
  by destruct (rooms db !! roomID).
Qed.

(** *** The invariant of room records *)

Lemma AddUserToRoom_store_ok now roomID userID db :
  store_ok db → store_ok (RedisRepository.AddUserToRoom now roomID userID db).2.
Proof.
  intros Hdb. rewrite AddUserToRoom_eq. simpl.
  destruct (Room.AddUser _ _ _).2 eqn:Hok; simpl; [|done].
  unfold store_ok. simpl. apply map_Forall_insert_2; [|done].
  apply AddUser_ok.
  destruct (rooms db !! roomID) as [room|] eqn:Hr; simpl.
  - by apply (Hdb _ _ Hr).
  - split; simpl; [apply NoDup_nil_2 | unfold MaxRoomUsers; lia].
Qed.

Lemma RemoveUserFromRoom_store_ok now roomID userID db :
  store_ok db → store_ok (RedisRepository.RemoveUserFromRoom now roomID userID db).2.
Proof.
  intros Hdb. rewrite RemoveUserFromRoom_eq.
  destruct (rooms db !! roomID) as [room|] eqn:Hr; simpl; [|done].
  destruct (Room.IsEmpty _); unfold store_ok; simpl.
  - by apply map_Forall_delete.
  - apply map_Forall_insert_2; [|done]. apply RemoveUser_ok. by apply (Hdb _ _ Hr).
Qed.

Lemma UpdateUserRoom_store_ok now userID roomID db :
  store_ok db → store_ok (RedisRepository.UpdateUserRoom now userID roomID db).2.
Proof. unfold store_ok. by rewrite UpdateUserRoom_rooms. Qed.

Lemma JoinRoom_store_ok now userID roomID db :
  store_ok db → store_ok (RoomService.JoinRoom now userID roomID db).2.
Proof.
  intros Hdb. rewrite JoinRoom_eq.
  destruct (match rooms db !! roomID with Some _ => _ | None => _ end); [done|].
  simpl.
  pose proof (AddUserToRoom_store_ok now roomID userID db Hdb) as Hadd.
  destruct (RedisRepository.AddUserToRoom now roomID userID db).1; [done|].
  pose proof (UpdateUserRoom_store_ok now userID roomID _ Hadd) as Hupd.
  by destruct (RedisRepository.UpdateUserRoom _ _ _ _).1.
Qed.

Lemma LeaveRoom_store_ok now userID roomID db :
  store_ok db → store_ok (RoomService.LeaveRoom now userID roomID db).2.
Proof.
  intros Hdb. rewrite LeaveRoom_eq.
  by apply UpdateUserRoom_store_ok, RemoveUserFromRoom_store_ok.
Qed.

Lemma applyOp_store_ok op db : store_ok db → store_ok (applyOp op db).
Proof.
  destruct op; simpl.
  - apply AddUserToRoom_store_ok.
  - apply RemoveUserFromRoom_store_ok.
  - apply JoinRoom_store_ok.
  - apply LeaveRoom_store_ok.
  - done.
  - done.
Qed.

Lemma applyOps_store_ok ops db : store_ok db → store_ok (applyOps ops db).
Proof.
  revert db. induction ops as [|op ops IH]; intros db Hdb; simpl; [done|].
  by apply IH, applyOp_store_ok.
Qed.

(** *** Records stay under their own keys *)

Lemma AddUserToRoom_keyed now roomID userID db :
  keyed db → keyed (RedisRepository.AddUserToRoom now roomID userID db).2.
Proof.
  intros [Hrooms Husers]. rewrite AddUserToRoom_eq. simpl.
  destruct (Room.AddUser _ _ _).2 eqn:Hok; simpl; [|done].
  split; simpl; [|done].
  intros k r [[<- <-] | [_ Hold]]%lookup_insert_Some; [|by apply Hrooms].
  split; [done|]. apply AddUser_true_member in Hok.
  intros Hnil. rewrite Hnil in Hok. by apply elem_of_nil in Hok.
Qed.

Lemma RemoveUserFromRoom_keyed now roomID userID db :
  keyed db → keyed (RedisRepository.RemoveUserFromRoom now roomID userID db).2.
Proof.
  intros [Hrooms Husers]. rewrite RemoveUserFromRoom_eq.
  destruct (rooms db !! roomID) as [room|] eqn:Hr; simpl; [|done].
  destruct (Room.IsEmpty _) eqn:He; split; simpl; try done.
  - intros k r [_ Hold]%lookup_delete_Some. by apply Hrooms.
  - intros k r [[<- <-] | [_ Hold]]%lookup_insert_Some; [|by apply Hrooms].
    split; [done|]. unfold Room.IsEmpty in He. apply bool_decide_eq_false in He.
    intros Hnil. by rewrite Hnil in He.
Qed.

Lemma UpdateUserRoom_keyed now userID roomID db :
  keyed db → keyed (RedisRepository.UpdateUserRoom now userID roomID db).2.
Proof.
  intros [Hrooms Husers].
  destruct (users db !! userID) as [u|] eqn:Hu.
  - rewrite (UpdateUserRoom_found _ _ _ _ _ Hu). split; simpl; [done|].
    intros k u' [[<- <-] | [_ Hold]]%lookup_insert_Some; [done | by apply Husers].
  - by rewrite (UpdateUserRoom_missing _ _ _ _ Hu).
Qed.

Lemma JoinRoom_keyed now userID roomID db :
  keyed db → keyed (RoomService.JoinRoom now userID roomID db).2.
Proof.
  intros Hdb. rewrite JoinRoom_eq.
  destruct (match rooms db !! roomID with Some _ => _ | None => _ end); [done|].
  simpl.
  pose proof (AddUserToRoom_keyed now roomID userID db Hdb) as Hadd.
  destruct (RedisRepository.AddUserToRoom now roomID userID db).1; [done|].
  pose proof (UpdateUserRoom_keyed now userID roomID _ Hadd) as Hupd.
  by destruct (RedisRepository.UpdateUserRoom _ _ _ _).1.
Qed.

Lemma LeaveRoom_keyed now userID roomID db :
  keyed db → keyed (RoomService.LeaveRoom now userID roomID db).2.
Proof.
  intros Hdb. rewrite LeaveRoom_eq.
  by apply UpdateUserRoom_keyed, RemoveUserFromRoom_keyed.
Qed.

Lemma applyOps_keyed ops db : keyed db → keyed (applyOps ops db).
Proof.
  revert db. induction ops as [|op ops IH]; intros db Hdb; simpl; [done|].
  apply IH. destruct op; simpl.
  - by apply AddUserToRoom_keyed.
  - by apply RemoveUserFromRoom_keyed.
  - by apply JoinRoom_keyed.
  - by apply LeaveRoom_keyed.
  - destruct Hdb as [Hrooms Husers]. split; simpl; [done|].
    intros k u' [[<- <-] | [_ Hold]]%lookup_insert_Some; [done | by apply Husers].
  - destruct Hdb as [Hrooms Husers]. split; simpl; [done|].
    intros k u' [_ Hold]%lookup_delete_Some. by apply Husers.
Qed.

End Store.

(** ** Properties of the room operations *)

Lemma filter_ne_absent (ids : list string) (userID : string) :
  userID ∉ ids → filter (λ id, id ≠ userID) ids = ids.
Proof.
  induction ids as [|id rest IH]; [done|].
  rewrite not_elem_of_cons. intros [Hne Hrest].
  rewrite filter_cons_True by congruence. by rewrite IH.
Qed.

Lemma without_filter (ids us : list string) (userID : string) :
  NoDup ids → Room.without ids userID = Some us → us = filter (λ id, id ≠ userID) ids.
Proof.
  intros Hnd Hw. destruct (without_Some _ _ _ Hw) as (b & a & -> & -> & Hb).
  apply NoDup_app in Hnd as (_ & _ & Ha). apply NoDup_cons in Ha as [Ha _].
  rewrite filter_app, filter_cons_False by (intros H; by apply H).
  by rewrite !filter_ne_absent.
Qed.

(** Every room record reachable from the empty store is well formed. *)
Lemma reachable_store_ok (ops : list RoomOp) : store_ok (applyOps ops emptyRedis).
Proof.
  apply applyOps_store_ok. unfold store_ok, emptyRedis. simpl. apply map_Forall_empty.
Qed.

Lemma reachable_keyed (ops : list RoomOp) : keyed (applyOps ops emptyRedis).
Proof.
  apply applyOps_keyed. split; unfold emptyRedis; simpl; intros k x Hx;
    by rewrite lookup_empty in Hx.
Qed.

(** C6: the room operations keep the invariant of room records. When every
    room record of the store has no user id twice and at most [MaxRoomUsers]
    user ids, so has every room record of the store after any sequence of
    [AddUserToRoom], [RemoveUserFromRoom], [JoinRoom] and [LeaveRoom] (and
    writes of user sessions) run one after the other, as on a single node;
    and [MaxRoomUsers] is 10. *)
Theorem room_records_invariant (ops : list RoomOp) (db : Redis) :
  map_Forall (λ _ room, NoDup (Room.Users room) ∧
                        length (Room.Users room) ≤ MaxRoomUsers) (rooms db) →
  map_Forall (λ _ room, NoDup (Room.Users room) ∧
                        length (Room.Users room) ≤ MaxRoomUsers)
    (rooms (applyOps ops db)) ∧
  MaxRoomUsers = 10.
Proof. intros Hdb. split; [by apply (applyOps_store_ok ops db) | reflexivity]. Qed.

Lemma room_records_invariant_witness :
  map_Forall (λ _ room, NoDup (Room.Users room) ∧
                        length (Room.Users room) ≤ MaxRoomUsers)
    (rooms (applyOps elevenJoins emptyRedis)) ∧
  MaxRoomUsers = 10.
Proof. apply (room_records_invariant elevenJoins emptyRedis). apply map_Forall_empty. Defined.

(** Eleven users join the room [R] in turn: the room record keeps the first
    ten. *)
Example eleven_joins :
  roomMembers (applyOps elevenJoins emptyRedis) "R" = tenUsers.
Proof. vm_compute. reflexivity. Qed.

(** C2, as stated, fails: a member of a full room that joins it again is
    refused with "room is full". *)
Lemma JoinRoom_member_of_full_room_refused :
  ¬ (∀ now userID roomID db,
       (RoomService.JoinRoom now userID roomID db).1.2 = Some "room is full" →
       length (roomMembers db roomID) = MaxRoomUsers ∧ userID ∉ roomMembers db roomID).
Proof.
  intros H. destruct (H 1%Z "u0" "R" fullStore) as [_ Hnot].
  - vm_compute. reflexivity.
  - apply Hnot. vm_compute. left.
Qed.

Lemma AddUser_CanJoin now r userID :
  Room.CanJoin r = true → (Room.AddUser now r userID).2 = true.
Proof.
  intros Hc. unfold Room.AddUser. rewrite Hc. simpl. by destruct (Room.listed _ _).
Qed.

Lemma AddUserToRoom_accepts now roomID userID db :
  match rooms db !! roomID with
  | Some room => Room.CanJoin room = true
  | None => True
  end →
  (RedisRepository.AddUserToRoom now roomID userID db).1 = None.
Proof.
  intros Hroom. rewrite AddUserToRoom_eq. simpl.
  destruct (rooms db !! roomID) as [room|]; simpl.
  - by rewrite AddUser_CanJoin.
  - done.
Qed.

(** C2, amended: [JoinRoom] fails with "room is full" exactly when the room
    record holds [MaxRoomUsers] user ids or more, whether the joining user is
    one of them or not. *)
Theorem JoinRoom_room_full_iff now userID roomID db :
  (RoomService.JoinRoom now userID roomID db).1.2 = Some "room is full" ↔
  MaxRoomUsers ≤ length (roomMembers db roomID).
Proof.
  rewrite JoinRoom_eq. unfold roomMembers.
  destruct (rooms db !! roomID) as [room|] eqn:Hroom.
  - unfold Room.CanJoin at 1. case_bool_decide as Hlen; simpl.
    + rewrite AddUserToRoom_accepts
        by (rewrite Hroom; unfold Room.CanJoin; by apply bool_decide_eq_true).
      split; [|lia].
      destruct (users (RedisRepository.AddUserToRoom now roomID userID db).2 !! userID)
        as [u|] eqn:Hu.
      * by rewrite (UpdateUserRoom_found _ _ _ _ _ Hu).
      * rewrite (UpdateUserRoom_missing _ _ _ _ Hu). simpl. discriminate.
    + split; [lia | done].
  - simpl. rewrite AddUserToRoom_accepts by (by rewrite Hroom).
    split; [|unfold MaxRoomUsers; lia].
    destruct (users (RedisRepository.AddUserToRoom now roomID userID db).2 !! userID)
      as [u|] eqn:Hu.
    * by rewrite (UpdateUserRoom_found _ _ _ _ _ Hu).
    * rewrite (UpdateUserRoom_missing _ _ _ _ Hu). simpl. discriminate.
Qed.

Lemma JoinRoom_room_full_iff_witness :
  (RoomService.JoinRoom 1 "u0" "R" fullStore).1.2 = Some "room is full" ∧
  (RoomService.JoinRoom 1 "u5" "R" pairStore).1.2 ≠ Some "room is full".
Proof.
  split.
  - apply (proj2 (JoinRoom_room_full_iff 1 "u0" "R" fullStore)). vm_compute. lia.
  - intros H. apply (proj1 (JoinRoom_room_full_iff 1 "u5" "R" pairStore)) in H.
    vm_compute in H. lia.
Defined.

(** C8, as stated, fails: leaving a room that does not exist returns an error
    when the user has no session record in the store. *)
Lemma LeaveRoom_absent_room_not_always_success :
  ¬ (∀ now userID roomID db,
       rooms db !! roomID = None →
       (RoomService.LeaveRoom now userID roomID db).1 = None).
Proof.
  intros H. specialize (H 1%Z "ghost" "R" emptyRedis eq_refl).
  vm_compute in H. discriminate H.
Qed.

(** C8, amended: on a store whose records are well formed, [LeaveRoom] takes
    the user id out of the room's member list, deletes the record when no
    member is left, and touches no other room; leaving a room that does not
    list the user, or that does not exist, leaves all room records as they
    were. It then clears the current room of the user's session and returns
    success when the session record exists; when it does not, it returns
    "user not found" and leaves the sessions as they were. *)
Theorem LeaveRoom_spec now userID roomID db :
  keyed db → store_ok db →
  let res := RoomService.LeaveRoom now userID roomID db in
  roomMembers res.2 roomID = filter (λ id, id ≠ userID) (roomMembers db roomID) ∧
  (roomMembers res.2 roomID = [] → rooms res.2 !! roomID = None) ∧
  (userID ∉ roomMembers db roomID → rooms res.2 = rooms db) ∧
  (∀ other, other ≠ roomID → rooms res.2 !! other = rooms db !! other) ∧
  match users db !! userID with
  | Some u =>
      res.1 = None ∧
      users res.2 =
        <[userID := UserSession.mk userID (UserSession.SessionID u) ""
                      (UserSession.CreatedAt u) now]> (users db)
  | None =>
      res.1 = Some ("user not found: " +:+ userID) ∧ users res.2 = users db
  end.
Proof.
  intros [Hrooms Husers] Hok res. subst res. rewrite LeaveRoom_eq.
  assert (Hsess :
    match users db !! userID with
    | Some u =>
        (RedisRepository.UpdateUserRoom now userID ""
           (RedisRepository.RemoveUserFromRoom now roomID userID db).2).1 = None ∧
        users (RedisRepository.UpdateUserRoom now userID ""
           (RedisRepository.RemoveUserFromRoom now roomID userID db).2).2 =
          <[userID := UserSession.mk userID (UserSession.SessionID u) ""
                        (UserSession.CreatedAt u) now]> (users db)
    | None =>
        (RedisRepository.UpdateUserRoom now userID ""
           (RedisRepository.RemoveUserFromRoom now roomID userID db).2).1 =
          Some ("user not found: " +:+ userID) ∧
        users (RedisRepository.UpdateUserRoom now userID ""
           (RedisRepository.RemoveUserFromRoom now roomID userID db).2).2 = users db
    end).
  { destruct (users db !! userID) as [u|] eqn:Hu.
    - rewrite (UpdateUserRoom_found _ _ _ _ u)
        by (by rewrite RemoveUserFromRoom_users).
      simpl. rewrite RemoveUserFromRoom_users, (proj2 (conj I (Husers _ _ Hu))). done.
    - rewrite UpdateUserRoom_missing by (by rewrite RemoveUserFromRoom_users).
      simpl. by rewrite RemoveUserFromRoom_users. }
  repeat split; [| | | |exact Hsess]; unfold roomMembers;
    rewrite ?UpdateUserRoom_rooms, RemoveUserFromRoom_eq.
  - destruct (rooms db !! roomID) as [room|] eqn:Hroom; simpl; [|by rewrite Hroom].
    destruct (Hrooms _ _ Hroom) as [Hid Hne]. destruct (Hok _ _ Hroom) as [Hnd _].
    unfold Room.RemoveUser.
    destruct (Room.without (Room.Users room) userID) as [us|] eqn:Hw; simpl.
    + rewrite <- (without_filter _ _ _ Hnd Hw).
      unfold Room.IsEmpty. simpl. case_bool_decide as Hlen; simpl.
      * rewrite lookup_delete_eq. by destruct us.
      * by rewrite Hid, lookup_insert_eq.
    + apply without_None in Hw. rewrite (filter_ne_absent _ _ Hw).
      unfold Room.IsEmpty. case_bool_decide as Hlen; simpl.
      * destruct (Room.Users room); [done | discriminate].
      * by rewrite Hid, lookup_insert_eq.
  - destruct (rooms db !! roomID) as [room|] eqn:Hroom; simpl; [|by rewrite Hroom].
    destruct (Hrooms _ _ Hroom) as [Hid Hne].
    destruct (Room.IsEmpty _) eqn:He; simpl.
    + intros _. apply lookup_delete_eq.
    + rewrite RemoveUser_ID, Hid, lookup_insert_eq. intros Hnil.
      unfold Room.IsEmpty in He. apply bool_decide_eq_false in He.
      rewrite Hnil in He. done.
  - destruct (rooms db !! roomID) as [room|] eqn:Hroom; simpl; [|done].
    destruct (Hrooms _ _ Hroom) as [Hid Hne]. intros Hnot.
    rewrite (RemoveUser_absent _ _ _ Hnot). simpl.
    unfold Room.IsEmpty. case_bool_decide as Hlen; simpl.
    + destruct (Room.Users room); [done | discriminate].
    + rewrite Hid. by apply insert_id.
  - intros other Hother.
    destruct (rooms db !! roomID) as [room|] eqn:Hroom; simpl; [|done].
    destruct (Hrooms _ _ Hroom) as [Hid Hne].
    destruct (Room.IsEmpty _); simpl.
    + by rewrite lookup_delete_ne.
    + rewrite RemoveUser_ID, Hid. by rewrite lookup_insert_ne.
Qed.

Lemma pairStore_keyed : keyed pairStore.
Proof.
  split; unfold pairStore; simpl.
  - intros k r [<- <-]%lookup_singleton_Some. done.
  - intros k u [[<- <-] | [_ [<- <-]%lookup_singleton_Some]]%lookup_insert_Some; done.
Qed.

Lemma pairStore_ok : store_ok pairStore.
Proof.
  unfold store_ok, pairStore. simpl. apply map_Forall_singleton.
  split; simpl.
  - apply NoDup_cons. split; [|apply NoDup_singleton].
    intros [=]%list_elem_of_singleton.
  - unfold MaxRoomUsers. lia.
Qed.

Lemma LeaveRoom_spec_witness :
  roomMembers (RoomService.LeaveRoom 9 "u0" "R" pairStore).2 "R" = ["u1"] ∧
  (RoomService.LeaveRoom 9 "u0" "R" pairStore).1 = None.
Proof.
  destruct (LeaveRoom_spec 9 "u0" "R" pairStore pairStore_keyed pairStore_ok)
    as (Hmembers & _ & _ & _ & Hsession).
  split.
  - rewrite Hmembers. vm_compute. reflexivity.
  - change (users pairStore !! "u0") with (Some (session "u0")) in Hsession.
    exact (proj1 Hsession).
Defined.

(** ** The engine, run by a goroutine that does not hold the registry lock *)

Lemma bind_Done {A B} (c : M A) (k : A → M B) s a s' :
  c s = Done a s' → bind c k s = k a s'.
Proof. intros H. unfold bind. by rewrite H. Qed.

Lemma bind_prefix3 {A B C D} (c1 : M A) (c2 : A → M B) (c3 : M C) (k : M D) s s1 :
  bind c1 (λ a, bind (c2 a) (λ _, bind c3 (λ _, ret tt))) s = Done tt s1 →
  bind c1 (λ a, bind (c2 a) (λ _, bind c3 (λ _, k))) s = k s1.
Proof.
  unfold bind, ret. destruct (c1 s) as [a s0|]; [|discriminate].
  destruct (c2 a s0) as [b s2|]; [|discriminate].
  destruct (c3 s2) as [c s3|]; [|discriminate]. by intros [= ->].
Qed.

Lemma free_unheld s : free s → held (connMutex s) = false.
Proof. intros H. by rewrite H. Qed.

Ltac solve_free :=
  unfold free; simpl;
  first [ assumption | match goal with H : free _ |- _ => exact H end | done ].

(** Run the first statement of the computation in the goal with a lemma that
    says what it does from a state where the lock is not held. *)
Ltac step lem :=
  match goal with
  | |- context [bind ?c ?k ?s] =>
      rewrite (bind_Done c k s _ _ ltac:(apply lem; solve_free))
  end.

Lemma set_redis_same s : set_redis (redis s) s = s.
Proof. by destruct s. Qed.

Lemma kv_free {A} (c : KV A) s :
  free s → kv c s = Done (c (redis s)).1 (set_redis (c (redis s)).2 s).
Proof. intros H. unfold kv, blocking. by rewrite (free_unheld _ H). Qed.

Lemma WriteJSON_free user msg s :
  free s → WriteJSON user msg s = Done None (set_wire (wire s ++ [(user, msg)]) s).
Proof. intros H. unfold WriteJSON, blocking. by rewrite (free_unheld _ H). Qed.

Lemma locked_setRoomID_free {B} user roomID (k : M B) s :
  free s →
  bind Lock (λ _, bind (setRoomID user roomID) (λ _, bind Unlock (λ _, k))) s =
  k (set_connections (alter (User.withRoomID roomID) user (connections s)) s).
Proof.
  intros H. unfold bind, Lock. rewrite (free_unheld _ H).
  unfold setRoomID, Unlock. f_equal.
  destruct s. unfold free in H. simpl in *. by subst.
Qed.

Section EngineFree.

#[local] Abbreviation GetConnection := SignalingService.GetConnection.
#[local] Abbreviation sendMessage := SignalingService.sendMessage.
#[local] Abbreviation sendError := SignalingService.sendError.
#[local] Abbreviation forwardToUser := SignalingService.forwardToUser.
#[local] Abbreviation broadcastToUsers := SignalingService.broadcastToUsers.
#[local] Abbreviation filterConnectedUsers := SignalingService.filterConnectedUsers.
#[local] Abbreviation disconnectedAmong := SignalingService.disconnectedAmong.
#[local] Abbreviation leaveAll := SignalingService.leaveAll.
#[local] Abbreviation cleanupDisconnectedUsersFromRoom :=
  SignalingService.cleanupDisconnectedUsersFromRoom.
#[local] Abbreviation handleLeaveRoom := SignalingService.handleLeaveRoom.
#[local] Abbreviation handleOffer := SignalingService.handleOffer.
#[local] Abbreviation handleAnswer := SignalingService.handleAnswer.
#[local] Abbreviation handleIceCandidate := SignalingService.handleIceCandidate.

Implicit Types (s : Engine) (now : Z) (user userID roomID : string).

Lemma GetConnection_free userID s :
  free s →
  GetConnection userID s =
    Done (if decide (connected s userID) then Some userID else None) s.
Proof.
  intros H. unfold SignalingService.GetConnection, bind, RLock.
  unfold free in H. rewrite H. simpl. unfold RUnlock, ret. simpl.
  replace (set_connMutex _ _) with s by (destruct s; simpl in *; by subst).
  destruct (decide (connected s userID)) as [[u Hu]|Hn].
  - by rewrite Hu.
  - apply eq_None_not_Some in Hn. by rewrite Hn.
Qed.

Lemma sendMessage_free user msg s :
  free s → sendMessage user msg s = Done None (set_wire (wire s ++ [(user, msg)]) s).
Proof.
  intros H. unfold SignalingService.sendMessage.
  by rewrite (bind_Done _ _ _ _ _ (WriteJSON_free _ _ _ H)).
Qed.

Lemma sendError_free now user code message s :
  free s →
  sendError now user code message s =
    Done None (set_wire (wire s ++ [(user, errorFrame now code message)]) s).
Proof. intros H. unfold SignalingService.sendError. by rewrite sendMessage_free. Qed.

Lemma filterConnectedUsers_free userIDs s :
  free s → filterConnectedUsers userIDs s = Done (filter (connected s) userIDs) s.
Proof.
  intros H. induction userIDs as [|userID rest IH]; [done|].
  simpl. rewrite (bind_Done _ _ _ _ _ (GetConnection_free _ _ H)).
  rewrite (bind_Done _ _ _ _ _ IH).
  destruct (decide (connected s userID)).
  - by rewrite filter_cons_True.
  - by rewrite filter_cons_False.
Qed.

Lemma disconnectedAmong_free userIDs s :
  free s →
  disconnectedAmong userIDs s =
    Done (filter (λ userID, ¬ connected s userID) userIDs) s.
Proof.
  intros H. induction userIDs as [|userID rest IH]; [done|].
  simpl. rewrite (bind_Done _ _ _ _ _ (GetConnection_free _ _ H)).
  rewrite (bind_Done _ _ _ _ _ IH).
  destruct (decide (connected s userID)).
  - by rewrite filter_cons_False by (intros Hn; by apply Hn).
  - by rewrite filter_cons_True.
Qed.

Lemma leaveAll_free now roomID userIDs s :
  free s →
  leaveAll now roomID userIDs s =
    Done tt (set_redis (leaveAllStore now roomID userIDs (redis s)) s).
Proof.
  revert s. induction userIDs as [|userID rest IH]; intros s H.
  - simpl. unfold ret. f_equal. by destruct s.
  - simpl. rewrite (bind_Done _ _ _ _ _ (kv_free _ _ H)).
    rewrite IH by solve_free. done.
Qed.

Lemma cleanup_free now roomID s :
  free s →
  cleanupDisconnectedUsersFromRoom now roomID s =
    Done None (set_redis (sweptStore now roomID s) s).
Proof.
  intros H. unfold SignalingService.cleanupDisconnectedUsersFromRoom.
  rewrite (bind_Done _ _ _ _ _ (kv_free _ _ H)).
  rewrite GetRoomUsers_eq. simpl.
  assert (free (set_redis (redis s) s)) as H' by solve_free.
  rewrite (bind_Done _ _ _ _ _ (disconnectedAmong_free _ _ H')).
  rewrite (bind_Done _ _ _ _ _ (leaveAll_free _ _ _ _ H')).
  done.
Qed.

Lemma broadcastToUsers_free userIDs msg s :
  free s →
  broadcastToUsers userIDs msg s =
    Done tt (set_wire (wire s ++ deliver msg (filter (connected s) userIDs)) s).
Proof.
  revert s. induction userIDs as [|userID rest IH]; intros s H.
  - simpl. unfold ret. f_equal. destruct s. unfold set_wire. simpl.
    by rewrite app_nil_r.
  - simpl. rewrite (bind_Done _ _ _ _ _ (GetConnection_free _ _ H)).
    destruct (decide (connected s userID)) as [Hc|Hc].
    + rewrite (bind_Done _ _ _ _ _ (sendMessage_free _ _ _ H)).
      rewrite IH by solve_free. rewrite filter_cons_True by done.
      unfold set_wire. simpl. by rewrite <- app_assoc.
    + rewrite IH by done. by rewrite filter_cons_False.
Qed.

Lemma connected_alter s (f : User.t → User.t) user userID :
  connected (set_connections (alter f user (connections s)) s) userID ↔
  connected s userID.
Proof.
  unfold connected. simpl. rewrite lookup_alter.
  destruct (decide (user = userID)) as [->|]; [|done].
  destruct (connections s !! userID); simpl; split; intros [? ?]; eauto.
Qed.

Lemma connected_altered s s' (f : User.t → User.t) user :
  connections s' = alter f user (connections s) →
  ∀ userID, connected s' userID ↔ connected s userID.
Proof.
  intros Hc userID. rewrite <- (connected_alter s f user userID).
  unfold connected. simpl. by rewrite Hc.
Qed.

Lemma filter_connected_alter s s' (f : User.t → User.t) user (userIDs : list string) :
  connections s' = alter f user (connections s) →
  filter (connected s') userIDs = filter (connected s) userIDs.
Proof.
  intros Hc. apply list_filter_iff. intros userID.
  rewrite <- (connected_alter s f user userID). unfold connected. simpl. by rewrite Hc.
Qed.

Lemma handleLeaveRoom_free now user roomID s :
  free s →
  handleLeaveRoom now user roomID s =
    let room := cachedRoom user s in
    if bool_decide (room = "") then Done None s
    else
      let others := filter (λ id, id ≠ user) (roomMembers (redis s) room) in
      let left := RoomService.LeaveRoom now user room (redis s) in
      match left.1 with
      | Some _ =>
          Done None
            (set_wire (wire s ++ [(user, errorFrame now 500 "Failed to leave room")])
               (set_redis left.2 s))
      | None =>
          Done None
            (set_wire
               (wire s ++
                deliver (userLeftFrame now room user others) (filter (connected s) others))
               (set_connections (alter (User.withRoomID "") user (connections s))
                  (set_redis left.2 s)))
      end.
Proof.
  intros H. unfold SignalingService.handleLeaveRoom.
  rewrite (bind_Done _ _ _ _ _ (eq_refl : getRoomID user s = Done (cachedRoom user s) s)).
  simpl. case_bool_decide as Hroom; [done|].
  rewrite (bind_Done _ _ _ _ _ (kv_free _ _ H)).
  rewrite GetOtherUsersInRoom_eq. simpl. rewrite set_redis_same.
  step @kv_free. simpl.
  destruct (RoomService.LeaveRoom now user (cachedRoom user s) (redis s)).1 eqn:Hleft.
  - rewrite sendError_free by solve_free. done.
  - rewrite locked_setRoomID_free by solve_free.
    case_bool_decide as Hlen.
    + step broadcastToUsers_free.
      unfold ret. f_equal. simpl.
      by rewrite (filter_connected_alter s _ (User.withRoomID "") user).
    + unfold bind, ret. f_equal.
      destruct (filter (λ id, id ≠ user) (roomMembers (redis s) (cachedRoom user s)));
        [|simpl in Hlen; lia].
      rewrite filter_nil. unfold deliver. simpl. rewrite app_nil_r. done.
Qed.

Lemma noJoinNotice_refl s : free s → noJoinNotice s s.
Proof.
  intros H. split; [done|]. split; [done|]. split; [done|].
  exists []. by rewrite app_nil_r.
Qed.

Lemma handleLeaveRoom_quiet now user roomID s :
  free s →
  ∃ s0, handleLeaveRoom now user roomID s = Done None s0 ∧ noJoinNotice s s0.
Proof.
  intros H. rewrite handleLeaveRoom_free by done. simpl.
  case_bool_decide as Hroom.
  - exists s. split; [done|]. apply noJoinNotice_refl, H.
  - destruct (RoomService.LeaveRoom now user (cachedRoom user s) (redis s)).1.
    + eexists. split; [done|].
      split; [solve_free|]. split; [done|]. split; [done|].
      eexists. split; [done|]. apply Forall_singleton. unfold isUserJoined. simpl.
      discriminate.
    + eexists. split; [done|].
      split; [solve_free|]. split; [|split; [done|]].
      * by apply (connected_altered s _ (User.withRoomID "") user).
      * eexists. split; [done|]. unfold deliver. apply Forall_map.
        apply Forall_forall. intros x _. unfold isUserJoined. simpl. discriminate.
Qed.

Lemma joinPrelude_free now user roomID s :
  free s → ∃ s1, joinPrelude now user roomID s = Done tt s1 ∧ noJoinNotice s s1.
Proof.
  intros H. unfold joinPrelude.
  rewrite (bind_Done _ _ _ _ _ (eq_refl : getRoomID user s = Done (cachedRoom user s) s)).
  assert (∃ s0,
    (if bool_decide (cachedRoom user s ≠ "") && bool_decide (cachedRoom user s ≠ roomID)
     then handleLeaveRoom now user (cachedRoom user s)
     else ret None) s = Done None s0 ∧ noJoinNotice s s0) as (s0 & Hrun & Hq).
  { destruct (bool_decide (cachedRoom user s ≠ "") && bool_decide (cachedRoom user s ≠ roomID)).
    - by apply handleLeaveRoom_quiet.
    - exists s. split; [done|]. apply noJoinNotice_refl, H. }
  rewrite (bind_Done _ _ _ _ _ Hrun).
  destruct Hq as (Hfree & Hconn & Hheld & pre & Hwire & Hpre).
  rewrite (bind_Done _ _ _ _ _ (cleanup_free _ _ _ Hfree)).
  eexists. split; [done|].
  split; [solve_free|]. split; [exact Hconn|]. split; [exact Hheld|].
  exists pre. done.
Qed.

End EngineFree.

(** ** Joining a room: the frames written *)

Lemma filter_none {A} (P : A → Prop) `{∀ x, Decision (P x)} (l : list A) :
  Forall (λ x, ¬ P x) l → filter P l = [].
Proof.
  induction 1 as [|x l Hx _ IH]; [done|]. by rewrite filter_cons_False.
Qed.

Lemma deliver_recipients msg (userIDs : list string) f :
  f ∈ deliver msg userIDs → f.1 ∈ userIDs ∧ f.2 = msg.
Proof.
  unfold deliver. intros (u & -> & Hu)%list_elem_of_fmap. done.
Qed.

Lemma joiner_listed (peers : list string) (user : string) : user ∈ peers ++ [user].
Proof. apply elem_of_app. right. by left. Qed.

Section Join.

Variable unmarshalJoinRoomData : RawMessage → option JoinRoomData.

#[local] Abbreviation handleJoinRoom :=
  (SignalingService.handleJoinRoom unmarshalJoinRoomData).

Lemma handleJoinRoom_run now user msg joinData s s1 :
  unmarshalJoinRoomData (Message.Data msg) = Some joinData →
  joinPrelude now user (jrd_RoomID joinData) s = Done tt s1 →
  free s1 →
  handleJoinRoom now user msg s =
    let roomID := jrd_RoomID joinData in
    if (RoomService.IsRoomFull roomID (redis s1)).1.1
    then Done None (set_wire (wire s1 ++ [(user, roomFullFrame now roomID)]) s1)
    else
      let joined := RoomService.JoinRoom now user roomID (redis s1) in
      match joined.1.2 with
      | Some _ =>
          Done None
            (set_wire (wire s1 ++ [(user, errorFrame now 500 "Failed to join room")])
               (set_redis joined.2 s1))
      | None =>
          let peers :=
            filter (connected s1)
              (filter (λ id, id ≠ user) (roomMembers joined.2 roomID)) in
          Done None
            (set_wire (wire s1 ++ joinFrames now roomID user peers)
               (set_connections (alter (User.withRoomID roomID) user (connections s1))
                  (set_redis joined.2 s1)))
      end.
Proof.
  intros Hdec Hpre Hfree. unfold SignalingService.handleJoinRoom. rewrite Hdec.
  unfold joinPrelude in Hpre.
  etrans; [apply (bind_prefix3 _ _ _ _ _ _ Hpre)|].
  step @kv_free. rewrite IsRoomFull_eq. simpl. rewrite set_redis_same.
  step @kv_free. rewrite GetRoomUsers_eq. simpl. rewrite set_redis_same.
  destruct (match rooms (redis s1) !! jrd_RoomID joinData with
            | Some room => negb (Room.CanJoin room)
            | None => false
            end).
  { by rewrite sendMessage_free. }
  step @kv_free.
  destruct (RoomService.JoinRoom now user (jrd_RoomID joinData) (redis s1))
    as [[room err] db] eqn:Hjoin.
  simpl. destruct err as [e|].
  { by rewrite sendError_free by solve_free. }
  rewrite locked_setRoomID_free by solve_free.
  step @kv_free. rewrite GetOtherUsersInRoom_eq. simpl.
  step filterConnectedUsers_free. simpl.
  erewrite (filter_connected_alter s1) by reflexivity.
  case_bool_decide as Hlen.
  - step broadcastToUsers_free.
    rewrite sendMessage_free by solve_free. f_equal. simpl.
    match goal with
    | |- context [filter (connected (set_redis ?d ?S)) ?l] =>
        rewrite (filter_connected_alter s1 (set_redis d S) _ _ l eq_refl)
    end.
    rewrite (list_filter_filter (connected s1) (connected s1)).
    unfold joinFrames, set_wire. simpl. rewrite <- app_assoc. f_equal. f_equal. f_equal.
    f_equal. apply list_filter_iff. intros x. tauto.
  - unfold bind, ret. rewrite sendMessage_free by solve_free. f_equal.
    destruct (filter (connected s1) _) eqn:Hpeers; [|simpl in Hlen; lia].
    done.
Qed.

(** C3: a join that goes through (the payload decodes, the room is not full
    after the sweep, the room service lets the user in) sends the joiner one
    [user_joined] frame and no more. Its [user_id] is the joiner; its [users]
    list is the other members of the room that have a connection, followed by
    the joiner: the joiner is always in it, and is all of it when no other
    member is connected. *)
Theorem join_confirmation now user msg joinData s s1 :
  free s →
  unmarshalJoinRoomData (Message.Data msg) = Some joinData →
  joinPrelude now user (jrd_RoomID joinData) s = Done tt s1 →
  (RoomService.IsRoomFull (jrd_RoomID joinData) (redis s1)).1 = (false, None) →
  (RoomService.JoinRoom now user (jrd_RoomID joinData) (redis s1)).1.2 = None →
  ∃ s' frames,
    handleJoinRoom now user msg s = Done None s' ∧
    wire s' = wire s ++ frames ∧
    let roomID := jrd_RoomID joinData in
    let peers :=
      filter (connected s') (filter (λ id, id ≠ user) (roomMembers (redis s') roomID)) in
    filter (λ f, f.1 = user ∧ isUserJoined f) frames =
      [(user, userJoinedFrame now roomID user (peers ++ [user]))] ∧
    Message.UserID (userJoinedFrame now roomID user (peers ++ [user])) = user ∧
    user ∈ peers ++ [user] ∧
    (peers = [] → peers ++ [user] = [user]).
Proof.
  intros Hfree Hdec Hpre Hfull Hjoin.
  destruct (joinPrelude_free now user (jrd_RoomID joinData) s Hfree)
    as (s1' & Hpre' & Hfree1 & Hconn & _ & pre & Hwire & Hquiet).
  rewrite Hpre in Hpre'. injection Hpre' as <-.
  rewrite (handleJoinRoom_run _ _ _ _ _ _ Hdec Hpre Hfree1). simpl.
  rewrite Hfull, Hjoin. simpl.
  eexists _, _. split; [reflexivity|]. simpl.
  split; [by rewrite Hwire, <- app_assoc|].
  match goal with
  | |- context [filter (connected ?S) ?l] =>
      rewrite (filter_connected_alter s1 S _ _ l eq_refl)
  end.
  split; [|split; [done|split; [|by intros ->]]].
  - unfold joinFrames. rewrite !filter_app.
    rewrite (filter_none _ pre).
    2:{ eapply Forall_impl; [exact Hquiet|]. intros f Hf [_ Hj]. by apply Hf. }
    rewrite (filter_none _ (deliver _ _)).
    2:{ apply Forall_forall. intros f [Hin _]%deliver_recipients [Hto _].
        apply list_elem_of_filter in Hin as [_ [Hne _]%list_elem_of_filter].
        by apply Hne. }
    simpl. rewrite filter_cons_True by done. done.
  - apply elem_of_app. right. by left.
Qed.

(** C5, amended: what a [join_room] frame makes the engine write, case by
    case. A payload that does not decode is answered with the 400 error
    frame, to the joiner alone. Otherwise the prelude runs first (leaving
    the previous room, the sweep) and writes [pre], none of it a
    [user_joined] frame; then
    - the room is full: one [room_full] frame, to the joiner, and no
      fan-out;
    - the room service refuses the join: one 500 error frame, to the joiner,
      and no fan-out;
    - the join goes through: the fan-out, then the echo, and no more. The
      recipients of the fan-out are exactly the members of the joined room,
      as stored after the join, other than the joiner, that have a
      connection, in the order of the room; each gets one and the same
      [user_joined] frame, with [user_id] the joiner and a [users] list made
      of those recipients followed by the joiner. So the joiner is in the
      list sent to the peers, but is not a recipient of the fan-out: no
      frame of the fan-out has a [user_id] equal to its recipient. The echo
      to the joiner is that same frame. *)
Theorem join_fanout now user msg s :
  free s →
  (unmarshalJoinRoomData (Message.Data msg) = None →
   handleJoinRoom now user msg s =
     Done None
       (set_wire (wire s ++ [(user, errorFrame now 400 "Invalid join room data")]) s)) ∧
  (∀ joinData,
     unmarshalJoinRoomData (Message.Data msg) = Some joinData →
     let roomID := jrd_RoomID joinData in
     ∃ s1 pre,
       joinPrelude now user roomID s = Done tt s1 ∧
       wire s1 = wire s ++ pre ∧
       Forall (λ f, ¬ isUserJoined f) pre ∧
       ((RoomService.IsRoomFull roomID (redis s1)).1.1 = true →
        handleJoinRoom now user msg s =
          Done None
            (set_wire (wire s ++ pre ++ [(user, roomFullFrame now roomID)]) s1)) ∧
       ((RoomService.IsRoomFull roomID (redis s1)).1.1 = false →
        (RoomService.JoinRoom now user roomID (redis s1)).1.2 ≠ None →
        handleJoinRoom now user msg s =
          Done None
            (set_wire
               (wire s ++ pre ++ [(user, errorFrame now 500 "Failed to join room")])
               (set_redis (RoomService.JoinRoom now user roomID (redis s1)).2 s1))) ∧
       ((RoomService.IsRoomFull roomID (redis s1)).1.1 = false →
        (RoomService.JoinRoom now user roomID (redis s1)).1.2 = None →
        ∃ s',
          handleJoinRoom now user msg s = Done None s' ∧
          redis s' = (RoomService.JoinRoom now user roomID (redis s1)).2 ∧
          let peers :=
            filter (connected s)
              (filter (λ id, id ≠ user) (roomMembers (redis s') roomID)) in
          let frame := userJoinedFrame now roomID user (peers ++ [user]) in
          wire s' = wire s ++ pre ++ deliver frame peers ++ [(user, frame)] ∧
          Message.UserID frame = user ∧
          user ∈ peers ++ [user] ∧
          (user ∉ peers) ∧
          (∀ peer,
             peer ∈ peers ↔
             peer ∈ roomMembers (redis s') roomID ∧ peer ≠ user ∧ connected s peer))).
Proof.
  intros Hfree. split.
  { intros Hdec. unfold SignalingService.handleJoinRoom. rewrite Hdec.
    by rewrite sendError_free. }
  intros joinData Hdec roomID.
  destruct (joinPrelude_free now user roomID s Hfree)
    as (s1 & Hpre & Hfree1 & Hconn & _ & pre & Hwire & Hquiet).
  exists s1, pre. split; [exact Hpre|]. split; [exact Hwire|]. split; [exact Hquiet|].
  rewrite (handleJoinRoom_run _ _ _ _ _ _ Hdec Hpre Hfree1). cbv zeta.
  fold roomID. rewrite Hwire.
  split; [|split].
  - intros ->. by rewrite <- app_assoc.
  - intros -> Hjoin.
    destruct (RoomService.JoinRoom now user roomID (redis s1)).1.2; [|done].
    by rewrite <- app_assoc.
  - intros -> ->. eexists. split; [reflexivity|]. split; [reflexivity|].
    cbn [redis set_wire set_connections set_redis wire].
    rewrite (list_filter_iff (connected s1) (connected s)) by exact Hconn.
    split; [by unfold joinFrames; rewrite <- app_assoc|].
    split; [reflexivity|]. split; [apply joiner_listed|]. split.
    + intros [_ [Hne _]%list_elem_of_filter]%list_elem_of_filter. by apply Hne.
    + intros peer. rewrite !list_elem_of_filter. tauto.
Qed.

End Join.

Lemma join_confirmation_witness :
  ∃ s' users,
    SignalingService.handleJoinRoom sampleJoinRoomData 5 "u1" joinR lobby = Done None s' ∧
    filter (λ f, f.1 = "u1" ∧ isUserJoined f) (wire s') =
      [("u1", userJoinedFrame 5 "R" "u1" users)] ∧
    "u1" ∈ users.
Proof.
  destruct (join_confirmation sampleJoinRoomData 5 "u1" joinR {| jrd_RoomID := "R" |}
              lobby lobby)
    as (s' & frames & Hrun & Hwire & Hecho & _ & Hin & _).
  - reflexivity.
  - reflexivity.
  - vm_compute. reflexivity.
  - vm_compute. reflexivity.
  - vm_compute. reflexivity.
  - exists s'. eexists. split; [exact Hrun|]. split; [|exact Hin].
    rewrite Hwire. exact Hecho.
Defined.

(** C5, as stated, fails: when [u1] joins room [R], where [u0] is connected,
    the [user_joined] frame written to the peer [u0] lists the joiner [u1]. *)
Lemma joiner_listed_in_fanout :
  ¬ (∀ decode now user msg s r s' peer m d,
       free s →
       SignalingService.handleJoinRoom decode now user msg s = Done r s' →
       (peer, m) ∈ wire s' → peer ≠ user → isUserJoined (peer, m) →
       Message.Data m = UserJoinedJSON d →
       user ∉ ujd_Users d).
Proof.
  intros H.
  apply (H sampleJoinRoomData 5%Z "u1" joinR lobby None
           (match SignalingService.handleJoinRoom sampleJoinRoomData 5 "u1" joinR lobby with
            | Done _ s' => s'
            | Parked s' => s'
            end)
           "u0" (userJoinedFrame 5 "R" "u1" ["u0"; "u1"])
           {| ujd_UserID := "u1"; ujd_Users := ["u0"; "u1"] |}).
  - reflexivity.
  - vm_compute. reflexivity.
  - vm_compute. left.
  - discriminate.
  - reflexivity.
  - reflexivity.
  - simpl. right. left.
Qed.

Lemma join_fanout_witness :
  ∃ s',
    SignalingService.handleJoinRoom sampleJoinRoomData 5 "u1" joinR lobby = Done None s' ∧
    wire s' =
      [("u0", userJoinedFrame 5 "R" "u1" ["u0"; "u1"]);
       ("u1", userJoinedFrame 5 "R" "u1" ["u0"; "u1"])].
Proof.
  destruct (join_fanout sampleJoinRoomData 5 "u1" joinR lobby eq_refl) as [_ H].
  destruct (H {| jrd_RoomID := "R" |} eq_refl)
    as (s1 & pre & Hpre & Hwire & _ & _ & _ & Hjoined).
  cbn [jrd_RoomID] in Hpre, Hjoined.
  assert (joinPrelude 5 "u1" "R" lobby = Done tt lobby) as Hlobby
    by (vm_compute; reflexivity).
  rewrite Hlobby in Hpre. injection Hpre as <-.
  change (wire lobby) with (@nil (string * Message.t)) in Hwire.
  simpl in Hwire. subst pre.
  destruct Hjoined as (s' & Hrun & Hredis & Hframes & _).
  - vm_compute. reflexivity.
  - vm_compute. reflexivity.
  - exists s'. split; [exact Hrun|].
    rewrite Hredis in Hframes. rewrite Hframes. vm_compute. reflexivity.
Defined.

(** The single-tab scenario: [u1] joins the room [R] that does not exist yet
    and gets one frame, the [user_joined] frame that lists [u1] alone. *)
Example single_tab_echo :
  ∃ s',
    SignalingService.handleJoinRoom sampleJoinRoomData 5 "u1" joinR solo = Done None s' ∧
    wire s' = [("u1", userJoinedFrame 5 "R" "u1" ["u1"])] ∧
    roomMembers (redis s') "R" = ["u1"] ∧
    cachedRoom "u1" s' = "R".
Proof. eexists. split; [vm_compute; reflexivity|]. by vm_compute. Qed.

(** ** Relaying offers, answers and candidates; frames that are not handled *)

Lemma forwardToUser_free targetUserID msg s :
  free s →
  SignalingService.forwardToUser targetUserID msg s =
    if decide (connected s targetUserID)
    then Done None (set_wire (wire s ++ [(targetUserID, msg)]) s)
    else Done (Some ("target user not connected: " +:+ targetUserID)) s.
Proof.
  intros H. unfold SignalingService.forwardToUser. step GetConnection_free.
  destruct (decide (connected s targetUserID)); [|done].
  by rewrite sendMessage_free.
Qed.

Lemma handleOffer_free now user msg s :
  free s → SignalingService.handleOffer now user msg s = relay now user msg "offer" s.
Proof.
  intros H. unfold SignalingService.handleOffer, relay.
  rewrite (bind_Done _ _ _ _ _ (eq_refl : getRoomID user s = Done (cachedRoom user s) s)).
  case_bool_decide; [by rewrite sendError_free|].
  case_bool_decide; [by rewrite forwardToUser_free | by rewrite sendError_free].
Qed.

Lemma handleAnswer_free now user msg s :
  free s → SignalingService.handleAnswer now user msg s = relay now user msg "answer" s.
Proof.
  intros H. unfold SignalingService.handleAnswer, relay.
  rewrite (bind_Done _ _ _ _ _ (eq_refl : getRoomID user s = Done (cachedRoom user s) s)).
  case_bool_decide; [by rewrite sendError_free|].
  case_bool_decide; [by rewrite forwardToUser_free | by rewrite sendError_free].
Qed.

Lemma handleIceCandidate_free now user msg s :
  free s →
  SignalingService.handleIceCandidate now user msg s =
    relay now user msg "ICE candidate" s.
Proof.
  intros H. unfold SignalingService.handleIceCandidate, relay.
  rewrite (bind_Done _ _ _ _ _ (eq_refl : getRoomID user s = Done (cachedRoom user s) s)).
  case_bool_decide; [by rewrite sendError_free|].
  case_bool_decide; [by rewrite forwardToUser_free | by rewrite sendError_free].
Qed.

Section Dispatch.

Variable unmarshalMessage : string → option Message.t.
Variable unmarshalJoinRoomData : RawMessage → option JoinRoomData.

#[local] Abbreviation HandleMessage :=
  (SignalingService.HandleMessage unmarshalMessage unmarshalJoinRoomData).
#[local] Abbreviation handleConnection :=
  (WebSocketHandler.handleConnection unmarshalMessage unmarshalJoinRoomData).

(** A relayed kind reaches its handler, and the three handlers differ only in
    the text about a missing target. *)
Lemma HandleMessage_relayed now userID data msg s :
  free s →
  unmarshalMessage data = Some msg →
  Message.Type_ msg ∈ relayedKinds →
  connected s userID →
  ∃ what, HandleMessage now userID data s =
            relay now userID (Message.stamp userID now msg) what s.
Proof.
  intros H Hparse Hkind Hconn. unfold SignalingService.HandleMessage. rewrite Hparse.
  step GetConnection_free. rewrite decide_True by done.
  unfold relayedKinds in Hkind. simpl.
  apply elem_of_cons in Hkind as [Hk|Hkind];
    [|apply elem_of_cons in Hkind as [Hk|Hkind];
      [|apply list_elem_of_singleton in Hkind as Hk]];
    rewrite Hk; simpl.
  - exists "offer". by apply handleOffer_free.
  - exists "answer". by apply handleAnswer_free.
  - exists "ICE candidate". by apply handleIceCandidate_free.
Qed.

(** A frame that is not dispatched is answered with a Go error and nothing
    else happens. *)
Lemma HandleMessage_unhandled now userID data s :
  free s →
  (unmarshalMessage data = None ∨
   ∃ msg, unmarshalMessage data = Some msg ∧ Message.Type_ msg ∉ handledKinds) →
  ∃ e, HandleMessage now userID data s = Done (Some e) s.
Proof.
  intros H [Hparse | (msg & Hparse & Hkind)];
    unfold SignalingService.HandleMessage; rewrite Hparse.
  - by eexists.
  - step GetConnection_free.
    destruct (decide (connected s userID)); [|by eexists].
    unfold handledKinds in Hkind. rewrite !not_elem_of_cons in Hkind.
    destruct Hkind as (H1 & H2 & H3 & H4 & H5 & _). simpl.
    rewrite !bool_decide_eq_false_2 by done. by eexists.
Qed.

(** The read loop after a frame on which [HandleMessage] returned without a
    change of state: the activity of the user is refreshed and the following
    frames are handled. *)
Lemma handleConnection_goes_on now userID data rest r s :
  HandleMessage now userID data s = Done r s →
  handleConnection userID ((now, data) :: rest) s =
    bind (kv (UserService.UpdateUserActivity now userID))
      (λ _, handleConnection userID rest) s.
Proof. intros Hrun. simpl. by rewrite (bind_Done _ _ _ _ _ Hrun). Qed.

(** Frames of a kind other than [join_room] never make the engine write a
    [user_joined] frame: those frames all come from [handleJoinRoom]. *)
Lemma HandleMessage_other_kinds_quiet now userID data s :
  free s →
  (∀ msg, unmarshalMessage data = Some msg → Message.Type_ msg ≠ MessageTypeJoinRoom) →
  ∃ r s', HandleMessage now userID data s = Done r s' ∧ noJoinNotice s s'.
Proof.
  intros H Hkind.
  destruct (unmarshalMessage data) as [msg|] eqn:Hparse.
  2:{ destruct (HandleMessage_unhandled now userID data s H (or_introl Hparse)) as [e He].
      exists (Some e), s. split; [done|]. by apply noJoinNotice_refl. }
  specialize (Hkind msg eq_refl).
  destruct (decide (Message.Type_ msg ∈ handledKinds)) as [Hin|Hout].
  2:{ destruct (HandleMessage_unhandled now userID data s H) as [e He].
      { right. by exists msg. }
      exists (Some e), s. split; [done|]. by apply noJoinNotice_refl. }
  destruct (decide (connected s userID)) as [Hconn|Hconn].
  2:{ unfold SignalingService.HandleMessage. rewrite Hparse.
      step GetConnection_free. rewrite decide_False by done.
      eexists _, s. split; [done|]. by apply noJoinNotice_refl. }
  unfold handledKinds in Hin. apply elem_of_cons in Hin as [Hj|Hin]; [done|].
  apply elem_of_cons in Hin as [Hleave|Hrelayed].
  - unfold SignalingService.HandleMessage. rewrite Hparse.
    step GetConnection_free. rewrite decide_True by done.
    simpl. rewrite Hleave. simpl.
    destruct (handleLeaveRoom_quiet now userID (Message.RoomID msg) s H) as (s0 & -> & Hq).
    by exists None, s0.
  - destruct (HandleMessage_relayed now userID data msg s H Hparse Hrelayed Hconn)
      as [what ->].
    unfold relay.
    assert (∀ to m, ¬ isUserJoined (to, m) →
              noJoinNotice s (set_wire (wire s ++ [(to, m)]) s)) as Hone.
    { intros to m Hm. split; [solve_free|]. split; [done|]. split; [done|].
      eexists. split; [done|]. by apply Forall_singleton. }
    case_bool_decide.
    { eexists _, _. split; [done|]. apply Hone. unfold isUserJoined. simpl. discriminate. }
    case_bool_decide.
    2:{ eexists _, _. split; [done|]. apply Hone. unfold isUserJoined. simpl.
        discriminate. }
    destruct (decide (connected s _)).
    + eexists _, _. split; [done|]. apply Hone. unfold isUserJoined. simpl.
      unfold relayedKinds in Hrelayed. intros Heq. rewrite Heq in Hrelayed.
      rewrite !elem_of_cons in Hrelayed.
      destruct Hrelayed as [?|[?|[?|?%elem_of_nil]]]; done.
    + eexists _, s. split; [done|]. by apply noJoinNotice_refl.
Qed.

End Dispatch.

Section Routing.

Variable unmarshalMessage : string → option Message.t.
Variable unmarshalJoinRoomData : RawMessage → option JoinRoomData.

#[local] Abbreviation HandleMessage :=
  (SignalingService.HandleMessage unmarshalMessage unmarshalJoinRoomData).
#[local] Abbreviation handleConnection :=
  (WebSocketHandler.handleConnection unmarshalMessage unmarshalJoinRoomData).

(** C4, amended: an [offer], [answer] or [ice_candidate] frame from a sender
    whose cached room is not empty, with a target that is not empty and has
    a connection in the registry, is handed to the target's stream, and to
    no other: same kind, [user_id] the sender, the payload as the sender
    sent it. The target receives one more frame, nobody else receives
    anything, and the payload received is the payload sent as the stream's
    encoder re-encodes it: the same bytes when the compaction leaves the
    payload as it is, and only then. *)
Theorem relay_delivers (compact : string → string) now sender data msg s :
  free s →
  unmarshalMessage data = Some msg →
  Message.Type_ msg ∈ relayedKinds →
  connected s sender →
  cachedRoom sender s ≠ "" →
  Message.TargetID msg ≠ "" →
  connected s (Message.TargetID msg) →
  ∃ s',
    HandleMessage now sender data s = Done None s' ∧
    s' =
      set_wire
        (wire s ++
         [(Message.TargetID msg,
           Message.mk (Message.Type_ msg) (Message.RoomID msg) sender
             (Message.TargetID msg) (Message.Data msg) now)]) s ∧
    received compact (Message.TargetID msg) s' =
      received compact (Message.TargetID msg) s ++
      [Message.mk (Message.Type_ msg) (Message.RoomID msg) sender
         (Message.TargetID msg) (reencoded compact (Message.Data msg)) now] ∧
    (∀ other, other ≠ Message.TargetID msg →
       received compact other s' = received compact other s) ∧
    (∀ b, Message.Data msg = Bytes b →
       (reencoded compact (Message.Data msg) = Message.Data msg ↔ compact b = b)).
Proof.
  intros H Hparse Hkind Hconn Hroom Htarget Hthere.
  destruct (HandleMessage_relayed _ unmarshalJoinRoomData now sender data msg s
              H Hparse Hkind Hconn) as [what ->].
  unfold relay. simpl.
  rewrite bool_decide_eq_false_2 by done.
  rewrite bool_decide_eq_true_2 by done.
  rewrite decide_True by done.
  eexists. split; [reflexivity|]. split; [reflexivity|].
  unfold received. cbn [wire set_wire].
  split; [|split].
  - rewrite filter_app, filter_cons_True by reflexivity. rewrite filter_nil.
    by rewrite !fmap_app.
  - intros other Hother. rewrite filter_app.
    rewrite filter_cons_False by (simpl; congruence).
    by rewrite filter_nil, app_nil_r.
  - intros b ->. simpl. split; [by intros [= ->]|by intros ->].
Qed.

(** C1, amended: an [offer], [answer] or [ice_candidate] frame from a sender
    in a room, whose target has no connection in the registry, makes
    [HandleMessage] return the error "target user not connected: <id>" to the
    read loop. Nothing is written to any stream, the sender's included, and
    the state of the engine is as before. The read loop goes on with the
    frames that follow. *)
Theorem relay_target_not_connected now sender data msg rest s :
  free s →
  unmarshalMessage data = Some msg →
  Message.Type_ msg ∈ relayedKinds →
  connected s sender →
  cachedRoom sender s ≠ "" →
  Message.TargetID msg ≠ "" →
  ¬ connected s (Message.TargetID msg) →
  HandleMessage now sender data s =
    Done (Some ("target user not connected: " +:+ Message.TargetID msg)) s ∧
  handleConnection sender ((now, data) :: rest) s =
    bind (kv (UserService.UpdateUserActivity now sender))
      (λ _, handleConnection sender rest) s.
Proof.
  intros H Hparse Hkind Hconn Hroom Htarget Hgone.
  assert (HandleMessage now sender data s =
            Done (Some ("target user not connected: " +:+ Message.TargetID msg)) s)
    as Hrun.
  { destruct (HandleMessage_relayed _ unmarshalJoinRoomData now sender data msg s
                H Hparse Hkind Hconn) as [what ->].
    unfold relay. simpl.
    rewrite bool_decide_eq_false_2 by done.
    rewrite bool_decide_eq_true_2 by done.
    by rewrite decide_False. }
  split; [exact Hrun|].
  by apply (handleConnection_goes_on _ _ _ _ _ _ _ _ Hrun).
Qed.

(** C9, amended: a frame that does not parse, or whose kind is not one of
    [join_room], [leave_room], [offer], [answer], [ice_candidate], makes
    [HandleMessage] return an error to the read loop. Nothing is written to
    any stream and the state of the engine is as before. The read loop goes
    on with the frames that follow. *)
Theorem unhandled_frame_skipped now sender data rest s :
  free s →
  (unmarshalMessage data = None ∨
   ∃ msg, unmarshalMessage data = Some msg ∧ Message.Type_ msg ∉ handledKinds) →
  (∃ e, HandleMessage now sender data s = Done (Some e) s) ∧
  handleConnection sender ((now, data) :: rest) s =
    bind (kv (UserService.UpdateUserActivity now sender))
      (λ _, handleConnection sender rest) s.
Proof.
  intros H Hbad.
  destruct (HandleMessage_unhandled _ unmarshalJoinRoomData now sender data s H Hbad)
    as [e Hrun].
  split; [by exists e|].
  by apply (handleConnection_goes_on _ _ _ _ _ _ _ _ Hrun).
Qed.

(** The parse error that is answered on the stream: a [join_room] frame with
    a payload that does not decode gets the 400-coded error frame. *)
Lemma join_payload_rejected now sender data msg s :
  free s →
  unmarshalMessage data = Some msg →
  Message.Type_ msg = MessageTypeJoinRoom →
  connected s sender →
  unmarshalJoinRoomData (Message.Data msg) = None →
  HandleMessage now sender data s =
    Done None
      (set_wire (wire s ++ [(sender, errorFrame now 400 "Invalid join room data")]) s).
Proof.
  intros H Hparse Hkind Hconn Hdec. unfold SignalingService.HandleMessage.
  rewrite Hparse. step GetConnection_free. rewrite decide_True by done.
  simpl. rewrite Hkind. simpl.
  unfold SignalingService.handleJoinRoom. simpl. rewrite Hdec.
  by rewrite sendError_free.
Qed.

End Routing.

Lemma lobby_connected_u0 : connected lobby "u0".
Proof. by eexists. Qed.

Lemma lobby_connected_u1 : connected lobby "u1".
Proof. by eexists. Qed.

Lemma lobby_no_ghost : ¬ connected lobby "ghost".
Proof. intros [u Hu]. vm_compute in Hu. discriminate Hu. Qed.

Lemma relay_delivers_witness :
  ∃ s',
    SignalingService.HandleMessage
      (λ _, Some (Message.mk MessageTypeOffer "" "" "u1" (Bytes "[1, 2, 3]") 0))
      sampleJoinRoomData 7 "u0" "offer" lobby = Done None s' ∧
    wire s' = [("u1", Message.mk MessageTypeOffer "" "u0" "u1" (Bytes "[1, 2, 3]") 7)] ∧
    received sampleCompact "u1" s' =
      [Message.mk MessageTypeOffer "" "u0" "u1" (Bytes "[1,2,3]") 7] ∧
    received sampleCompact "u0" s' = [].
Proof.
  destruct (relay_delivers
              (λ _, Some (Message.mk MessageTypeOffer "" "" "u1" (Bytes "[1, 2, 3]") 0))
              sampleJoinRoomData sampleCompact 7 "u0" "offer"
              (Message.mk MessageTypeOffer "" "" "u1" (Bytes "[1, 2, 3]") 0) lobby)
    as (s' & Hrun & Hs' & Hto & Hothers & _).
  - reflexivity.
  - reflexivity.
  - simpl. left.
  - exact lobby_connected_u0.
  - vm_compute. discriminate.
  - discriminate.
  - exact lobby_connected_u1.
  - exists s'. split; [exact Hrun|]. split; [by rewrite Hs'|].
    split; [exact Hto|]. by rewrite (Hothers "u0").
Defined.

(** C4, as stated, fails: the sender [u1] is in no room, so its offer to the
    connected user [u0] is not relayed; only [u1] is written to. *)
Lemma relay_needs_sender_in_room :
  ¬ (∀ parse decode now sender data msg s,
       free s →
       parse data = Some msg →
       Message.Type_ msg ∈ relayedKinds →
       connected s sender →
       connected s (Message.TargetID msg) →
       ∃ r s' m,
         SignalingService.HandleMessage parse decode now sender data s = Done r s' ∧
         (Message.TargetID msg, m) ∈ drop (length (wire s)) (wire s') ∧
         Message.UserID m = sender ∧ Message.Data m = Message.Data msg).
Proof.
  intros H.
  destruct (H sampleMessage sampleJoinRoomData 7%Z "u1" "offer to u0"
              (Message.mk MessageTypeOffer "" "" "u0" (Bytes "{sdp:x,type:offer}") 0)
              lobby)
    as (r & s' & m & Hrun & Hin & _).
  - reflexivity.
  - reflexivity.
  - simpl. left.
  - exact lobby_connected_u1.
  - exact lobby_connected_u0.
  - vm_compute in Hrun. injection Hrun as _ <-.
    simpl in Hin. apply list_elem_of_singleton in Hin. discriminate Hin.
Qed.

Lemma relay_target_not_connected_witness :
  SignalingService.HandleMessage sampleMessage sampleJoinRoomData 7 "u0" "offer to ghost"
    lobby = Done (Some "target user not connected: ghost") lobby.
Proof.
  apply (relay_target_not_connected sampleMessage sampleJoinRoomData 7 "u0"
           "offer to ghost"
           (Message.mk MessageTypeOffer "" "" "ghost" (Bytes "{sdp:x,type:offer}") 0)
           [] lobby).
  - reflexivity.
  - reflexivity.
  - simpl. left.
  - exact lobby_connected_u0.
  - vm_compute. discriminate.
  - discriminate.
  - exact lobby_no_ghost.
Defined.

(** C1, as stated, fails: [u0], in room [R], sends an offer to [ghost], who
    has no connection; no frame is written to [u0]. *)
Lemma dead_target_no_error_frame :
  ¬ (∀ parse decode now sender data msg s,
       free s →
       parse data = Some msg →
       Message.Type_ msg ∈ relayedKinds →
       connected s sender →
       cachedRoom sender s ≠ "" →
       Message.TargetID msg ≠ "" →
       ¬ connected s (Message.TargetID msg) →
       ∃ r s' m,
         SignalingService.HandleMessage parse decode now sender data s = Done r s' ∧
         (sender, m) ∈ drop (length (wire s)) (wire s') ∧
         Message.Type_ m = MessageTypeError).
Proof.
  intros H.
  destruct (H sampleMessage sampleJoinRoomData 7%Z "u0" "offer to ghost"
              (Message.mk MessageTypeOffer "" "" "ghost" (Bytes "{sdp:x,type:offer}") 0)
              lobby)
    as (r & s' & m & Hrun & Hin & _).
  - reflexivity.
  - reflexivity.
  - simpl. left.
  - exact lobby_connected_u0.
  - vm_compute. discriminate.
  - discriminate.
  - exact lobby_no_ghost.
  - vm_compute in Hrun. injection Hrun as _ <-.
    simpl in Hin. inversion Hin.
Qed.

Lemma unhandled_frame_skipped_witness :
  (∃ e, SignalingService.HandleMessage sampleMessage sampleJoinRoomData 7 "u0"
          "not json" lobby = Done (Some e) lobby) ∧
  (∃ e, SignalingService.HandleMessage sampleMessage sampleJoinRoomData 7 "u0"
          "stun_config" lobby = Done (Some e) lobby).
Proof.
  split.
  - apply (unhandled_frame_skipped sampleMessage sampleJoinRoomData 7 "u0" "not json"
             [] lobby); [reflexivity|]. left. reflexivity.
  - apply (unhandled_frame_skipped sampleMessage sampleJoinRoomData 7 "u0" "stun_config"
             [] lobby); [reflexivity|]. right.
    eexists. split; [reflexivity|]. simpl.
    unfold handledKinds. rewrite !not_elem_of_cons.
    repeat split; try discriminate. apply not_elem_of_nil.
Defined.

(** C9, as stated, fails: a frame of [u0] that does not parse, and a frame
    of a kind that is not handled, leave the streams untouched; no error
    frame is written to [u0]. *)
Lemma unparsed_frame_no_error_frame :
  ¬ (∀ parse decode now sender data s,
       free s →
       connected s sender →
       (parse data = None ∨
        ∃ msg, parse data = Some msg ∧ Message.Type_ msg ∉ handledKinds) →
       ∃ r s' m,
         SignalingService.HandleMessage parse decode now sender data s = Done r s' ∧
         (sender, m) ∈ drop (length (wire s)) (wire s') ∧
         Message.Type_ m = MessageTypeError).
Proof.
  intros H.
  destruct (H sampleMessage sampleJoinRoomData 7%Z "u0" "not json" lobby)
    as (r & s' & m & Hrun & Hin & _).
  - reflexivity.
  - exact lobby_connected_u0.
  - left. reflexivity.
  - vm_compute in Hrun. injection Hrun as _ <-.
    simpl in Hin. inversion Hin.
Qed.

(** ** The registry lock on disconnect *)

Lemma cachedRoom_lookup userID user s :
  connections s !! userID = Some user → cachedRoom userID s = User.RoomID user.
Proof. intros H. unfold cachedRoom. by rewrite H. Qed.

(** [RemoveConnection] of a user in a room, from a state where the lock is
    free. The two calls to the room service are made with the lock held.
    When the leave succeeds, [handleLeaveRoom] locks the registry a second
    time and the goroutine is parked with the lock held and the connection
    still registered. When the leave fails, the error frame is written with
    the lock held. *)
Lemma RemoveConnection_in_room now userID user s :
  free s →
  connections s !! userID = Some user →
  User.RoomID user ≠ "" →
  SignalingService.RemoveConnection now userID s =
    let left := RoomService.LeaveRoom now userID (User.RoomID user) (redis s) in
    match left.1 with
    | None =>
        Parked
          (set_heldAcross (heldAcross s ++ [AtKV; AtKV])
             (set_redis left.2 (set_connMutex {| writer := true; readers := 0 |} s)))
    | Some _ =>
        Done tt
          (set_heldAcross (heldAcross s ++ [AtKV; AtKV; AtStreamWrite])
             (set_wire (wire s ++ [(userID, errorFrame now 500 "Failed to leave room")])
                (set_connections (delete userID (connections s))
                   (set_redis left.2 s))))
    end.
Proof.
  intros H Hconn Hroom.
  unfold SignalingService.RemoveConnection, bind at 1, Lock.
  rewrite (free_unheld _ H). unfold free in H.
  unfold bind at 1. simpl connections. rewrite Hconn.
  rewrite bool_decide_eq_true_2 by done.
  unfold SignalingService.handleLeaveRoom, getRoomID.
  unfold bind at 1. unfold bind at 1. unfold bind at 1.
  rewrite (cachedRoom_lookup userID user) by done.
  rewrite bool_decide_eq_false_2 by done.
  unfold bind at 1. unfold kv at 1, blocking. simpl.
  rewrite GetOtherUsersInRoom_eq. simpl.
  unfold bind at 1. unfold kv at 1, blocking. simpl.
  destruct (RoomService.LeaveRoom now userID (User.RoomID user) (redis s)).1 eqn:Hleft.
  - unfold SignalingService.sendError, SignalingService.sendMessage, bind, WriteJSON,
      blocking, ret, Unlock. simpl.
    f_equal. destruct s. simpl in *. subst.
    unfold set_heldAcross, set_wire, set_connections, set_redis, set_connMutex. simpl.
    by rewrite <- !app_assoc.
  - unfold bind, Lock. simpl.
    f_equal. destruct s. simpl in *. subst.
    unfold set_heldAcross, set_wire, set_connections, set_redis, set_connMutex. simpl.
    by rewrite <- !app_assoc.
Qed.

(** C7 does not hold of the code: when [u0], who is in room [R], disconnects,
    [RemoveConnection] calls the shared store twice with the registry lock
    held, then locks the registry again while holding it. The goroutine is
    parked for good: the lock is never released and [u0] stays registered. *)
Theorem RemoveConnection_holds_lock_and_parks :
  ∃ s',
    SignalingService.RemoveConnection 9 "u0" lobby = Parked s' ∧
    heldAcross s' = [AtKV; AtKV] ∧
    writer (connMutex s') = true ∧
    connected s' "u0".
Proof.
  eexists. split; [|split; [|split]].
  - rewrite (RemoveConnection_in_room 9 "u0" (User.mk "cookie" "R" 0 0) lobby);
      [|reflexivity|reflexivity|discriminate].
    vm_compute. reflexivity.
  - reflexivity.
  - reflexivity.
  - by eexists.
Qed.

(** ** More on room records *)

Lemma without_app_last (ids : list string) (userID : string) :
  userID ∉ ids → Room.without (ids ++ [userID]) userID = Some ids.
Proof.
  induction ids as [|id rest IH]; simpl.
  - intros _. by rewrite bool_decide_eq_true_2.
  - rewrite not_elem_of_cons. intros [Hne Hrest].
    rewrite bool_decide_eq_false_2 by congruence. by rewrite IH.
Qed.

(** X1: [RemoveUser] returns true exactly when the user id is listed. When it
    is not, the record is as before, [UpdatedAt] included. When it is, one
    entry is gone, [UpdatedAt] is the instant of the call, the id and the
    creation time are kept; and in a list without duplicates the user id is
    gone and the other ids keep their order. *)
Theorem RemoveUser_spec now r userID :
  (Room.RemoveUser now r userID).2 = bool_decide (userID ∈ Room.Users r) ∧
  (userID ∉ Room.Users r → Room.RemoveUser now r userID = (r, false)) ∧
  (userID ∈ Room.Users r →
     S (length (Room.Users (Room.RemoveUser now r userID).1)) = length (Room.Users r) ∧
     Room.UpdatedAt (Room.RemoveUser now r userID).1 = now ∧
     Room.ID (Room.RemoveUser now r userID).1 = Room.ID r ∧
     Room.CreatedAt (Room.RemoveUser now r userID).1 = Room.CreatedAt r) ∧
  (NoDup (Room.Users r) →
     Room.Users (Room.RemoveUser now r userID).1 =
       filter (λ id, id ≠ userID) (Room.Users r)).
Proof.
  unfold Room.RemoveUser.
  destruct (Room.without (Room.Users r) userID) as [us|] eqn:Hw; simpl.
  - assert (userID ∈ Room.Users r) as Hin.
    { destruct (decide (userID ∈ Room.Users r)) as [|Hn]; [done|].
      apply without_None in Hn. congruence. }
    split; [by rewrite bool_decide_eq_true_2|]. split; [done|].
    split; [intros _; by rewrite (without_length _ _ _ Hw)|].
    intros Hnd. by apply without_filter.
  - apply without_None in Hw.
    split; [by rewrite bool_decide_eq_false_2|]. split; [done|].
    split; [done|]. intros _. by rewrite filter_ne_absent.
Qed.

Lemma RemoveUser_spec_witness :
  Room.RemoveUser 3 pairRoom "u0" = (Room.mk "R" ["u1"] 0 3, true) ∧
  Room.RemoveUser 3 pairRoom "u7" = (pairRoom, false).
Proof.
  destruct (RemoveUser_spec 3 pairRoom "u7") as (_ & Habsent & _).
  split; [reflexivity|]. apply Habsent. vm_compute.
  intros H. repeat (apply elem_of_cons in H as [H|H]; [discriminate H|]).
  by apply elem_of_nil in H.
Defined.

(** X2: in a room with a free place, adding a user id that is not listed and
    removing it again gives back the member list; both calls return true. *)
Theorem AddUser_RemoveUser now now' r userID :
  Room.CanJoin r = true →
  userID ∉ Room.Users r →
  (Room.AddUser now r userID).2 = true ∧
  Room.RemoveUser now' (Room.AddUser now r userID).1 userID =
    (Room.mk (Room.ID r) (Room.Users r) (Room.CreatedAt r) now', true).
Proof.
  intros Hc Hn. unfold Room.AddUser. rewrite Hc. simpl.
  apply listed_false in Hn as Hl. rewrite Hl. simpl. split; [done|].
  unfold Room.RemoveUser. simpl. by rewrite without_app_last.
Qed.

Lemma AddUser_RemoveUser_witness :
  Room.RemoveUser 4 (Room.AddUser 3 pairRoom "u2").1 "u2" =
    (Room.mk "R" ["u0"; "u1"] 0 4, true).
Proof.
  apply (AddUser_RemoveUser 3 4 pairRoom "u2"); [reflexivity|].
  intros H. repeat (apply elem_of_cons in H as [H|H]; [discriminate H|]).
  by apply elem_of_nil in H.
Defined.

(** X3: [GetOtherUsers] never lists the excluded user id and lists every
    other member; it is never longer than the member list; and on a member
    list without duplicates it is the member list that [RemoveUser] leaves. *)
Theorem GetOtherUsers_spec now r userID :
  (userID ∉ Room.GetOtherUsers r userID) ∧
  (∀ other, other ≠ userID →
     (other ∈ Room.GetOtherUsers r userID ↔ other ∈ Room.Users r)) ∧
  length (Room.GetOtherUsers r userID) ≤ length (Room.Users r) ∧
  (NoDup (Room.Users r) →
     Room.GetOtherUsers r userID = Room.Users (Room.RemoveUser now r userID).1).
Proof.
  unfold Room.GetOtherUsers. split; [|split; [|split]].
  - intros [Hne _]%list_elem_of_filter. by apply Hne.
  - intros other Hne. rewrite list_elem_of_filter. tauto.
  - apply length_filter.
  - intros Hnd. unfold Room.RemoveUser.
    destruct (Room.without (Room.Users r) userID) as [us|] eqn:Hw; simpl.
    + symmetry. by apply without_filter.
    + apply without_None in Hw. by apply filter_ne_absent.
Qed.

Lemma GetOtherUsers_spec_witness :
  Room.GetOtherUsers pairRoom "u0" = Room.Users (Room.RemoveUser 3 pairRoom "u0").1.
Proof.
  apply (GetOtherUsers_spec 3 pairRoom "u0").
  apply NoDup_cons. split; [|apply NoDup_singleton].
  intros [=]%list_elem_of_singleton.
Defined.

(** X4: [AddUser] returns what [CanJoin] returns. In a full room nothing
    changes. In a room with a free place the user id is listed afterwards,
    the members from before keep their places, and a user id that was not
    listed comes last. *)
Theorem AddUser_result now r userID :
  (Room.AddUser now r userID).2 = Room.CanJoin r ∧
  (Room.CanJoin r = false → (Room.AddUser now r userID).1 = r) ∧
  (Room.CanJoin r = true →
     userID ∈ Room.Users (Room.AddUser now r userID).1 ∧
     Room.Users (Room.AddUser now r userID).1 =
       Room.Users r ++ (if decide (userID ∈ Room.Users r) then [] else [userID]) ∧
     length (Room.Users (Room.AddUser now r userID).1) ≤ MaxRoomUsers).
Proof.
  unfold Room.AddUser. destruct (Room.CanJoin r) eqn:Hc; simpl.
  2:{ split; [done|]. split; [done|discriminate]. }
  unfold Room.CanJoin in Hc. apply bool_decide_eq_true in Hc.
  destruct (Room.listed (Room.Users r) userID) eqn:Hl; simpl.
  - apply listed_elem_of in Hl. split; [done|]. split; [discriminate|]. intros _.
    rewrite decide_True by done. rewrite app_nil_r. repeat split; [done|lia].
  - apply listed_false in Hl. split; [done|]. split; [discriminate|]. intros _.
    rewrite decide_False by done. split; [apply joiner_listed|]. split; [done|].
    rewrite length_app. simpl. lia.
Qed.

Lemma AddUser_result_witness :
  Room.Users (Room.AddUser 3 pairRoom "u2").1 = ["u0"; "u1"; "u2"] ∧
  (Room.AddUser 3 fullRoom "u2").1 = fullRoom.
Proof.
  destruct (AddUser_result 3 fullRoom "u2") as (_ & Hfull & _).
  split; [reflexivity|]. apply Hfull. reflexivity.
Defined.

(** ** More on the repository and the services on the store *)

Lemma CanJoin_length r : Room.CanJoin r = true ↔ length (Room.Users r) < MaxRoomUsers.
Proof. unfold Room.CanJoin. apply bool_decide_eq_true. Qed.

Lemma AddUserToRoom_effect now roomID userID db :
  keyed db →
  ((RedisRepository.AddUserToRoom now roomID userID db).1 = None ↔
     length (roomMembers db roomID) < MaxRoomUsers) ∧
  ((RedisRepository.AddUserToRoom now roomID userID db).1 ≠ None →
     (RedisRepository.AddUserToRoom now roomID userID db).2 = db) ∧
  ((RedisRepository.AddUserToRoom now roomID userID db).1 = None →
     roomMembers (RedisRepository.AddUserToRoom now roomID userID db).2 roomID =
       roomMembers db roomID ++
       (if decide (userID ∈ roomMembers db roomID) then [] else [userID])) ∧
  (∀ other, other ≠ roomID →
     rooms (RedisRepository.AddUserToRoom now roomID userID db).2 !! other =
       rooms db !! other) ∧
  users (RedisRepository.AddUserToRoom now roomID userID db).2 = users db.
Proof.
  intros [Hrooms _]. rewrite AddUserToRoom_eq. unfold roomMembers. simpl.
  set (room := default (Room.mk roomID [] now now) (rooms db !! roomID)).
  assert (Room.ID room = roomID ∧
          Room.Users room = match rooms db !! roomID with
                            | Some r => Room.Users r
                            | None => []
                            end) as [Hid Hus].
  { subst room. destruct (rooms db !! roomID) as [r|] eqn:Hr; simpl; [|done].
    by destruct (Hrooms _ _ Hr). }
  rewrite <- Hus.
  pose proof (AddUser_ID now room userID) as Hid'. rewrite Hid in Hid'.
  unfold Room.AddUser in *.
  destruct (Room.CanJoin room) eqn:Hc; simpl in *.
  - apply CanJoin_length in Hc.
    destruct (Room.listed (Room.Users room) userID) eqn:Hl; simpl in *.
    + apply listed_elem_of in Hl. rewrite decide_True by done.
      split; [done|]. split; [done|].
      split; [intros _; by rewrite Hid, lookup_insert_eq, app_nil_r|].
      split; [|done]. intros other Hne. rewrite Hid. by rewrite lookup_insert_ne.
    + apply listed_false in Hl. rewrite decide_False by done.
      split; [done|]. split; [done|].
      split; [intros _; by rewrite Hid, lookup_insert_eq|].
      split; [|done]. intros other Hne. rewrite Hid. by rewrite lookup_insert_ne.
  - assert (¬ length (Room.Users room) < MaxRoomUsers) as Hfull.
    { intros Hlt%CanJoin_length. congruence. }
    split; [split; [discriminate | done]|]. split; [done|].
    split; [discriminate|]. done.
Qed.

(** X5: on a store whose records sit under their own ids, [AddUserToRoom]
    returns an error exactly when the room holds [MaxRoomUsers] user ids or
    more, and then changes nothing. Otherwise the member list is the one from
    before, with the user id put last when it was not listed; a listed user
    id is not an error. Other rooms and the sessions are as before. *)
Theorem AddUserToRoom_spec now roomID userID db :
  keyed db →
  ((RedisRepository.AddUserToRoom now roomID userID db).1 = None ↔
     length (roomMembers db roomID) < MaxRoomUsers) ∧
  ((RedisRepository.AddUserToRoom now roomID userID db).1 ≠ None →
     (RedisRepository.AddUserToRoom now roomID userID db).2 = db) ∧
  ((RedisRepository.AddUserToRoom now roomID userID db).1 = None →
     roomMembers (RedisRepository.AddUserToRoom now roomID userID db).2 roomID =
       roomMembers db roomID ++
       (if decide (userID ∈ roomMembers db roomID) then [] else [userID])) ∧
  (∀ other, other ≠ roomID →
     rooms (RedisRepository.AddUserToRoom now roomID userID db).2 !! other =
       rooms db !! other) ∧
  users (RedisRepository.AddUserToRoom now roomID userID db).2 = users db.
Proof. apply AddUserToRoom_effect. Qed.

Lemma AddUserToRoom_spec_witness :
  (RedisRepository.AddUserToRoom 3 "R" "u0" pairStore).1 = None ∧
  roomMembers (RedisRepository.AddUserToRoom 3 "R" "u5" pairStore).2 "R" =
    ["u0"; "u1"; "u5"].
Proof.
  destruct (AddUserToRoom_spec 3 "R" "u0" pairStore pairStore_keyed) as (Hok & _).
  destruct (AddUserToRoom_spec 3 "R" "u5" pairStore pairStore_keyed) as (_ & _ & Hnew & _).
  split.
  - apply Hok. vm_compute. lia.
  - rewrite Hnew by (vm_compute; reflexivity). vm_compute. reflexivity.
Defined.

(** X6: the shape of the store is kept by every sequence of repository and
    room-service operations: each room record sits under the key of its own
    id and has at least one member (a room that loses its last member is
    deleted, not stored empty), and each session sits under the key of its
    own id. *)
Theorem store_shape_invariant (ops : list RoomOp) (db : Redis) :
  keyed db →
  (∀ k r, rooms (applyOps ops db) !! k = Some r → Room.ID r = k ∧ Room.Users r ≠ []) ∧
  (∀ k u, users (applyOps ops db) !! k = Some u → UserSession.ID u = k).
Proof. intros Hdb. exact (applyOps_keyed ops db Hdb). Qed.

Lemma store_shape_invariant_witness :
  (∀ k r, rooms (applyOps leaveAndJoin pairStore) !! k = Some r →
          Room.ID r = k ∧ Room.Users r ≠ []) ∧
  (∀ k u, users (applyOps leaveAndJoin pairStore) !! k = Some u → UserSession.ID u = k).
Proof. apply (store_shape_invariant leaveAndJoin pairStore). exact pairStore_keyed. Defined.

(** The two members of [R] leave: the record is deleted. *)
Example last_member_leaves :
  rooms (applyOps leaveAndJoin pairStore) !! "R" = None ∧
  roomMembers (applyOps leaveAndJoin pairStore) "S" = ["u0"].
Proof. vm_compute. done. Qed.

(** X7: [UpdateUserRoom] (and with it the user service's [JoinRoom] and
    [LeaveRoom]) fails exactly when the user has no session record, with
    "user not found" and no change. Otherwise the session gets the room id
    and the instant of the call as [LastSeen] and keeps its other fields;
    the other sessions and all rooms are as before. *)
Theorem UpdateUserRoom_spec now userID roomID db :
  keyed db →
  (UserService.JoinRoom now userID roomID db = RedisRepository.UpdateUserRoom now userID roomID db) ∧
  (UserService.LeaveRoom now userID db = RedisRepository.UpdateUserRoom now userID "" db) ∧
  (users db !! userID = None →
     RedisRepository.UpdateUserRoom now userID roomID db =
       (Some ("user not found: " +:+ userID), db)) ∧
  (∀ u, users db !! userID = Some u →
     (RedisRepository.UpdateUserRoom now userID roomID db).1 = None ∧
     users (RedisRepository.UpdateUserRoom now userID roomID db).2 =
       <[userID := UserSession.mk userID (UserSession.SessionID u) roomID
                     (UserSession.CreatedAt u) now]> (users db)) ∧
  rooms (RedisRepository.UpdateUserRoom now userID roomID db).2 = rooms db.
Proof.
  intros [_ Husers]. split; [done|]. split; [done|].
  split; [apply UpdateUserRoom_missing|]. split; [|apply UpdateUserRoom_rooms].
  intros u Hu. rewrite (UpdateUserRoom_found _ _ _ _ _ Hu). simpl.
  by rewrite (Husers _ _ Hu).
Qed.

Lemma UpdateUserRoom_spec_witness :
  RedisRepository.UpdateUserRoom 3 "ghost" "R" pairStore =
    (Some "user not found: ghost", pairStore) ∧
  (RedisRepository.UpdateUserRoom 3 "u0" "R" pairStore).1 = None.
Proof.
  destruct (UpdateUserRoom_spec 3 "ghost" "R" pairStore pairStore_keyed)
    as (_ & _ & Hmissing & _).
  destruct (UpdateUserRoom_spec 3 "u0" "R" pairStore pairStore_keyed)
    as (_ & _ & _ & Hfound & _).
  split.
  - apply Hmissing. vm_compute. reflexivity.
  - apply (Hfound (session "u0")). vm_compute. reflexivity.
Defined.

(** ** More on the room service and the user service *)

Lemma JoinRoom_not_full now userID roomID db :
  length (roomMembers db roomID) < MaxRoomUsers →
  RoomService.JoinRoom now userID roomID db =
    let added := RedisRepository.AddUserToRoom now roomID userID db in
    let bound := RedisRepository.UpdateUserRoom now userID roomID added.2 in
    match bound.1 with
    | Some e => ((None, Some e), bound.2)
    | None => ((rooms bound.2 !! roomID, None), bound.2)
    end.
Proof.
  intros Hlen. rewrite JoinRoom_eq. unfold roomMembers in Hlen.
  assert (match rooms db !! roomID with
          | Some room => Room.CanJoin room = true
          | None => True
          end) as Hcan.
  { destruct (rooms db !! roomID); [by apply CanJoin_length | done]. }
  replace (match rooms db !! roomID with
           | Some room => negb (Room.CanJoin room)
           | None => false
           end) with false
    by (destruct (rooms db !! roomID); [by rewrite Hcan | done]).
  simpl. by rewrite AddUserToRoom_accepts.
Qed.

Lemma JoinRoom_let_in now userID roomID db u :
  keyed db →
  users db !! userID = Some u →
  length (roomMembers db roomID) < MaxRoomUsers →
  ∃ room,
    (RoomService.JoinRoom now userID roomID db).1 = (Some room, None) ∧
    rooms (RoomService.JoinRoom now userID roomID db).2 !! roomID = Some room ∧
    Room.Users room =
      roomMembers db roomID ++
      (if decide (userID ∈ roomMembers db roomID) then [] else [userID]) ∧
    userID ∈ Room.Users room ∧
    length (Room.Users room) ≤ MaxRoomUsers ∧
    users (RoomService.JoinRoom now userID roomID db).2 !! userID =
      Some (UserSession.mk userID (UserSession.SessionID u) roomID
              (UserSession.CreatedAt u) now).
Proof.
  intros Hk Hu Hlen. rewrite (JoinRoom_not_full _ _ _ _ Hlen). simpl.
  destruct (AddUserToRoom_effect now roomID userID db Hk)
    as (Hok & _ & Hmem & _ & Husers).
  apply Hok in Hlen as Hnil. specialize (Hmem Hnil).
  set (db1 := (RedisRepository.AddUserToRoom now roomID userID db).2) in *.
  assert (users db1 !! userID = Some u) as Hu1 by (by rewrite Husers).
  rewrite (UpdateUserRoom_found _ _ _ _ _ Hu1). simpl.
  unfold roomMembers in Hmem at 1.
  destruct (rooms db1 !! roomID) as [room|] eqn:Hroom.
  2:{ exfalso. symmetry in Hmem. apply app_eq_nil in Hmem as [Hm Hd].
      rewrite Hm in Hd. rewrite decide_False in Hd by apply not_elem_of_nil. done. }
  exists room. split; [done|]. split; [done|]. split; [done|].
  split; [|split].
  - rewrite Hmem. destruct (decide (userID ∈ roomMembers db roomID)).
    + by rewrite app_nil_r.
    + apply joiner_listed.
  - rewrite Hmem. rewrite length_app.
    destruct (decide _); simpl; lia.
  - destruct Hk as [_ Hku]. rewrite (Hku _ _ Hu). by rewrite lookup_insert_eq.
Qed.

(** X8: on a store whose records sit under their own ids, a user with a
    session record who joins a room with a free place is let in. [JoinRoom]
    returns the room record as stored: the members from before in their
    order, with the user put last when it was not listed, at most
    [MaxRoomUsers] of them. The session of the user names the room. *)
Theorem JoinRoom_success now userID roomID db u :
  keyed db →
  users db !! userID = Some u →
  length (roomMembers db roomID) < MaxRoomUsers →
  ∃ room,
    (RoomService.JoinRoom now userID roomID db).1 = (Some room, None) ∧
    rooms (RoomService.JoinRoom now userID roomID db).2 !! roomID = Some room ∧
    Room.Users room =
      roomMembers db roomID ++
      (if decide (userID ∈ roomMembers db roomID) then [] else [userID]) ∧
    userID ∈ Room.Users room ∧
    length (Room.Users room) ≤ MaxRoomUsers ∧
    users (RoomService.JoinRoom now userID roomID db).2 !! userID =
      Some (UserSession.mk userID (UserSession.SessionID u) roomID
              (UserSession.CreatedAt u) now).
Proof. apply JoinRoom_let_in. Qed.

Lemma JoinRoom_success_witness :
  ∃ room,
    (RoomService.JoinRoom 3 "u1" "R" pairStore).1 = (Some room, None) ∧
    Room.Users room = ["u0"; "u1"].
Proof.
  destruct (JoinRoom_success 3 "u1" "R" pairStore (session "u1") pairStore_keyed)
    as (room & Hret & _ & Hmembers & _).
  - vm_compute. reflexivity.
  - vm_compute. lia.
  - exists room. split; [exact Hret|]. rewrite Hmembers. vm_compute. reflexivity.
Defined.

(** X9: [JoinRoom] is not all-or-nothing. For a user without a session
    record and a room with a free place it returns "user not found", but the
    user id has been put in the room record, which stays that way. *)
Theorem JoinRoom_without_session now userID roomID db :
  keyed db →
  users db !! userID = None →
  length (roomMembers db roomID) < MaxRoomUsers →
  (RoomService.JoinRoom now userID roomID db).1 =
    (None, Some ("user not found: " +:+ userID)) ∧
  userID ∈ roomMembers (RoomService.JoinRoom now userID roomID db).2 roomID ∧
  users (RoomService.JoinRoom now userID roomID db).2 = users db.
Proof.
  intros Hk Hu Hlen. rewrite (JoinRoom_not_full _ _ _ _ Hlen). simpl.
  destruct (AddUserToRoom_effect now roomID userID db Hk)
    as (Hok & _ & Hmem & _ & Husers).
  apply Hok in Hlen as Hnil. specialize (Hmem Hnil).
  set (db1 := (RedisRepository.AddUserToRoom now roomID userID db).2) in *.
  assert (users db1 !! userID = None) as Hu1 by (by rewrite Husers).
  rewrite (UpdateUserRoom_missing _ _ _ _ Hu1). simpl.
  split; [done|]. split; [|done].
  rewrite Hmem. destruct (decide (userID ∈ roomMembers db roomID)).
  - by rewrite app_nil_r.
  - apply joiner_listed.
Qed.

Lemma JoinRoom_without_session_witness :
  (RoomService.JoinRoom 3 "ghost" "R" pairStore).1 =
    (None, Some "user not found: ghost") ∧
  "ghost" ∈ roomMembers (RoomService.JoinRoom 3 "ghost" "R" pairStore).2 "R".
Proof.
  destruct (JoinRoom_without_session 3 "ghost" "R" pairStore pairStore_keyed)
    as (Hret & Hin & _).
  - vm_compute. reflexivity.
  - vm_compute. lia.
  - split; [exact Hret | exact Hin].
Defined.

Lemma IsRoomFull_length roomID db :
  RoomService.IsRoomFull roomID db =
    ((bool_decide (MaxRoomUsers ≤ length (roomMembers db roomID)), None), db).
Proof.
  rewrite IsRoomFull_eq. unfold roomMembers, Room.CanJoin.
  destruct (rooms db !! roomID) as [room|]; simpl.
  - do 2 f_equal. do 2 case_bool_decide; simpl; try done; lia.
  - done.
Qed.

Lemma LeaveRoom_with_session now userID roomID db u :
  keyed db →
  users db !! userID = Some u →
  (RoomService.LeaveRoom now userID roomID db).1 = None ∧
  users (RoomService.LeaveRoom now userID roomID db).2 !! userID =
    Some (UserSession.mk userID (UserSession.SessionID u) ""
            (UserSession.CreatedAt u) now).
Proof.
  intros [_ Husers] Hu. rewrite LeaveRoom_eq.
  rewrite (UpdateUserRoom_found _ _ _ _ u) by (by rewrite RemoveUserFromRoom_users).
  simpl. split; [done|]. by rewrite (Husers _ _ Hu), lookup_insert_eq.
Qed.

(** X10: [IsRoomFull] reads the store and changes nothing. It never returns
    an error, says false of a room that does not exist, and says true exactly
    when [JoinRoom] would refuse the user with "room is full". *)
Theorem IsRoomFull_agrees_with_JoinRoom now userID roomID db :
  RoomService.IsRoomFull roomID db =
    ((bool_decide (MaxRoomUsers ≤ length (roomMembers db roomID)), None), db) ∧
  (rooms db !! roomID = None → (RoomService.IsRoomFull roomID db).1.1 = false) ∧
  ((RoomService.IsRoomFull roomID db).1.1 = true ↔
     (RoomService.JoinRoom now userID roomID db).1.2 = Some "room is full").
Proof.
  pose proof (IsRoomFull_length roomID db) as Heq.
  split; [exact Heq|]. rewrite Heq. simpl. split.
  - intros Hnone. unfold roomMembers. by rewrite Hnone.
  - case_bool_decide as Hfull.
    + split; [intros _|done]. rewrite JoinRoom_eq. unfold roomMembers in Hfull.
      destruct (rooms db !! roomID) as [room|]; simpl in Hfull;
        [|unfold MaxRoomUsers in Hfull; lia].
      unfold Room.CanJoin. rewrite bool_decide_eq_false_2 by lia. done.
    + split; [discriminate|]. intros Herr. exfalso.
      rewrite JoinRoom_not_full in Herr by lia. simpl in Herr.
      destruct (users (RedisRepository.AddUserToRoom now roomID userID db).2 !! userID)
        as [u|] eqn:Hu.
      * by rewrite (UpdateUserRoom_found _ _ _ _ _ Hu) in Herr.
      * rewrite (UpdateUserRoom_missing _ _ _ _ Hu) in Herr. simpl in Herr.
        discriminate Herr.
Qed.

(** X11: [GetOrCreateUser] never looks a session up: it stores a new session
    under the id it is given. With an id that is not in use, the session has
    the cookie's session id, no room, and the instant of the call as creation
    and last-seen time; every session from before is still there, the ones
    of the same cookie included, so the store has one session more. *)
Theorem GetOrCreateUser_fresh newID now sessionID db :
  users db !! newID = None →
  (UserService.GetOrCreateUser newID now sessionID db).1 =
    (Some (UserSession.mk newID sessionID "" now now), None) ∧
  UserService.GetUser newID (UserService.GetOrCreateUser newID now sessionID db).2 =
    ((Some (UserSession.mk newID sessionID "" now now), None),
     (UserService.GetOrCreateUser newID now sessionID db).2) ∧
  (∀ other u, users db !! other = Some u →
     users (UserService.GetOrCreateUser newID now sessionID db).2 !! other = Some u) ∧
  size (users (UserService.GetOrCreateUser newID now sessionID db).2) =
    S (size (users db)) ∧
  rooms (UserService.GetOrCreateUser newID now sessionID db).2 = rooms db.
Proof.
  intros Hfresh.
  unfold UserService.GetOrCreateUser, UserService.CreateUser, UserService.GetUser,
    RedisRepository.GetUser, RedisRepository.SaveUser, kv_bind, kv_ret. simpl.
  split; [done|]. split; [by rewrite lookup_insert_eq|]. split; [|split; [|done]].
  - intros other u Hu. rewrite lookup_insert_ne; [done|]. intros <-. congruence.
  - by apply map_size_insert_None.
Qed.

Lemma GetOrCreateUser_fresh_witness :
  size (users (UserService.GetOrCreateUser "u2" 3 "cookie" pairStore).2) = 3.
Proof.
  destruct (GetOrCreateUser_fresh "u2" 3 "cookie" pairStore) as (_ & _ & _ & Hsize & _).
  - vm_compute. reflexivity.
  - rewrite Hsize. vm_compute. reflexivity.
Defined.

(** X12: [UpdateUserActivity] never returns an error. For a user without a
    session record it changes nothing; otherwise it sets [LastSeen] to the
    instant of the call and keeps the session's room and other fields. Rooms
    are as before. *)
Theorem UpdateUserActivity_spec now userID db :
  keyed db →
  (UserService.UpdateUserActivity now userID db).1 = None ∧
  (users db !! userID = None → (UserService.UpdateUserActivity now userID db).2 = db) ∧
  (∀ u, users db !! userID = Some u →
     users (UserService.UpdateUserActivity now userID db).2 =
       <[userID := UserSession.mk userID (UserSession.SessionID u) (UserSession.RoomID u)
                     (UserSession.CreatedAt u) now]> (users db)) ∧
  rooms (UserService.UpdateUserActivity now userID db).2 = rooms db.
Proof.
  intros [_ Husers].
  unfold UserService.UpdateUserActivity, RedisRepository.GetUser,
    RedisRepository.SaveUser, kv_bind, kv_ret. simpl.
  destruct (users db !! userID) as [u|] eqn:Hu; simpl.
  - split; [done|]. split; [done|]. split; [|done].
    intros ? [= <-]. by rewrite (Husers _ _ Hu).
  - done.
Qed.

Lemma UpdateUserActivity_spec_witness :
  (UserService.UpdateUserActivity 3 "ghost" pairStore).2 = pairStore ∧
  (UserService.UpdateUserActivity 3 "u0" pairStore).1 = None.
Proof.
  destruct (UpdateUserActivity_spec 3 "ghost" pairStore pairStore_keyed)
    as (_ & Hmissing & _).
  destruct (UpdateUserActivity_spec 3 "u0" pairStore pairStore_keyed) as (Hok & _).
  split; [|exact Hok]. apply Hmissing. vm_compute. reflexivity.
Defined.

Lemma IsRoomFull_agrees_with_JoinRoom_witness :
  (RoomService.IsRoomFull "R" fullStore).1.1 = true ∧
  (RoomService.JoinRoom 3 "u0" "R" fullStore).1.2 = Some "room is full" ∧
  (RoomService.IsRoomFull "nowhere" fullStore).1.1 = false.
Proof.
  destruct (IsRoomFull_agrees_with_JoinRoom 3 "u0" "R" fullStore) as (Heq & _ & Hiff).
  destruct (IsRoomFull_agrees_with_JoinRoom 3 "u0" "nowhere" fullStore) as (_ & Habsent & _).
  assert ((RoomService.IsRoomFull "R" fullStore).1.1 = true) as Hfull
    by (rewrite Heq; vm_compute; reflexivity).
  split; [exact Hfull|]. split; [by apply Hiff|].
  apply Habsent. vm_compute. reflexivity.
Defined.

(** ** The registry and the sweep *)

Lemma filter_ext_elem_of {A} (P Q : A → Prop) `{∀ x, Decision (P x)}
    `{∀ x, Decision (Q x)} (l : list A) :
  (∀ x, x ∈ l → (P x ↔ Q x)) → filter P l = filter Q l.
Proof.
  induction l as [|x l IH]; intros Hext; [done|].
  assert (filter P l = filter Q l) as Hrest.
  { apply IH. intros y Hy. apply Hext. by right. }
  destruct (decide (P x)) as [HP|HP].
  - rewrite !filter_cons_True; [by rewrite Hrest | | done].
    apply Hext; [by left | done].
  - rewrite !filter_cons_False; [done | | done].
    intros HQ. apply HP. apply Hext; [by left | done].
Qed.

Lemma filter_all {A} (P : A → Prop) `{∀ x, Decision (P x)} (l : list A) :
  (∀ x, P x) → filter P l = l.
Proof.
  intros HP. induction l as [|x l IH]; [done|]. by rewrite filter_cons_True, IH.
Qed.

Lemma LeaveRoom_members now userID roomID db :
  keyed db → store_ok db →
  roomMembers (RoomService.LeaveRoom now userID roomID db).2 roomID =
    filter (λ id, id ≠ userID) (roomMembers db roomID) ∧
  (∀ other, other ≠ roomID →
     rooms (RoomService.LeaveRoom now userID roomID db).2 !! other = rooms db !! other).
Proof.
  intros [Hrooms _] Hok. rewrite LeaveRoom_eq. unfold roomMembers.
  rewrite !UpdateUserRoom_rooms, RemoveUserFromRoom_eq.
  destruct (rooms db !! roomID) as [room|] eqn:Hroom; simpl.
  2:{ rewrite Hroom. done. }
  destruct (Hrooms _ _ Hroom) as [Hid Hne]. destruct (Hok _ _ Hroom) as [Hnd _].
  assert (Room.Users (Room.RemoveUser now room userID).1 =
            filter (λ id, id ≠ userID) (Room.Users room)) as Hus.
  { unfold Room.RemoveUser.
    destruct (Room.without (Room.Users room) userID) as [us|] eqn:Hw; simpl.
    - by apply without_filter.
    - apply without_None in Hw. by rewrite filter_ne_absent. }
  rewrite <- Hus.
  destruct (Room.IsEmpty _) eqn:He; simpl.
  - split.
    + rewrite lookup_delete_eq. unfold Room.IsEmpty in He.
      apply bool_decide_eq_true in He. by rewrite (nil_length_inv _ He).
    + intros other Hother. by rewrite lookup_delete_ne.
  - rewrite RemoveUser_ID, Hid. split.
    + by rewrite lookup_insert_eq.
    + intros other Hother. by rewrite lookup_insert_ne.
Qed.

Lemma LeaveRoom_other_session now userID roomID db other :
  keyed db → other ≠ userID →
  users (RoomService.LeaveRoom now userID roomID db).2 !! other = users db !! other.
Proof.
  intros [_ Husers] Hne. rewrite LeaveRoom_eq.
  destruct (users db !! userID) as [u|] eqn:Hu.
  - rewrite (UpdateUserRoom_found _ _ _ _ u) by (by rewrite RemoveUserFromRoom_users).
    simpl. rewrite RemoveUserFromRoom_users, (Husers _ _ Hu).
    by rewrite lookup_insert_ne.
  - rewrite UpdateUserRoom_missing by (by rewrite RemoveUserFromRoom_users).
    simpl. by rewrite RemoveUserFromRoom_users.
Qed.

Lemma leaveAllStore_effect now roomID userIDs db :
  keyed db → store_ok db →
  keyed (leaveAllStore now roomID userIDs db) ∧
  store_ok (leaveAllStore now roomID userIDs db) ∧
  roomMembers (leaveAllStore now roomID userIDs db) roomID =
    filter (λ id, id ∉ userIDs) (roomMembers db roomID) ∧
  (∀ other, other ≠ roomID →
     rooms (leaveAllStore now roomID userIDs db) !! other = rooms db !! other) ∧
  (∀ other, other ∉ userIDs →
     users (leaveAllStore now roomID userIDs db) !! other = users db !! other).
Proof.
  revert db. induction userIDs as [|userID rest IH]; intros db Hk Hok; simpl.
  - split; [done|]. split; [done|]. split; [|done].
    symmetry. apply filter_all. intros x. apply not_elem_of_nil.
  - destruct (LeaveRoom_members now userID roomID db Hk Hok) as [Hmem Hother].
    destruct (IH _ (LeaveRoom_keyed now userID roomID db Hk)
                (LeaveRoom_store_ok now userID roomID db Hok))
      as (Hk' & Hok' & Hmem' & Hother' & Husers').
    split; [done|]. split; [done|]. split; [|split].
    + rewrite Hmem', Hmem. rewrite list_filter_filter.
      apply list_filter_iff. intros x. rewrite not_elem_of_cons. tauto.
    + intros other Hne. rewrite Hother' by done. by apply Hother.
    + intros other [Hne Hrest]%not_elem_of_cons. rewrite Husers' by done.
      by apply LeaveRoom_other_session.
Qed.

Lemma sweptStore_effect now roomID s :
  keyed (redis s) → store_ok (redis s) →
  keyed (sweptStore now roomID s) ∧
  store_ok (sweptStore now roomID s) ∧
  roomMembers (sweptStore now roomID s) roomID =
    filter (connected s) (roomMembers (redis s) roomID) ∧
  (∀ other, other ≠ roomID →
     rooms (sweptStore now roomID s) !! other = rooms (redis s) !! other) ∧
  (∀ userID, connected s userID →
     users (sweptStore now roomID s) !! userID = users (redis s) !! userID).
Proof.
  intros Hk Hok. unfold sweptStore.
  destruct (leaveAllStore_effect now roomID
              (filter (λ userID, ¬ connected s userID) (roomMembers (redis s) roomID))
              (redis s) Hk Hok) as (Hk' & Hok' & Hmem & Hother & Husers).
  split; [done|]. split; [done|]. split; [|split; [done|]].
  - rewrite Hmem. apply filter_ext_elem_of. intros x Hx.
    rewrite list_elem_of_filter. split.
    + intros Hn. destruct (decide (connected s x)); [done|]. exfalso. by apply Hn.
    + intros Hc [Hn _]. by apply Hn.
  - intros userID Hc. apply Husers. intros [Hn _]%list_elem_of_filter. by apply Hn.
Qed.

(** ** More on the engine *)

(** X13: [AddConnection], called with the registry lock free, registers the
    connection under the user id with no cached room and releases the lock;
    [GetConnection] then finds it. A connection that was registered under
    the same id is replaced. The other connections, the store and the
    streams are as before. *)
Theorem AddConnection_spec now userID sessionID s :
  free s →
  ∃ s',
    SignalingService.AddConnection now userID sessionID s = Done userID s' ∧
    free s' ∧
    connections s' = <[userID := User.mk sessionID "" now now]> (connections s) ∧
    SignalingService.GetConnection userID s' = Done (Some userID) s' ∧
    cachedRoom userID s' = "" ∧
    (∀ other, other ≠ userID → connections s' !! other = connections s !! other) ∧
    redis s' = redis s ∧ wire s' = wire s ∧ heldAcross s' = heldAcross s.
Proof.
  intros H.
  exists (set_connections (<[userID := User.mk sessionID "" now now]> (connections s)) s).
  assert (free (set_connections
                  (<[userID := User.mk sessionID "" now now]> (connections s)) s))
    as H' by solve_free.
  split.
  { unfold SignalingService.AddConnection, bind, Lock. rewrite (free_unheld _ H).
    unfold Unlock, ret. f_equal. destruct s. unfold free in H. simpl in *. by subst. }
  split; [done|]. split; [done|]. split; [|split; [|split]].
  - rewrite GetConnection_free by done. rewrite decide_True; [done|].
    unfold connected. simpl. rewrite lookup_insert_eq. by eexists.
  - unfold cachedRoom. simpl. by rewrite lookup_insert_eq.
  - intros other Hne. simpl. by rewrite lookup_insert_ne.
  - done.
Qed.

Lemma AddConnection_spec_witness :
  ∃ s',
    SignalingService.AddConnection 3 "u2" "cookie" lobby = Done "u2" s' ∧
    SignalingService.GetConnection "u2" s' = Done (Some "u2") s'.
Proof.
  destruct (AddConnection_spec 3 "u2" "cookie" lobby) as (s' & Hrun & _ & _ & Hget & _).
  - reflexivity.
  - by exists s'.
Defined.

(** X14: [RemoveConnection] of a user with no cached room, or with no
    connection at all, called with the registry lock free, takes the entry
    out of the registry and releases the lock. It makes no call to the store
    and writes no frame; [GetConnection] then finds nothing. *)
Theorem RemoveConnection_without_room now userID s :
  free s →
  cachedRoom userID s = "" →
  ∃ s',
    SignalingService.RemoveConnection now userID s = Done tt s' ∧
    free s' ∧
    connections s' = delete userID (connections s) ∧
    SignalingService.GetConnection userID s' = Done None s' ∧
    redis s' = redis s ∧ wire s' = wire s ∧ heldAcross s' = heldAcross s.
Proof.
  intros H Hroom.
  exists (set_connections (delete userID (connections s)) s).
  assert (free (set_connections (delete userID (connections s)) s)) as H'
    by solve_free.
  split.
  { unfold SignalingService.RemoveConnection, bind at 1, Lock.
    rewrite (free_unheld _ H). unfold bind at 1. simpl connections.
    unfold cachedRoom in Hroom.
    destruct (connections s !! userID) as [user|] eqn:Hc.
    - rewrite bool_decide_eq_false_2 by (intros Hne; by apply Hne).
      unfold bind, ret, Unlock. simpl. f_equal.
      destruct s. unfold free in H. simpl in *. by subst.
    - unfold bind, ret, Unlock. simpl. f_equal.
      rewrite delete_id by done.
      destruct s. unfold free in H. simpl in *. by subst. }
  split; [done|]. split; [done|]. split; [|done].
  rewrite GetConnection_free by done. rewrite decide_False; [done|].
  unfold connected. simpl. rewrite lookup_delete_eq. by intros [? ?].
Qed.

Lemma RemoveConnection_without_room_witness :
  ∃ s',
    SignalingService.RemoveConnection 3 "u1" lobby = Done tt s' ∧
    SignalingService.GetConnection "u1" s' = Done None s' ∧
    wire s' = [].
Proof.
  destruct (RemoveConnection_without_room 3 "u1" lobby)
    as (s' & Hrun & _ & _ & Hget & _ & Hwire & _).
  - reflexivity.
  - reflexivity.
  - exists s'. split; [exact Hrun|]. split; [exact Hget|]. exact Hwire.
Defined.

(** X15: [broadcastToUsers], called with the registry lock free, writes the
    frame once to each listed user id that has a connection, in the order of
    the list, and to nobody else; a listed user id without a connection is
    passed over. Nothing else changes. *)
Theorem broadcast_reaches_connected userIDs msg s :
  free s →
  ∃ s',
    SignalingService.broadcastToUsers userIDs msg s = Done tt s' ∧
    wire s' = wire s ++ deliver msg (filter (connected s) userIDs) ∧
    (∀ f, f ∈ deliver msg (filter (connected s) userIDs) →
            f.1 ∈ userIDs ∧ connected s f.1 ∧ f.2 = msg) ∧
    free s' ∧ connections s' = connections s ∧ redis s' = redis s ∧
    heldAcross s' = heldAcross s.
Proof.
  intros H. rewrite broadcastToUsers_free by done.
  eexists. split; [done|]. split; [done|]. split; [|done].
  intros f [[Hc Hin]%list_elem_of_filter Hmsg]%deliver_recipients. done.
Qed.

Lemma broadcast_reaches_connected_witness :
  ∃ s',
    SignalingService.broadcastToUsers ["u1"; "ghost"; "u0"] joinR lobby = Done tt s' ∧
    wire s' = [("u1", joinR); ("u0", joinR)].
Proof.
  destruct (broadcast_reaches_connected ["u1"; "ghost"; "u0"] joinR lobby)
    as (s' & Hrun & Hwire & _).
  - reflexivity.
  - exists s'. split; [exact Hrun|]. rewrite Hwire. vm_compute. reflexivity.
Defined.

(** X16: the sweep, run with the lock free on a well-formed store. After
    [cleanupDisconnectedUsersFromRoom] the members of the room are the
    members from before that have a connection, in their order: no member
    with a connection is taken out and no member without one is left. No
    frame is written; other rooms, the registry and the sessions of
    connected users are as before; the store is still well formed. *)
Theorem sweep_keeps_connected_members now roomID s :
  settled s →
  ∃ s',
    SignalingService.cleanupDisconnectedUsersFromRoom now roomID s = Done None s' ∧
    roomMembers (redis s') roomID =
      filter (connected s) (roomMembers (redis s) roomID) ∧
    (∀ other, other ≠ roomID → rooms (redis s') !! other = rooms (redis s) !! other) ∧
    (∀ userID, connected s userID →
       users (redis s') !! userID = users (redis s) !! userID) ∧
    settled s' ∧
    connections s' = connections s ∧ wire s' = wire s ∧
    heldAcross s' = heldAcross s.
Proof.
  intros (H & Hk & Hok). rewrite cleanup_free by done.
  destruct (sweptStore_effect now roomID s Hk Hok) as (Hk' & Hok' & Hmem & Hother & Hus).
  eexists. split; [done|]. simpl. split; [done|]. split; [done|]. split; [done|].
  split; [|done]. split; [solve_free|]. done.
Qed.

Lemma stale_settled : settled stale.
Proof.
  split; [reflexivity|]. split; [split|]; unfold stale; simpl.
  - intros k r [<- <-]%lookup_singleton_Some. done.
  - intros k u [[<- <-] | [_ [<- <-]%lookup_singleton_Some]]%lookup_insert_Some; done.
  - unfold store_ok. simpl. apply map_Forall_singleton. split; simpl.
    + apply NoDup_cons. split; [|apply NoDup_singleton].
      intros [=]%list_elem_of_singleton.
    + unfold MaxRoomUsers. lia.
Qed.

Lemma sweep_keeps_connected_members_witness :
  ∃ s',
    SignalingService.cleanupDisconnectedUsersFromRoom 3 "R" stale = Done None s' ∧
    roomMembers (redis s') "R" = ["u0"].
Proof.
  destruct (sweep_keeps_connected_members 3 "R" stale stale_settled)
    as (s' & Hrun & Hmem & _).
  exists s'. split; [exact Hrun|]. rewrite Hmem. vm_compute. reflexivity.
Defined.

(** ** More on the handlers *)

Lemma disciplined_refl s : settled s → disciplined s s.
Proof. intros H. by split. Qed.

Lemma disciplined_trans s1 s2 s3 :
  disciplined s1 s2 → disciplined s2 s3 → disciplined s1 s3.
Proof.
  intros (_ & Hh & Hc) (Hs & Hh' & Hc'). split; [done|]. split; [congruence|].
  intros userID. by rewrite Hc', Hc.
Qed.

Lemma disciplined_wire w s : settled s → disciplined s (set_wire w s).
Proof. intros (H & Hk & Hok). split; [|done]. split; [solve_free|]. done. Qed.

Lemma disciplined_redis db s :
  settled s → keyed db → store_ok db → disciplined s (set_redis db s).
Proof. intros (H & _ & _) Hk Hok. split; [|done]. split; [solve_free|]. done. Qed.

Lemma cachedRoom_altered user roomID s s' :
  connected s user →
  connections s' = alter (User.withRoomID roomID) user (connections s) →
  cachedRoom user s' = roomID.
Proof.
  intros [c Hc] Hs. unfold cachedRoom. rewrite Hs, lookup_alter.
  rewrite decide_True by done. by rewrite Hc.
Qed.

(** X17: [handleLeaveRoom], run with the lock free on a well-formed store.
    For a user with no cached room it does nothing. Otherwise the room that
    is left is the cached one, whatever room id the frame names. When the
    user has a session record, the user is taken out of the room's member
    list, the session and the cached room are cleared, and one [user_left]
    frame, listing all remaining members, is written to each remaining
    member that has a connection; none goes to the user who left. *)
Theorem leave_room_effect now user roomID s :
  settled s →
  (cachedRoom user s = "" →
     SignalingService.handleLeaveRoom now user roomID s = Done None s) ∧
  (∀ conn sess,
     connections s !! user = Some conn →
     User.RoomID conn ≠ "" →
     users (redis s) !! user = Some sess →
     let room := User.RoomID conn in
     let others := filter (λ id, id ≠ user) (roomMembers (redis s) room) in
     ∃ s',
       SignalingService.handleLeaveRoom now user roomID s = Done None s' ∧
       cachedRoom user s' = "" ∧
       roomMembers (redis s') room = others ∧
       users (redis s') !! user =
         Some (UserSession.mk user (UserSession.SessionID sess) ""
                 (UserSession.CreatedAt sess) now) ∧
       wire s' =
         wire s ++ deliver (userLeftFrame now room user others)
                     (filter (connected s) others) ∧
       disciplined s s').
Proof.
  intros (H & Hk & Hok). split.
  - intros Hroom. rewrite handleLeaveRoom_free by done. simpl.
    by rewrite bool_decide_eq_true_2.
  - intros conn sess Hc Hroom Hu room others.
    rewrite handleLeaveRoom_free by done. simpl.
    rewrite (cachedRoom_lookup _ _ _ Hc).
    rewrite bool_decide_eq_false_2 by done.
    destruct (LeaveRoom_with_session now user (User.RoomID conn) (redis s) sess Hk Hu)
      as [Hnil Hsess].
    destruct (LeaveRoom_members now user (User.RoomID conn) (redis s) Hk Hok)
      as [Hmem _].
    rewrite Hnil. eexists. split; [done|]. simpl.
    split; [|split; [done|split; [done|split; [done|]]]].
    + apply (cachedRoom_altered user "" s); [by eexists | done].
    + split; [|split; [done|]].
      * split; [solve_free|]. simpl.
        split; [by apply LeaveRoom_keyed | by apply LeaveRoom_store_ok].
      * by apply (connected_altered s _ (User.withRoomID "") user).
Qed.

Lemma lobby_settled : settled lobby.
Proof.
  split; [reflexivity|]. split; [split|]; unfold lobby; simpl.
  - intros k r [<- <-]%lookup_singleton_Some. done.
  - intros k u [[<- <-] | [_ [<- <-]%lookup_singleton_Some]]%lookup_insert_Some; done.
  - unfold store_ok. simpl. apply map_Forall_singleton. split; simpl.
    + apply NoDup_singleton.
    + unfold MaxRoomUsers. lia.
Qed.

Lemma leave_room_effect_witness :
  SignalingService.handleLeaveRoom 3 "u1" "R" lobby = Done None lobby ∧
  ∃ s',
    SignalingService.handleLeaveRoom 3 "u0" "anything" lobby = Done None s' ∧
    cachedRoom "u0" s' = "" ∧
    roomMembers (redis s') "R" = [].
Proof.
  destruct (leave_room_effect 3 "u1" "R" lobby lobby_settled) as [Hnone _].
  destruct (leave_room_effect 3 "u0" "anything" lobby lobby_settled) as [_ Hleft].
  split; [apply Hnone; reflexivity|].
  destruct (Hleft (User.mk "cookie" "R" 0 0) (UserSession.mk "u0" "cookie" "R" 0 0))
    as (s' & Hrun & Hcached & Hmem & _).
  - reflexivity.
  - discriminate.
  - reflexivity.
  - exists s'. split; [exact Hrun|]. split; [exact Hcached|].
    simpl in Hmem. rewrite Hmem. vm_compute. reflexivity.
Defined.

Section JoinMore.

Variable unmarshalJoinRoomData : RawMessage → option JoinRoomData.

#[local] Abbreviation handleJoinRoom :=
  (SignalingService.handleJoinRoom unmarshalJoinRoomData).

Lemma joinPrelude_outside now user roomID s :
  free s →
  cachedRoom user s = "" →
  joinPrelude now user roomID s = Done tt (set_redis (sweptStore now roomID s) s).
Proof.
  intros H Hroom. unfold joinPrelude.
  rewrite (bind_Done _ _ _ _ _ (eq_refl : getRoomID user s = Done (cachedRoom user s) s)).
  rewrite Hroom. simpl.
  rewrite (bind_Done _ _ _ _ _ (eq_refl : @ret error None s = Done None s)).
  by rewrite (bind_Done _ _ _ _ _ (cleanup_free _ _ _ H)).
Qed.

(** X18: a user in no room who asks to join a room in which [MaxRoomUsers]
    members have a connection gets one [room_full] frame and nothing else
    happens to the user: no cached room, no entry in the member list, no
    frame to anybody else. The room keeps its connected members. *)
Theorem join_refused_when_full now user msg joinData s :
  settled s →
  unmarshalJoinRoomData (Message.Data msg) = Some joinData →
  cachedRoom user s = "" →
  MaxRoomUsers ≤
    length (filter (connected s) (roomMembers (redis s) (jrd_RoomID joinData))) →
  ∃ s',
    handleJoinRoom now user msg s = Done None s' ∧
    wire s' = wire s ++ [(user, roomFullFrame now (jrd_RoomID joinData))] ∧
    roomMembers (redis s') (jrd_RoomID joinData) =
      filter (connected s) (roomMembers (redis s) (jrd_RoomID joinData)) ∧
    cachedRoom user s' = "" ∧
    connections s' = connections s ∧
    disciplined s s'.
Proof.
  intros (H & Hk & Hok) Hdec Hroom Hfull.
  destruct (sweptStore_effect now (jrd_RoomID joinData) s Hk Hok)
    as (Hk' & Hok' & Hmem & _ & _).
  rewrite (handleJoinRoom_run _ now user msg joinData s _ Hdec
             (joinPrelude_outside now user _ s H Hroom)) by solve_free.
  simpl. rewrite IsRoomFull_length. simpl.
  rewrite Hmem. rewrite bool_decide_eq_true_2 by done.
  eexists. split; [done|]. simpl. split; [done|]. split; [done|].
  split; [done|]. split; [done|].
  split; [|done]. split; [solve_free|]. done.
Qed.

(** X19: a connected user in no room, with a session record, who asks to
    join a room in which fewer than [MaxRoomUsers] members have a connection
    is let in. Afterwards the room lists its connected members from before,
    then the user; the user's cached room and session name the room; the
    frames written are the fan-out to the other connected members and the
    echo. *)
Theorem join_effect now user msg joinData s conn sess :
  settled s →
  unmarshalJoinRoomData (Message.Data msg) = Some joinData →
  connections s !! user = Some conn →
  User.RoomID conn = "" →
  users (redis s) !! user = Some sess →
  length (filter (connected s) (roomMembers (redis s) (jrd_RoomID joinData)))
    < MaxRoomUsers →
  let roomID := jrd_RoomID joinData in
  let present := filter (connected s) (roomMembers (redis s) roomID) in
  ∃ s',
    handleJoinRoom now user msg s = Done None s' ∧
    cachedRoom user s' = roomID ∧
    roomMembers (redis s') roomID =
      present ++ (if decide (user ∈ present) then [] else [user]) ∧
    users (redis s') !! user =
      Some (UserSession.mk user (UserSession.SessionID sess) roomID
              (UserSession.CreatedAt sess) now) ∧
    wire s' =
      wire s ++ joinFrames now roomID user (filter (λ id, id ≠ user) present) ∧
    disciplined s s'.
Proof.
  intros (H & Hk & Hok) Hdec Hc Hnone Hu Hlen roomID present.
  assert (connected s user) as Hconn by (by eexists).
  assert (cachedRoom user s = "") as Hroom by (by rewrite (cachedRoom_lookup _ _ _ Hc)).
  destruct (sweptStore_effect now roomID s Hk Hok)
    as (Hk' & Hok' & Hmem & _ & Hus).
  rewrite (handleJoinRoom_run _ now user msg joinData s _ Hdec
             (joinPrelude_outside now user _ s H Hroom)) by solve_free.
  simpl. rewrite IsRoomFull_length. simpl. fold roomID.
  rewrite Hmem. fold present.
  rewrite bool_decide_eq_false_2 by (unfold present, roomID; lia).
  assert (users (sweptStore now roomID s) !! user = Some sess) as Hu'
    by (by rewrite Hus).
  assert (length (roomMembers (sweptStore now roomID s) roomID) < MaxRoomUsers) as Hlen'
    by (by rewrite Hmem).
  destruct (JoinRoom_let_in now user roomID _ sess Hk' Hu' Hlen')
    as (room & Hret & Hstored & Hmembers & Hin & Hmax & Hsess).
  rewrite Hmem in Hmembers. fold present in Hmembers.
  rewrite Hret. simpl.
  assert (roomMembers (RoomService.JoinRoom now user roomID (sweptStore now roomID s)).2
            roomID = present ++ (if decide (user ∈ present) then [] else [user]))
    as Hafter.
  { unfold roomMembers at 1. by rewrite Hstored. }
  eexists. split; [done|]. simpl.
  split; [|split; [done|split; [done|split]]].
  - apply (cachedRoom_altered user roomID s); [done|done].
  - do 2 f_equal. rewrite Hafter.
    rewrite filter_app.
    assert (filter (λ id, id ≠ user) (if decide (user ∈ present) then [] else [user]) = [])
      as ->.
    { destruct (decide _); [done|]. by rewrite filter_cons_False by (intros Hn; by apply Hn). }
    rewrite app_nil_r.
    rewrite (list_filter_filter (connected s) (λ id, id ≠ user)).
    apply filter_ext_elem_of. intros x [Hcx _]%list_elem_of_filter. tauto.
  - split; [|split; [done|]].
    + split; [solve_free|]. simpl.
      split; [by apply JoinRoom_keyed | by apply JoinRoom_store_ok].
    + by apply (connected_altered s _ (User.withRoomID roomID) user).
Qed.

End JoinMore.

Lemma crowded_settled : settled crowded.
Proof.
  split; [reflexivity|]. split; [split|].
  - unfold crowded. simpl. intros k r [<- <-]%lookup_singleton_Some. done.
  - unfold crowded. cbn [redis users]. intros k u Hu.
    apply elem_of_list_to_map_2 in Hu.
    apply list_elem_of_fmap in Hu as (userID & [= -> ->] & _). done.
  - unfold store_ok, crowded. simpl. apply map_Forall_singleton. split; simpl.
    + apply (bool_decide_unpack _). vm_compute. exact I.
    + unfold MaxRoomUsers. lia.
Qed.

Lemma join_refused_when_full_witness :
  ∃ s',
    SignalingService.handleJoinRoom sampleJoinRoomData 5 "u10" joinR10 crowded =
      Done None s' ∧
    wire s' = [("u10", roomFullFrame 5 "R")] ∧
    cachedRoom "u10" s' = "".
Proof.
  destruct (join_refused_when_full sampleJoinRoomData 5 "u10" joinR10
              {| jrd_RoomID := "R" |} crowded crowded_settled)
    as (s' & Hrun & Hwire & _ & Hcached & _).
  - reflexivity.
  - vm_compute. reflexivity.
  - vm_compute. lia.
  - exists s'. split; [exact Hrun|]. split; [exact Hwire | exact Hcached].
Defined.

Lemma join_effect_witness :
  ∃ s',
    SignalingService.handleJoinRoom sampleJoinRoomData 5 "u1" joinR lobby = Done None s' ∧
    cachedRoom "u1" s' = "R" ∧
    roomMembers (redis s') "R" = ["u0"; "u1"].
Proof.
  destruct (join_effect sampleJoinRoomData 5 "u1" joinR {| jrd_RoomID := "R" |} lobby
              (User.mk "cookie" "" 0 0) (session "u1") lobby_settled)
    as (s' & Hrun & Hcached & Hmem & _).
  - reflexivity.
  - reflexivity.
  - reflexivity.
  - reflexivity.
  - vm_compute. lia.
  - exists s'. split; [exact Hrun|]. split; [exact Hcached|].
    simpl in Hmem. rewrite Hmem. vm_compute. reflexivity.
Defined.

(** ** The read loop and the locking discipline *)

Lemma handleLeaveRoom_disciplined now user roomID s :
  settled s →
  ∃ s', SignalingService.handleLeaveRoom now user roomID s = Done None s' ∧
        disciplined s s'.
Proof.
  intros Hs. pose proof Hs as (H & Hk & Hok).
  rewrite handleLeaveRoom_free by done. simpl.
  case_bool_decide as Hroom.
  - exists s. split; [done|]. by apply disciplined_refl.
  - pose proof (LeaveRoom_keyed now user (cachedRoom user s) (redis s) Hk) as Hk'.
    pose proof (LeaveRoom_store_ok now user (cachedRoom user s) (redis s) Hok) as Hok'.
    destruct (RoomService.LeaveRoom now user (cachedRoom user s) (redis s)).1.
    + eexists. split; [done|]. split; [|done]. split; [solve_free|]. done.
    + eexists. split; [done|]. split; [|split; [done|]].
      * split; [solve_free|]. done.
      * by apply (connected_altered s _ (User.withRoomID "") user).
Qed.

Lemma joinPrelude_disciplined now user roomID s :
  settled s → ∃ s1, joinPrelude now user roomID s = Done tt s1 ∧ disciplined s s1.
Proof.
  intros Hs. unfold joinPrelude.
  rewrite (bind_Done _ _ _ _ _ (eq_refl : getRoomID user s = Done (cachedRoom user s) s)).
  assert (∃ s0,
    (if bool_decide (cachedRoom user s ≠ "") && bool_decide (cachedRoom user s ≠ roomID)
     then SignalingService.handleLeaveRoom now user (cachedRoom user s)
     else ret None) s = Done None s0 ∧ disciplined s s0) as (s0 & Hrun & Hd).
  { destruct (bool_decide (cachedRoom user s ≠ "") && bool_decide (cachedRoom user s ≠ roomID)).
    - by apply handleLeaveRoom_disciplined.
    - exists s. split; [done|]. by apply disciplined_refl. }
  rewrite (bind_Done _ _ _ _ _ Hrun).
  pose proof Hd as ((H0 & Hk0 & Hok0) & _).
  rewrite (bind_Done _ _ _ _ _ (cleanup_free _ _ _ H0)).
  destruct (sweptStore_effect now roomID s0 Hk0 Hok0) as (Hk' & Hok' & _).
  eexists. split; [done|].
  apply (disciplined_trans s s0); [done|]. by apply disciplined_redis.
Qed.

Lemma relay_disciplined now user msg what s :
  settled s → ∃ r s', relay now user msg what s = Done r s' ∧ disciplined s s'.
Proof.
  intros Hs. unfold relay.
  repeat first [case_bool_decide | destruct (decide _)];
    eexists _, _; (split; [done|]);
    first [by apply disciplined_wire | by apply disciplined_refl].
Qed.

Lemma UpdateUserActivity_keeps now userID db :
  keyed db → store_ok db →
  keyed (UserService.UpdateUserActivity now userID db).2 ∧
  store_ok (UserService.UpdateUserActivity now userID db).2.
Proof.
  intros [Hrooms Husers] Hok.
  unfold UserService.UpdateUserActivity, RedisRepository.GetUser,
    RedisRepository.SaveUser, kv_bind, kv_ret. simpl.
  destruct (users db !! userID) as [u|] eqn:Hu; simpl; [|done].
  split; [|done]. split; simpl; [done|].
  intros k u' [[<- <-] | [_ Hold]]%lookup_insert_Some; [done | by apply Husers].
Qed.

Section Loop.

Variable unmarshalMessage : string → option Message.t.
Variable unmarshalJoinRoomData : RawMessage → option JoinRoomData.

#[local] Abbreviation HandleMessage :=
  (SignalingService.HandleMessage unmarshalMessage unmarshalJoinRoomData).
#[local] Abbreviation handleConnection :=
  (WebSocketHandler.handleConnection unmarshalMessage unmarshalJoinRoomData).

Lemma handleJoinRoom_disciplined now user msg s :
  settled s →
  ∃ r s', SignalingService.handleJoinRoom unmarshalJoinRoomData now user msg s =
            Done r s' ∧ disciplined s s'.
Proof.
  intros Hs.
  destruct (unmarshalJoinRoomData (Message.Data msg)) as [joinData|] eqn:Hdec.
  2:{ unfold SignalingService.handleJoinRoom. rewrite Hdec.
      destruct Hs as (H & Hk & Hok). rewrite sendError_free by done.
      eexists _, _. split; [done|]. by apply disciplined_wire. }
  destruct (joinPrelude_disciplined now user (jrd_RoomID joinData) s Hs)
    as (s1 & Hpre & Hd).
  pose proof Hd as (Hs1 & _). pose proof Hs1 as (H1 & Hk1 & Hok1).
  rewrite (handleJoinRoom_run _ _ _ _ _ _ _ Hdec Hpre H1). simpl.
  destruct (RoomService.IsRoomFull (jrd_RoomID joinData) (redis s1)).1.1.
  { eexists _, _. split; [done|].
    apply (disciplined_trans s s1); [done|]. by apply disciplined_wire. }
  pose proof (JoinRoom_keyed now user (jrd_RoomID joinData) (redis s1) Hk1) as Hk'.
  pose proof (JoinRoom_store_ok now user (jrd_RoomID joinData) (redis s1) Hok1) as Hok'.
  destruct (RoomService.JoinRoom now user (jrd_RoomID joinData) (redis s1)).1.2.
  - eexists _, _. split; [done|].
    apply (disciplined_trans s s1); [done|].
    split; [|done]. split; [solve_free|]. done.
  - eexists _, _. split; [done|].
    apply (disciplined_trans s s1); [done|].
    split; [|split; [done|]].
    + split; [solve_free|]. done.
    + by apply (connected_altered s1 _ (User.withRoomID (jrd_RoomID joinData)) user).
Qed.

Lemma HandleMessage_disciplined now userID data s :
  settled s →
  ∃ r s', HandleMessage now userID data s = Done r s' ∧ disciplined s s'.
Proof.
  intros Hs. pose proof Hs as (H & _ & _).
  unfold SignalingService.HandleMessage.
  destruct (unmarshalMessage data) as [msg|].
  2:{ eexists _, s. split; [done|]. by apply disciplined_refl. }
  step GetConnection_free.
  destruct (decide (connected s userID)).
  2:{ eexists _, s. split; [done|]. by apply disciplined_refl. }
  case_bool_decide; [by apply handleJoinRoom_disciplined|].
  case_bool_decide.
  { destruct (handleLeaveRoom_disciplined now userID
                (Message.RoomID (Message.stamp userID now msg)) s Hs) as (s' & -> & Hd).
    by eexists _, _. }
  case_bool_decide; [rewrite handleOffer_free by done; by apply relay_disciplined|].
  case_bool_decide; [rewrite handleAnswer_free by done; by apply relay_disciplined|].
  case_bool_decide; [rewrite handleIceCandidate_free by done; by apply relay_disciplined|].
  eexists _, s. split; [done|]. by apply disciplined_refl.
Qed.

(** X20: the read loop keeps to the locking discipline. Started with the
    registry lock free on a well-formed store, [handleConnection] handles
    every frame it is given, of whatever content and from whatever user id:
    it is never parked on the registry lock, it ends with the lock free, it
    makes no call to the store and no write to a stream while it holds the
    lock, it leaves the store well formed, and it neither adds nor removes a
    registry entry. *)
Theorem read_loop_disciplined userID frames s :
  settled s →
  ∃ s',
    handleConnection userID frames s = Done tt s' ∧
    free s' ∧
    heldAcross s' = heldAcross s ∧
    keyed (redis s') ∧ store_ok (redis s') ∧
    (∀ other, connected s' other ↔ connected s other).
Proof.
  intros Hs.
  cut (∃ s', handleConnection userID frames s = Done tt s' ∧ disciplined s s').
  { intros (s' & Hrun & (H' & Hk' & Hok') & Hh & Hc). by exists s'. }
  revert s Hs. induction frames as [|[now data] rest IH]; intros s Hs.
  - exists s. split; [done|]. by apply disciplined_refl.
  - simpl.
    destruct (HandleMessage_disciplined now userID data s Hs) as (r & s1 & Hrun & Hd1).
    rewrite (bind_Done _ _ _ _ _ Hrun).
    pose proof Hd1 as ((H1 & Hk1 & Hok1) & _).
    rewrite (bind_Done _ _ _ _ _ (kv_free _ _ H1)).
    destruct (UpdateUserActivity_keeps now userID (redis s1) Hk1 Hok1) as [Hk2 Hok2].
    destruct (IH (set_redis (UserService.UpdateUserActivity now userID (redis s1)).2 s1))
      as (s' & Hloop & Hd').
    { split; [solve_free|]. done. }
    exists s'. split; [done|].
    apply (disciplined_trans s s1); [done|].
    eapply disciplined_trans; [|exact Hd']. by apply disciplined_redis.
Qed.

(** X21: the checks of the relaying handlers, in their order. A sender with
    no cached room gets the 400 "User not in a room" error frame, whatever
    the target. A sender in a room who names no target gets a 400 error frame
    that asks for the target. In both cases nothing is relayed and nothing
    else changes. *)
Theorem relay_validation now sender data msg s :
  free s →
  unmarshalMessage data = Some msg →
  Message.Type_ msg ∈ relayedKinds →
  connected s sender →
  (cachedRoom sender s = "" →
     HandleMessage now sender data s =
       Done None
         (set_wire (wire s ++ [(sender, errorFrame now 400 "User not in a room")]) s)) ∧
  (cachedRoom sender s ≠ "" → Message.TargetID msg = "" →
     ∃ what,
       HandleMessage now sender data s =
         Done None
           (set_wire
              (wire s ++
               [(sender, errorFrame now 400 ("Target user ID required for " +:+ what))])
              s)).
Proof.
  intros H Hparse Hkind Hconn.
  destruct (HandleMessage_relayed _ unmarshalJoinRoomData now sender data msg s
              H Hparse Hkind Hconn) as [what ->].
  unfold relay. simpl. split.
  - intros Hroom. by rewrite bool_decide_eq_true_2.
  - intros Hroom Htarget. exists what.
    rewrite bool_decide_eq_false_2 by done.
    by rewrite bool_decide_eq_false_2 by (intros Hne; by apply Hne).
Qed.

(** X22: a frame that parses, handed in for a user id with no entry in the
    registry, is not dispatched, whatever its kind: [HandleMessage] returns
    "user connection not found" and nothing changes. *)
Theorem HandleMessage_unregistered now userID data msg s :
  free s →
  unmarshalMessage data = Some msg →
  ¬ connected s userID →
  HandleMessage now userID data s =
    Done (Some ("user connection not found: " +:+ userID)) s.
Proof.
  intros H Hparse Hgone. unfold SignalingService.HandleMessage. rewrite Hparse.
  step GetConnection_free. by rewrite decide_False.
Qed.

End Loop.

Lemma read_loop_disciplined_witness :
  ∃ s',
    WebSocketHandler.handleConnection sampleMessage sampleJoinRoomData "u1"
      [(5, "join R"); (6, "not json"); (7, "offer to u0"); (8, "offer to ghost")]%Z
      lobby = Done tt s' ∧
    free s' ∧ heldAcross s' = [].
Proof.
  destruct (read_loop_disciplined sampleMessage sampleJoinRoomData "u1"
              [(5, "join R"); (6, "not json"); (7, "offer to u0"); (8, "offer to ghost")]%Z
              lobby lobby_settled)
    as (s' & Hrun & Hfree & Hheld & _).
  exists s'. split; [exact Hrun|]. split; [exact Hfree | exact Hheld].
Defined.

Lemma relay_validation_witness :
  SignalingService.HandleMessage sampleMessage sampleJoinRoomData 7 "u1" "offer to u0"
    lobby =
    Done None (set_wire [("u1", errorFrame 7 400 "User not in a room")] lobby).
Proof.
  apply (relay_validation sampleMessage sampleJoinRoomData 7 "u1" "offer to u0"
           (Message.mk MessageTypeOffer "" "" "u0" (Bytes "{sdp:x,type:offer}") 0) lobby).
  - reflexivity.
  - reflexivity.
  - simpl. left.
  - exact lobby_connected_u1.
  - reflexivity.
Defined.

Lemma HandleMessage_unregistered_witness :
  SignalingService.HandleMessage sampleMessage sampleJoinRoomData 7 "ghost" "join R"
    lobby = Done (Some "user connection not found: ghost") lobby.
Proof.
  apply (HandleMessage_unregistered sampleMessage sampleJoinRoomData 7 "ghost" "join R"
           (Message.mk MessageTypeJoinRoom "" "" "" (Bytes "R") 0) lobby).
  - reflexivity.
  - reflexivity.
  - exact lobby_no_ghost.
Defined.

(** ** Session cookies and configuration *)

Lemma SessionMiddleware_kept newID r value :
  Middleware.cookie r = Some value → value ≠ "" →
  Middleware.SessionMiddleware newID r = (Middleware.setSessionID r value, None).
Proof.
  intros Hc Hne. unfold Middleware.SessionMiddleware. rewrite Hc.
  by rewrite bool_decide_eq_false_2.
Qed.

Lemma SessionMiddleware_minted newID r :
  Middleware.cookie r = None ∨ Middleware.cookie r = Some "" →
  Middleware.SessionMiddleware newID r =
    (Middleware.setSessionID r newID, Some newID).
Proof. intros [Hc|Hc]; unfold Middleware.SessionMiddleware; by rewrite Hc. Qed.

Lemma GetSessionID_set r sessionID :
  Middleware.GetSessionID (Middleware.setSessionID r sessionID) =
    if bool_decide (sessionID ≠ "") then sessionID
    else default "" (Middleware.cookie r).
Proof.
  unfold Middleware.GetSessionID, Middleware.getSessionIDFromContext. simpl.
  case_bool_decide; [done|]. by destruct (Middleware.cookie r).
Qed.

(** X23: behind [SessionMiddleware], [GetSessionID] gives the value of the
    request's session cookie when the request has one that is not empty, and
    then no cookie is set on the response. Otherwise it gives the id that was
    minted, and that id is set as the cookie. With a minted id that is not
    empty the session id is never empty. The request's own cookie is passed
    on unchanged. *)
Theorem session_behind_middleware newID r :
  (∀ value, Middleware.cookie r = Some value → value ≠ "" →
     Middleware.GetSessionID (Middleware.SessionMiddleware newID r).1 = value ∧
     (Middleware.SessionMiddleware newID r).2 = None) ∧
  (Middleware.cookie r = None ∨ Middleware.cookie r = Some "" →
     Middleware.GetSessionID (Middleware.SessionMiddleware newID r).1 = newID ∧
     (Middleware.SessionMiddleware newID r).2 = Some newID) ∧
  (newID ≠ "" → Middleware.GetSessionID (Middleware.SessionMiddleware newID r).1 ≠ "") ∧
  Middleware.cookie (Middleware.SessionMiddleware newID r).1 = Middleware.cookie r.
Proof.
  split; [|split; [|split]].
  - intros value Hc Hne. rewrite (SessionMiddleware_kept _ _ _ Hc Hne). simpl.
    rewrite GetSessionID_set. by rewrite bool_decide_eq_true_2.
  - intros Hc. rewrite (SessionMiddleware_minted _ _ Hc). simpl.
    rewrite GetSessionID_set. split; [|done].
    case_bool_decide as Hid; [done|].
    assert (newID = "") as -> by (destruct (decide (newID = "")); [done | by elim Hid]).
    by destruct Hc as [-> | ->].
  - intros Hne.
    destruct (Middleware.cookie r) as [value|] eqn:Hc.
    + destruct (decide (value = "")) as [->|Hv].
      * rewrite SessionMiddleware_minted by (by right). simpl.
        rewrite GetSessionID_set. by rewrite bool_decide_eq_true_2.
      * rewrite (SessionMiddleware_kept _ _ _ Hc Hv). simpl.
        rewrite GetSessionID_set. by rewrite bool_decide_eq_true_2.
    + rewrite SessionMiddleware_minted by (by left). simpl.
      rewrite GetSessionID_set. by rewrite bool_decide_eq_true_2.
  - unfold Middleware.SessionMiddleware.
    destruct (Middleware.cookie r) as [value|] eqn:Hc; [|by rewrite <- Hc].
    case_bool_decide; by rewrite <- Hc.
Qed.

Lemma session_behind_middleware_witness :
  Middleware.GetSessionID
    (Middleware.SessionMiddleware "fresh"
       {| Middleware.cookie := Some "S1"; Middleware.contextSessionID := None |}).1 = "S1" ∧
  Middleware.GetSessionID
    (Middleware.SessionMiddleware "fresh"
       {| Middleware.cookie := Some ""; Middleware.contextSessionID := None |}).1 = "fresh".
Proof.
  destruct (session_behind_middleware "fresh"
              {| Middleware.cookie := Some "S1"; Middleware.contextSessionID := None |})
    as (Hkept & _).
  destruct (session_behind_middleware "fresh"
              {| Middleware.cookie := Some ""; Middleware.contextSessionID := None |})
    as (_ & Hminted & _).
  split.
  - apply (Hkept "S1"); [reflexivity | discriminate].
  - apply Hminted. right. reflexivity.
Defined.

Lemma Getenv_nonempty (env : gmap string string) (key : string) :
  Config.Getenv (filter (λ kv, kv.2 ≠ "") env) key = Config.Getenv env key.
Proof.
  unfold Config.Getenv.
  destruct (env !! key) as [value|] eqn:Hv; simpl.
  - destruct (decide (value = "")) as [->|Hne].
    + rewrite (proj2 (map_lookup_filter_None _ env key)); [done|].
      right. intros x Hx. rewrite Hv in Hx. injection Hx as <-. simpl. by intros Hn.
    + by rewrite (map_lookup_filter_Some_2 _ env key value).
  - rewrite (proj2 (map_lookup_filter_None _ env key)); [done|]. by left.
Qed.

(** X24: [Load] treats a variable that is set to the empty string as one
    that is not set: the configuration read from an environment is the one
    read from its variables that are not empty. A number that does not parse
    gives the default, and the empty environment gives the defaults
    throughout. *)
Theorem Load_defaults (Atoi : string → option Z) (env : gmap string string) :
  Config.Load Atoi (filter (λ kv, kv.2 ≠ "") env) = Config.Load Atoi env ∧
  (∀ key defaultValue,
     Atoi (Config.Getenv env key) = None →
     Config.getEnvAsInt Atoi env key defaultValue = defaultValue) ∧
  (∀ key defaultValue,
     defaultValue ≠ "" → Config.getEnv env key defaultValue ≠ "") ∧
  Config.Load Atoi ∅ =
    {| Config.Server :=
         {| Config.Port := "8080"; Config.Host := "0.0.0.0";
            Config.ReadTimeout := 60; Config.WriteTimeout := 60 |};
       Config.Redis :=
         {| Config.RedisHost := "localhost"; Config.RedisPort := "6379";
            Config.Password := ""; Config.DB := 0 |};
       Config.STUN := ["stun:localhost:3478"; "turn:localhost:3478"] |}.
Proof.
  split; [|split; [|split]].
  - unfold Config.Load, Config.getEnv, Config.getEnvAsInt.
    by rewrite !Getenv_nonempty.
  - intros key defaultValue Hbad. unfold Config.getEnvAsInt. rewrite Hbad.
    by case_bool_decide.
  - intros key defaultValue Hne. unfold Config.getEnv. by case_bool_decide.
  - reflexivity.
Qed.

Lemma Load_defaults_witness :
  Config.ReadTimeout (Config.Server (Config.Load sampleAtoi sampleEnv)) = 30%Z ∧
  Config.getEnvAsInt sampleAtoi sampleEnv "WRITE_TIMEOUT" 60 = 60%Z ∧
  Config.getEnv sampleEnv "SERVER_PORT" "8080" ≠ "".
Proof.
  destruct (Load_defaults sampleAtoi sampleEnv) as (_ & Hbad & Hdefault & _).
  split; [vm_compute; reflexivity|]. split.
  - apply Hbad. vm_compute. reflexivity.
  - apply Hdefault. discriminate.
Defined.

(** ** Disconnecting from inside a room *)

(** X25: [RemoveConnection] of a user who is in a room and has a session
    record, called with the registry lock free on a well-formed store. The
    user is taken out of the room's member list by calls to the store made
    with the lock held, and then the goroutine is parked on the lock it
    holds: the lock stays taken, the registry entry stays, and no [user_left]
    frame, nor any other, is written. *)
Theorem disconnect_in_room now userID user sess s :
  settled s →
  connections s !! userID = Some user →
  User.RoomID user ≠ "" →
  users (redis s) !! userID = Some sess →
  ∃ s',
    SignalingService.RemoveConnection now userID s = Parked s' ∧
    writer (connMutex s') = true ∧
    connections s' = connections s ∧
    heldAcross s' = heldAcross s ++ [AtKV; AtKV] ∧
    roomMembers (redis s') (User.RoomID user) =
      filter (λ id, id ≠ userID) (roomMembers (redis s) (User.RoomID user)) ∧
    wire s' = wire s.
Proof.
  intros (H & Hk & Hok) Hc Hroom Hu.
  rewrite (RemoveConnection_in_room now userID user s H Hc Hroom). simpl.
  destruct (LeaveRoom_with_session now userID (User.RoomID user) (redis s) sess Hk Hu)
    as [Hnil _].
  destruct (LeaveRoom_members now userID (User.RoomID user) (redis s) Hk Hok)
    as [Hmem _].
  rewrite Hnil. eexists. split; [done|]. simpl. done.
Qed.

Lemma disconnect_in_room_witness :
  ∃ s',
    SignalingService.RemoveConnection 9 "u0" lobby = Parked s' ∧
    writer (connMutex s') = true ∧
    roomMembers (redis s') "R" = [] ∧
    wire s' = [].
Proof.
  destruct (disconnect_in_room 9 "u0" (User.mk "cookie" "R" 0 0)
              (UserSession.mk "u0" "cookie" "R" 0 0) lobby lobby_settled)
    as (s' & Hrun & Hlock & _ & _ & Hmem & Hwire).
  - reflexivity.
  - discriminate.
  - reflexivity.
  - exists s'. split; [exact Hrun|]. split; [exact Hlock|]. split; [|exact Hwire].
    simpl in Hmem. rewrite Hmem. vm_compute. reflexivity.
Defined.
